(** * gitfolio: the fetch / render / export core, embedded in Rocq

    The development follows the four JavaScript modules of the repository:

    - [GitHubAPI]      (js/github-api.js): cache slot, rate limiter, paginated
      repository fetch, enrichment, readme excerpt extraction;
    - [TemplateEngine] (js/template-engine.js): filtering, sorting, featured
      selection, card and page rendering;
    - [SEOGenerator]   (seo generator): splicing of generated metadata into a
      rendered page, attribute and XML escaping, the sitemap;
    - [ExportHandler]  (export handler): the exported document, with the
      metadata and the colour variables injected.

    Conventions of the embedding.

    - A JavaScript string is a [string]: a sequence of 8-bit units.  ASCII
      text is represented exactly, and so is the output of [atob], whose
      code units are bytes; the few non-ASCII glyphs of the page templates
      appear as the bytes of their UTF-8 encoding.
    - [null] / [undefined] fields are [option]s.
    - Arrays that the template engine copies, filters and sorts live in an
      explicit heap, so that in-place updates and aliasing are visible.
    - Network, clock and storage are an environment of oracles; the API
      functions run in a state-and-exception monad over a [World]. *)

From Stdlib Require Import ZArith Lia List String Ascii Bool.
From Stdlib Require Import DecimalString.
From stdpp Require Import base list strings.
Import ListNotations.

Open Scope string_scope.

(* ===================================================================== *)
(** * JavaScript string primitives                                        *)
(* ===================================================================== *)

Module JS.

(** The double-quote character, spliced into template text. *)
Definition dq : string := String (ascii_of_nat 34) EmptyString.

(** The line-feed character. *)
Definition newline : string := String "010" EmptyString.

(** Truthiness of a string: only the empty string is falsy. *)
Definition truthy (s : string) : bool :=
  match s with EmptyString => false | String _ _ => true end.

(** [a || b] on nullable strings, with a string default. *)
Definition or_else (o : option string) (d : string) : string :=
  match o with
  | Some s => if truthy s then s else d
  | None => d
  end.

(** The white space and line terminators that [String.prototype.trim]
    removes, among the code units below 256: tab, line feed, vertical
    tab, form feed, carriage return, space and the no-break space
    (160). *)
Definition isWhite (c : ascii) : bool :=
  let n := nat_of_ascii c in
  (n =? 32)%nat || (n =? 9)%nat || (n =? 10)%nat
  || (n =? 11)%nat || (n =? 12)%nat || (n =? 13)%nat
  || (n =? 160)%nat.

Fixpoint trimStart (s : string) : string :=
  match s with
  | EmptyString => EmptyString
  | String a s' => if isWhite a then trimStart s' else s
  end.

Fixpoint trimEnd (s : string) : string :=
  match s with
  | EmptyString => EmptyString
  | String a s' =>
      match trimEnd s' with
      | EmptyString => if isWhite a then EmptyString else String a EmptyString
      | r => String a r
      end
  end.

Definition trim (s : string) : string := trimEnd (trimStart s).

(** [s.startsWith(p)]. *)
Definition startsWith (p s : string) : bool := String.prefix p s.

(** [s.split(c)] for a one-character separator. *)
Fixpoint split (sep : ascii) (s : string) : list string :=
  match s with
  | EmptyString => [EmptyString]
  | String a s' =>
      if Ascii.eqb a sep then EmptyString :: split sep s'
      else match split sep s' with
           | h :: t => String a h :: t
           | [] => [String a EmptyString]
           end
  end.

(** [s.slice(0, n)] and [s.slice(n)]. *)
Fixpoint take (n : nat) (s : string) : string :=
  match n, s with
  | S k, String a s' => String a (take k s')
  | _, _ => EmptyString
  end.

Fixpoint drop (n : nat) (s : string) : string :=
  match n, s with
  | S k, String _ s' => drop k s'
  | _, _ => s
  end.

(** [s.indexOf(needle)]: position of the first occurrence, [None] for -1. *)
Fixpoint indexOf (needle s : string) : option nat :=
  if String.prefix needle s then Some 0%nat
  else match s with
       | EmptyString => None
       | String _ s' => option_map S (indexOf needle s')
       end.

(** [arr.join(sep)]. *)
Fixpoint join (sep : string) (l : list string) : string :=
  match l with
  | [] => EmptyString
  | [x] => x
  | x :: rest => x ++ sep ++ join sep rest
  end.

(** [s.replace(/c/g, rep)] for a one-character pattern. *)
Fixpoint replaceChar (c : ascii) (rep : string) (s : string) : string :=
  match s with
  | EmptyString => EmptyString
  | String a s' =>
      if Ascii.eqb a c then rep ++ replaceChar c rep s'
      else String a (replaceChar c rep s')
  end.

(** Does character [c] occur in [s]? *)
Fixpoint mem (c : ascii) (s : string) : bool :=
  match s with
  | EmptyString => false
  | String a s' => Ascii.eqb a c || mem c s'
  end.

(** Decimal rendering of numbers interpolated into text. *)
Definition string_of_nat (n : nat) : string :=
  NilEmpty.string_of_uint (Nat.to_uint n).

Definition string_of_Z (z : Z) : string :=
  NilEmpty.string_of_int (Z.to_int z).

(** ** The regular-expression fragment used by the readme cleaner

    Every pattern of [extractFirstParagraph] is a sequence of literal
    characters and runs [[^c]+], one of which is the capture group [$1].
    Runs are greedy and backtrack, as in the JavaScript engine. *)
Inductive atom : Type :=
| Lit (c : ascii)      (* a literal character *)
| Run (c : ascii)      (* [^c]+ *)
| Group (c : ascii).   (* ([^c]+) *)

Definition regex := list atom.

(** [run c capture k s]: consume one or more characters other than [c],
    longest first, then continue with [k].  The result is the text of
    group 1 and the number of characters matched. *)
Fixpoint run (c : ascii) (capture : bool)
         (k : string -> option (string * nat)) (s : string)
  : option (string * nat) :=
  match s with
  | EmptyString => None
  | String a s' =>
      if Ascii.eqb a c then None
      else match run c capture k s' with
           | Some (cap, n) =>
               Some (if capture then String a cap else cap, S n)
           | None =>
               match k s' with
               | Some (cap, n) =>
                   Some (if capture then String a EmptyString else cap, S n)
               | None => None
               end
           end
  end.

(** Match [re] at the start of [s]. *)
Fixpoint exec (re : regex) (s : string) : option (string * nat) :=
  match re with
  | [] => Some (EmptyString, 0%nat)
  | Lit c :: re' =>
      match s with
      | String a s' =>
          if Ascii.eqb a c then
            match exec re' s' with
            | Some (cap, n) => Some (cap, S n)
            | None => None
            end
          else None
      | EmptyString => None
      end
  | Run c :: re' => run c false (exec re') s
  | Group c :: re' => run c true (exec re') s
  end.

(** [s.replace(re, '$1')] with the global flag: scan left to right; at a
    match emit group 1 and resume after the match ([skip] counts the
    characters of the current match still to pass over). *)
Fixpoint replaceAll_from (re : regex) (skip : nat) (s : string) : string :=
  match s with
  | EmptyString => EmptyString
  | String a s' =>
      match skip with
      | S k => replaceAll_from re k s'
      | O =>
          match exec re s with
          | Some (cap, n) => cap ++ replaceAll_from re (Nat.pred n) s'
          | None => String a (replaceAll_from re 0 s')
          end
      end
  end.

Definition replaceAll (re : regex) (s : string) : string :=
  replaceAll_from re 0 s.

End JS.

(* ===================================================================== *)
(** * Data model                                                          *)
(* ===================================================================== *)

(** A repository object as returned by the remote API, with the two
    enrichment fields added by [fetchUserData].  The two counts are
    always numbers, so the zero defaults of the star comparator never
    apply; [updated_at] is the instant its ISO text parses to
    (milliseconds). *)
Module Repo.
Record t : Type := mk {
  name : string;
  description : option string;
  html_url : string;
  homepage : option string;
  stargazers_count : Z;
  forks_count : Z;
  fork : bool;
  topics : option (list string);
  updated_at : Z;
  languageData : option (list (string * Z));  (* absent until enriched *)
  readmeExcerpt : option (option string)      (* absent / null / text *)
}.

Definition set_languageData (r : t) (v : list (string * Z)) : t :=
  mk (name r) (description r) (html_url r) (homepage r)
     (stargazers_count r) (forks_count r) (fork r) (topics r)
     (updated_at r) (Some v) (readmeExcerpt r).

Definition set_readmeExcerpt (r : t) (v : option string) : t :=
  mk (name r) (description r) (html_url r) (homepage r)
     (stargazers_count r) (forks_count r) (fork r) (topics r)
     (updated_at r) (languageData r) (Some v).
End Repo.

Module User.
Record t : Type := mk {
  login : string;
  name : option string;
  avatar_url : string;
  html_url : string;
  bio : option string;
  location : option string
}.
End User.

(** The snapshot assembled by [fetchUserData]; also the shape of the
    persisted cache record. *)
Module UserData.
Record t : Type := mk {
  username : string;
  repos : list Repo.t;
  userInfo : User.t;
  lastFetch : Z
}.
End UserData.

(** Caller-owned configuration.  An absent [featuredRepos] behaves as the
    empty list (the guard of [getFeaturedRepos]) and is identified with
    it. *)
Module Settings.
Record t : Type := mk {
  primaryColor : string;
  accentColor : string;
  bio : string;
  linkedin : string;
  twitter : string;
  email : string;
  filterStarred : bool;
  filterNoForks : bool;
  sortBy : string;
  featuredRepos : list string
}.

Definition set_filterStarred (b : bool) (s : t) : t :=
  mk (primaryColor s) (accentColor s) (bio s) (linkedin s) (twitter s)
     (email s) b (filterNoForks s) (sortBy s) (featuredRepos s).

(** The initial settings of the template engine. *)
Definition default : t :=
  mk "#6366f1" "#22d3ee" "" "" "" "" false true "stars" [].
End Settings.

(* ===================================================================== *)
(** * js/github-api.js                                                    *)
(* ===================================================================== *)

Module GitHubAPI.

Definition BASE_URL : string := "https://api.github.com".
Definition CACHE_DURATION : Z := 1000 * 60 * 30.
Definition perPage : nat := 100.

(** ** The remote service

    The four endpoints the module calls.  A request value stands for the
    URL built from it ([url]); the remote API is typed, so a parsed body
    has the shape of its endpoint ([Body]). *)
Inductive Request : Type :=
| UserReq (username : string)
| ReposReq (username : string) (page : nat)
| LanguagesReq (owner repo : string)
| ReadmeReq (owner repo : string).

Definition url (q : Request) : string :=
  match q with
  | UserReq username => BASE_URL ++ "/users/" ++ username
  | ReposReq username page =>
      BASE_URL ++ "/users/" ++ username ++ "/repos?per_page="
        ++ JS.string_of_nat perPage ++ "&page=" ++ JS.string_of_nat page
        ++ "&sort=updated"
  | LanguagesReq owner repo =>
      BASE_URL ++ "/repos/" ++ owner ++ "/" ++ repo ++ "/languages"
  | ReadmeReq owner repo =>
      BASE_URL ++ "/repos/" ++ owner ++ "/" ++ repo ++ "/readme"
  end.

Definition Body (q : Request) : Type :=
  match q with
  | UserReq _ => User.t
  | ReposReq _ _ => list Repo.t
  | LanguagesReq _ _ => list (string * Z)
  | ReadmeReq _ _ => string              (* the base64 [content] field *)
  end.

(** What the module reads of a response: the status, the two quota
    headers (absent or parsed), and the JSON body ([None] when
    [response.json()] rejects). *)
Record Response (B : Type) : Type := mkResponse {
  status : Z;
  hdrRemaining : option Z;
  hdrReset : option Z;
  json : option B
}.
Arguments mkResponse {B}.
Arguments status {B}.
Arguments hdrRemaining {B}.
Arguments hdrReset {B}.
Arguments json {B}.

Inductive Outcome (B : Type) : Type :=
| Rejected                      (* [fetch] itself fails *)
| Responded (r : Response B).
Arguments Rejected {B}.
Arguments Responded {B}.

Definition ok {B} (r : Response B) : bool :=
  (200 <=? status r)%Z && (status r <=? 299)%Z.

(** ** Local storage: the single cache slot *)
Inductive Item : Type :=
| Unparsable                    (* text that [JSON.parse] rejects *)
| Stored (d : UserData.t).      (* a record written by [setCachedData] *)

Inductive Storage : Type :=
| Disabled                      (* every access throws *)
| Slot (item : option Item).

(** ** Environment and mutable state *)
Record Env : Type := mkEnv {
  now : nat -> Z;                               (* n-th [Date.now()] *)
  fetch : nat -> forall q : Request, Outcome (Body q);  (* n-th request *)
  atob : string -> option string;               (* [None]: it throws *)
  fits : UserData.t -> bool                     (* storage quota *)
}.

Inductive Progress : Type :=
| UsingCached
| FetchingUser
| FetchingRepos
| Fetched (n : nat)
| FetchingLanguages
| Processing (done total : nat).

Record World : Type := mkWorld {
  clock : nat;                  (* number of clock reads so far *)
  sent : list string;           (* URLs requested so far, oldest first *)
  rateLimitRemaining : Z;
  rateLimitReset : option Z;
  storage : Storage;
  progress : list Progress      (* messages passed to [onProgress] *)
}.

Definition initial (st : Storage) : World :=
  mkWorld 0 [] 60 None st [].

(** ** Errors and the monad *)
Inductive Error : Type :=
| RateLimitWait (minutes : Z)
| UserNotFound
| RateLimitLater
| ApiError (code : Z)
| NoPublicRepos
| NetworkError                  (* rejected [fetch] *)
| BadJson                       (* rejected [response.json()] *)
| BadBase64                     (* [atob] threw *)
| StorageError.                 (* an uncaught storage access threw *)

(** The message of the errors the module constructs itself. *)
Definition message (e : Error) : option string :=
  match e with
  | RateLimitWait m =>
      Some ("Rate limit exceeded. Try again in " ++ JS.string_of_Z m
            ++ " minutes.")
  | UserNotFound => Some "User not found"
  | RateLimitLater => Some "Rate limit exceeded. Try again later."
  | ApiError c => Some ("GitHub API error: " ++ JS.string_of_Z c)
  | NoPublicRepos => Some "No public repositories found"
  | NetworkError | BadJson | BadBase64 | StorageError => None
  end.

Inductive Res (A : Type) : Type :=
| Ok (a : A)
| Throw (e : Error)
| OutOfFuel.                    (* the loop bound of the model ran out *)
Arguments Ok {A}.
Arguments Throw {A}.
Arguments OutOfFuel {A}.

Definition M (A : Type) : Type := World -> Res A * World.

Definition ret {A} (a : A) : M A := fun w => (Ok a, w).
Definition throw {A} (e : Error) : M A := fun w => (Throw e, w).
Definition bind {A B} (m : M A) (k : A -> M B) : M B :=
  fun w =>
    match m w with
    | (Ok a, w') => k a w'
    | (Throw e, w') => (Throw e, w')
    | (OutOfFuel, w') => (OutOfFuel, w')
    end.

(** [try { m } catch (e) { h }]. *)
Definition try_catch {A} (m : M A) (h : M A) : M A :=
  fun w =>
    match m w with
    | (Throw _, w') => h w'
    | r => r
    end.

Notation "x <- m ;; k" := (bind m (fun x => k))
  (at level 100, m at next level, right associativity).
Notation "m ;;; k" := (bind m (fun _ => k))
  (at level 100, right associativity).

Definition when (b : bool) (m : M unit) : M unit :=
  if b then m else ret tt.

Definition report (p : Progress) : M unit :=
  fun w => (Ok tt, mkWorld (clock w) (sent w) (rateLimitRemaining w)
                           (rateLimitReset w) (storage w)
                           (progress w ++ [p])).

(** Suspends the caller; the passing of time is the clock oracle's. *)
Definition sleep (ms : nat) : M unit := ret tt.

Definition ceil_div (x y : Z) : Z := (- ((- x) / y))%Z.

Section WithEnv.
Variable env : Env.

Definition Date_now : M Z :=
  fun w => (Ok (now env (clock w)),
            mkWorld (S (clock w)) (sent w) (rateLimitRemaining w)
                    (rateLimitReset w) (storage w) (progress w)).

(** [fetch(url, ...)]: the request is logged and answered by the
    oracle. *)
Definition do_fetch (q : Request) : M (Response (Body q)) :=
  fun w =>
    let w' := mkWorld (clock w) (sent w ++ [url q])
                      (rateLimitRemaining w) (rateLimitReset w)
                      (storage w) (progress w) in
    match fetch env (length (sent w)) q with
    | Rejected => (Throw NetworkError, w')
    | Responded r => (Ok r, w')
    end.

(** ** Cache *)
Definition getCachedData (username : string) : M (option UserData.t) :=
  fun w =>
    match storage w with
    | Disabled => (Ok None, w)                 (* caught: cache miss *)
    | Slot None => (Ok None, w)
    | Slot (Some Unparsable) => (Ok None, w)   (* caught: cache miss *)
    | Slot (Some (Stored data)) =>
        if negb (String.eqb (UserData.username data) username)
        then (Ok None, w)
        else
          (t <- Date_now ;;
           let age := (t - UserData.lastFetch data)%Z in
           if (age >? CACHE_DURATION)%Z then ret None
           else ret (Some data)) w
    end.

Definition setCachedData (username : string) (repos : list Repo.t)
           (userInfo : User.t) : M unit :=
  t <- Date_now ;;
  fun w =>
    let data := UserData.mk username repos userInfo t in
    match storage w with
    | Disabled => (Ok tt, w)                   (* caught *)
    | Slot _ =>
        if fits env data
        then (Ok tt, mkWorld (clock w) (sent w) (rateLimitRemaining w)
                             (rateLimitReset w) (Slot (Some (Stored data)))
                             (progress w))
        else (Ok tt, w)                        (* quota: caught *)
    end.

(** [localStorage.removeItem(CACHE_KEY)], outside any [try]. *)
Definition clearCache : M unit :=
  fun w =>
    match storage w with
    | Disabled => (Throw StorageError, w)      (* not caught *)
    | Slot _ => (Ok tt, mkWorld (clock w) (sent w) (rateLimitRemaining w)
                           (rateLimitReset w) (Slot None) (progress w))
    end.

(** ** Rate limiter and HTTP client *)
Definition updateRateLimit {B} (response : Response B) : M unit :=
  fun w =>
    let remaining :=
      match hdrRemaining response with
      | Some r => r
      | None => rateLimitRemaining w
      end in
    let reset :=
      match hdrReset response with
      | Some r => Some (r * 1000)%Z
      | None => rateLimitReset w
      end in
    (Ok tt, mkWorld (clock w) (sent w) remaining reset (storage w)
                    (progress w)).

(** The guard of [fetchWithRateLimit]; [&&] evaluates left to right,
    so the clock is read only when the first two conjuncts hold. *)
Definition exhausted : M (option Z) :=
  fun w =>
    if (rateLimitRemaining w <=? 0)%Z then
      match rateLimitReset w with
      | Some r =>
          if (r =? 0)%Z then (Ok None, w)
          else (t <- Date_now ;;
                if (t <? r)%Z then ret (Some r) else ret None) w
      | None => (Ok None, w)
      end
    else (Ok None, w).

Definition fetchWithRateLimit (q : Request) : M (Body q) :=
  guard <- exhausted ;;
  match guard with
  | Some r =>
      t <- Date_now ;;
      throw (RateLimitWait (ceil_div (r - t) 60000))
  | None =>
      response <- do_fetch q ;;
      updateRateLimit response ;;;
      if (status response =? 404)%Z then throw UserNotFound
      else if (status response =? 403)%Z then throw RateLimitLater
      else if negb (ok response) then throw (ApiError (status response))
      else match json response with
           | Some b => ret b
           | None => throw BadJson
           end
  end.

Definition fetchUser (username : string) : M User.t :=
  fetchWithRateLimit (UserReq username).

(** ** Paginator: the [while (true)] loop, bounded by [fuel] *)
Fixpoint fetchRepos_loop (fuel : nat) (username : string)
         (onProgress : bool) (repos : list Repo.t) (page : nat)
  : M (list Repo.t) :=
  match fuel with
  | O => fun w => (OutOfFuel, w)
  | S fuel' =>
      pageRepos <- fetchWithRateLimit (ReposReq username page) ;;
      if (length pageRepos =? 0)%nat then ret repos
      else
        let repos := (repos ++ pageRepos)%list in
        when onProgress (report (Fetched (length repos))) ;;;
        if (length pageRepos <? perPage)%nat then ret repos
        else
          sleep 100 ;;;
          fetchRepos_loop fuel' username onProgress repos (S page)
  end.

Definition fetchRepos (fuel : nat) (username : string)
           (onProgress : bool) : M (list Repo.t) :=
  fetchRepos_loop fuel username onProgress [] 1.

(** ** Enricher *)
Definition fetchLanguages (owner repo : string)
  : M (list (string * Z)) :=
  try_catch (fetchWithRateLimit (LanguagesReq owner repo))
            (ret []).

(** The four cleaning patterns: link, bold, italic, code. *)
Definition re_link : JS.regex :=
  [JS.Lit "["; JS.Group "]"; JS.Lit "]"; JS.Lit "("; JS.Run ")";
   JS.Lit ")"]%char.
Definition re_bold : JS.regex :=
  [JS.Lit "*"; JS.Lit "*"; JS.Group "*"; JS.Lit "*"; JS.Lit "*"]%char.
Definition re_italic : JS.regex :=
  [JS.Lit "*"; JS.Group "*"; JS.Lit "*"]%char.
Definition re_code : JS.regex :=
  [JS.Lit "`"; JS.Group "`"; JS.Lit "`"]%char.

(** The [for (const line of lines)] loop, with its [break]s and
    [continue]s; returns the accumulated paragraph. *)
Fixpoint scanLines (lines : list string) (paragraph : string)
         (foundContent : bool) : string :=
  match lines with
  | [] => paragraph
  | line :: rest =>
      let trimmed := JS.trim line in
      if negb (JS.truthy trimmed) then
        if foundContent && JS.truthy paragraph then paragraph
        else scanLines rest paragraph foundContent
      else if JS.startsWith "#" trimmed then
        scanLines rest paragraph foundContent
      else if JS.startsWith "![" trimmed then
        scanLines rest paragraph foundContent
      else if JS.startsWith "[!" trimmed then
        scanLines rest paragraph foundContent
      else if JS.startsWith "[![" trimmed then
        scanLines rest paragraph foundContent
      else
        let paragraph :=
          paragraph ++ (if JS.truthy paragraph then " " else "")
                    ++ trimmed in
        if (300 <? String.length paragraph)%nat then paragraph
        else scanLines rest paragraph true
  end.

Definition extractFirstParagraph (markdown : string) : string :=
  let lines := JS.split "010"%char markdown in
  let paragraph := scanLines lines "" false in
  let paragraph :=
    JS.replaceAll re_code
      (JS.replaceAll re_italic
         (JS.replaceAll re_bold
            (JS.replaceAll re_link paragraph))) in
  JS.take 250 paragraph
    ++ (if (250 <? String.length paragraph)%nat then "..." else "").

Definition fetchReadme (owner repo : string) : M (option string) :=
  try_catch
    (data <- fetchWithRateLimit (ReadmeReq owner repo) ;;
     match atob env data with
     | Some content => ret (Some (extractFirstParagraph content))
     | None => throw BadBase64
     end)
    (ret None).

(** ** Aggregator *)

(** The enrichment loop over [topRepos].  The source assigns the two
    fields on the repository objects, which [repos] shares with
    [topRepos]; here the loop returns the updated objects and the
    caller puts them back in place. *)
Fixpoint enrich (username : string) (onProgress : bool) (total i : nat)
         (topRepos : list Repo.t) : M (list Repo.t) :=
  match topRepos with
  | [] => ret []
  | repo :: rest =>
      langs <- fetchLanguages username (Repo.name repo) ;;
      let repo := Repo.set_languageData repo langs in
      repo <- (if (i <? 6)%nat then
                 excerpt <- fetchReadme username (Repo.name repo) ;;
                 ret (Repo.set_readmeExcerpt repo excerpt)
               else ret repo) ;;
      when onProgress (report (Processing (S i) total)) ;;;
      sleep 50 ;;;
      rest' <- enrich username onProgress total (S i) rest ;;
      ret (repo :: rest')
  end.

Definition fetchUserData (fuel : nat) (username : string)
           (onProgress : bool) : M UserData.t :=
  cached <- getCachedData username ;;
  match cached with
  | Some data =>
      when onProgress (report UsingCached) ;;;
      ret data
  | None =>
      when onProgress (report FetchingUser) ;;;
      userInfo <- fetchUser username ;;
      when onProgress (report FetchingRepos) ;;;
      repos <- fetchRepos fuel username onProgress ;;
      if (length repos =? 0)%nat then throw NoPublicRepos
      else
        let topRepos := firstn 20 repos in
        when onProgress (report FetchingLanguages) ;;;
        enriched <- enrich username onProgress (length topRepos) 0
                           topRepos ;;
        let repos := (enriched ++ skipn 20 repos)%list in
        setCachedData username repos userInfo ;;;
        t <- Date_now ;;
        ret (UserData.mk username repos userInfo t)
  end.
End WithEnv.

(** [getRateLimitInfo()]: the local view of the quota. *)
Definition getRateLimitInfo (w : World) : Z * option Z :=
  (rateLimitRemaining w, rateLimitReset w).

End GitHubAPI.

(* ===================================================================== *)
(** * js/template-engine.js                                               *)
(* ===================================================================== *)

Module TemplateEngine.

(** ** Arrays of repository objects, by reference

    [getFilteredRepos] copies, filters and sorts arrays; [sort] works in
    place.  Arrays of repositories are therefore heap cells, allocated at
    the end of the heap.  The repository objects themselves are never
    assigned to by this module and are kept by value. *)
Abbreviation loc := nat.
Abbreviation Heap := (list (list Repo.t)).
Definition ST (A : Type) : Type := Heap -> A * Heap.

Definition ret {A} (a : A) : ST A := fun h => (a, h).
Definition bind {A B} (m : ST A) (k : A -> ST B) : ST B :=
  fun h => let (a, h') := m h in k a h'.

Notation "x <- m ;; k" := (bind m (fun x => k))
  (at level 100, m at next level, right associativity).
Notation "m ;;; k" := (bind m (fun _ => k))
  (at level 100, right associativity).

Definition alloc (v : list Repo.t) : ST loc :=
  fun h => (length h, (h ++ [v])%list).
Definition read (l : loc) : ST (list Repo.t) :=
  fun h => (default [] (h !! l), h).
Definition write (l : loc) (v : list Repo.t) : ST unit :=
  fun h => (tt, <[l := v]> h).

(** Stable sort by a JavaScript comparator ([cmp a b < 0]: [a] first). *)
Fixpoint insert_sorted {A} (cmp : A -> A -> Z) (x : A) (l : list A)
  : list A :=
  match l with
  | [] => [x]
  | y :: l' =>
      if (cmp x y >? 0)%Z then y :: insert_sorted cmp x l'
      else x :: y :: l'
  end.

Definition sorted_by {A} (cmp : A -> A -> Z) (l : list A) : list A :=
  fold_right (insert_sorted cmp) [] l.

(** [[...a]], [a.filter(p)], [a.sort(cmp)], [a.slice(i, j)]. *)
Definition spread (a : loc) : ST loc := v <- read a ;; alloc v.
Definition filter_arr (p : Repo.t -> bool) (a : loc) : ST loc :=
  v <- read a ;; alloc (List.filter p v).
Definition sort_arr (cmp : Repo.t -> Repo.t -> Z) (a : loc) : ST loc :=
  v <- read a ;; write a (sorted_by cmp v) ;;; ret a.
Definition slice_arr (i j : nat) (a : loc) : ST loc :=
  v <- read a ;; alloc (firstn (j - i) (skipn i v)).
Definition slice_from (i : nat) (a : loc) : ST loc :=
  v <- read a ;; alloc (skipn i v).

(** ** Module state *)

(** The object held in [userData]: its [repos] field is a reference. *)
Record Snapshot : Type := mkSnapshot {
  username : string;
  userInfo : User.t;
  repos : option loc;
  lastFetch : Z
}.

Record Engine : Type := mkEngine {
  currentTemplate : string;
  userData : option Snapshot;
  settings : Settings.t
}.

(** [setUserData(data)] for a freshly fetched snapshot. *)
Definition setUserData (data : UserData.t) (e : Engine) : ST Engine :=
  a <- alloc (UserData.repos data) ;;
  ret (mkEngine (currentTemplate e)
                (Some (mkSnapshot (UserData.username data)
                                  (UserData.userInfo data) (Some a)
                                  (UserData.lastFetch data)))
                (settings e)).

Definition setTemplate (templateName : string) (e : Engine) : Engine :=
  mkEngine templateName (userData e) (settings e).

Definition updateSettings (s : Settings.t) (e : Engine) : Engine :=
  mkEngine (currentTemplate e) (userData e) s.

(** ** Pure helpers *)

(** The names of the top languages by byte count.  (The source pairs
    each name with a percentage computed in floating point; no template
    reads it.) *)
Definition getTopLanguages (repo : Repo.t) : list string :=
  match Repo.languageData repo with
  | None => []
  | Some entries =>
      map fst
          (firstn 3 (sorted_by (fun a b => (snd b - snd a)%Z) entries))
  end.

Definition langColors : list (string * string) :=
  [("JavaScript", "#f1e05a"); ("TypeScript", "#3178c6");
   ("Python", "#3572A5"); ("Java", "#b07219"); ("C++", "#f34b7d");
   ("C", "#555555"); ("C#", "#178600"); ("Go", "#00ADD8");
   ("Rust", "#dea584"); ("Ruby", "#701516"); ("PHP", "#4F5D95");
   ("Swift", "#F05138"); ("Kotlin", "#A97BFF"); ("HTML", "#e34c26");
   ("CSS", "#563d7c"); ("SCSS", "#c6538c"); ("Vue", "#41b883");
   ("Shell", "#89e051"); ("Dart", "#00B4AB")].

Definition getLangColor (lang : string) : string :=
  match List.find (fun kv => String.eqb (fst kv) lang) langColors with
  | Some kv => snd kv
  | None => "#8b8b8b"
  end.

(** escape html to prevent xss *)
Definition escapeHtml (str : option string) : string :=
  match str with
  | None => ""
  | Some s =>
      JS.replaceChar "'" "&#039;"
        (JS.replaceChar (ascii_of_nat 34) "&quot;"
           (JS.replaceChar ">" "&gt;"
              (JS.replaceChar "<" "&lt;"
                 (JS.replaceChar "&" "&amp;" s))))
  end.

(** 32-bit wrap-around of [hash |= 0] and [hash << 5]. *)
Definition wrap32 (z : Z) : Z :=
  ((z + 2147483648) mod 4294967296 - 2147483648)%Z.

Fixpoint hashCode_from (hash : Z) (str : string) : Z :=
  match str with
  | EmptyString => hash
  | String c rest =>
      let hash :=
        (wrap32 (Z.shiftl hash 5) - hash + Z.of_nat (nat_of_ascii c))%Z in
      hashCode_from (wrap32 hash) rest
  end.

Definition hashCode (str : string) : Z := hashCode_from 0 str.

Definition gradients : list string :=
  ["linear-gradient(135deg, #667eea 0%, #764ba2 100%)";
   "linear-gradient(135deg, #f093fb 0%, #f5576c 100%)";
   "linear-gradient(135deg, #4facfe 0%, #00f2fe 100%)";
   "linear-gradient(135deg, #43e97b 0%, #38f9d7 100%)";
   "linear-gradient(135deg, #fa709a 0%, #fee140 100%)";
   "linear-gradient(135deg, #a18cd1 0%, #fbc2eb 100%)"].

Definition newline : string := String "010" EmptyString.

(** generate project card html based on template.  (The source also
    computes a relative date from the clock and never uses it.) *)
Definition generateProjectCard (repo : Repo.t) (template : string)
  : string :=
  let langs := getTopLanguages repo in
  let description :=
    let d := escapeHtml (Repo.description repo) in
    if JS.truthy d then d else "No description" in
  let homepage := JS.or_else (Repo.homepage repo) "" in
  let topics := default [] (Repo.topics repo) in
  if String.eqb template "minimal" then
    ("
                <article class=" ++ JS.dq ++ "project-card" ++ JS.dq ++ ">
                    <h3 class=" ++ JS.dq ++ "project-title" ++ JS.dq ++ ">
                        <a href=" ++ JS.dq
      ++ Repo.html_url repo
      ++ JS.dq ++ " target=" ++ JS.dq ++ "_blank" ++ JS.dq ++ " rel=" ++ JS.dq ++ "noopener" ++ JS.dq ++ ">"
      ++ escapeHtml (Some (Repo.name repo))
      ++ "</a>
                    </h3>
                    <p class=" ++ JS.dq ++ "project-desc" ++ JS.dq ++ ">"
      ++ description
      ++ "</p>
                    <div class=" ++ JS.dq ++ "project-meta" ++ JS.dq ++ ">
                        <div class=" ++ JS.dq ++ "project-langs" ++ JS.dq ++ ">
                            "
      ++ (JS.join ""
         (map (fun l => "<span class=" ++ JS.dq ++ "lang-tag" ++ JS.dq ++ " style=" ++ JS.dq ++ "--lang-color: "
           ++ getLangColor l
           ++ JS.dq ++ ">"
           ++ l
           ++ "</span>") langs))
      ++ "
                        </div>
                        <div class=" ++ JS.dq ++ "project-stats" ++ JS.dq ++ ">
                            "
      ++ (if (Repo.stargazers_count repo >? 0)%Z
       then "<span class=" ++ JS.dq ++ "stat" ++ JS.dq ++ ">★ "
           ++ JS.string_of_Z (Repo.stargazers_count repo)
           ++ "</span>"
       else "")
      ++ "
                            "
      ++ (if (Repo.forks_count repo >? 0)%Z
       then "<span class=" ++ JS.dq ++ "stat" ++ JS.dq ++ ">⑂ "
           ++ JS.string_of_Z (Repo.forks_count repo)
           ++ "</span>"
       else "")
      ++ "
                        </div>
                    </div>
                    "
      ++ (if JS.truthy homepage
       then "<a href=" ++ JS.dq
           ++ homepage
           ++ JS.dq ++ " class=" ++ JS.dq ++ "demo-link" ++ JS.dq ++ " target=" ++ JS.dq ++ "_blank" ++ JS.dq ++ " rel=" ++ JS.dq ++ "noopener" ++ JS.dq ++ ">Live Demo →</a>"
       else "")
      ++ "
                </article>
            ")
  else if String.eqb template "dark" then
    ("
                <article class=" ++ JS.dq ++ "project-card" ++ JS.dq ++ ">
                    <div class=" ++ JS.dq ++ "card-header" ++ JS.dq ++ ">
                        <span class=" ++ JS.dq ++ "folder-icon" ++ JS.dq ++ ">📁</span>
                        <div class=" ++ JS.dq ++ "card-links" ++ JS.dq ++ ">
                            <a href=" ++ JS.dq
      ++ Repo.html_url repo
      ++ JS.dq ++ " target=" ++ JS.dq ++ "_blank" ++ JS.dq ++ " rel=" ++ JS.dq ++ "noopener" ++ JS.dq ++ " title=" ++ JS.dq ++ "GitHub" ++ JS.dq ++ ">
                                <svg viewBox=" ++ JS.dq ++ "0 0 24 24" ++ JS.dq ++ " width=" ++ JS.dq ++ "20" ++ JS.dq ++ " height=" ++ JS.dq ++ "20" ++ JS.dq ++ " fill=" ++ JS.dq ++ "currentColor" ++ JS.dq ++ "><path d=" ++ JS.dq ++ "M12 0C5.37 0 0 5.37 0 12c0 5.31 3.435 9.795 8.205 11.385.6.105.825-.255.825-.57 0-.285-.015-1.23-.015-2.235-3.015.555-3.795-.735-4.035-1.41-.135-.345-.72-1.41-1.23-1.695-.42-.225-1.02-.78-.015-.795.945-.015 1.62.87 1.845 1.23 1.08 1.815 2.805 1.305 3.495.99.105-.78.42-1.305.765-1.605-2.67-.3-5.46-1.335-5.46-5.925 0-1.305.465-2.385 1.23-3.225-.12-.3-.54-1.53.12-3.18 0 0 1.005-.315 3.3 1.23.96-.27 1.98-.405 3-.405s2.04.135 3 .405c2.295-1.56 3.3-1.23 3.3-1.23.66 1.65.24 2.88.12 3.18.765.84 1.23 1.905 1.23 3.225 0 4.605-2.805 5.625-5.475 5.925.435.375.81 1.095.81 2.22 0 1.605-.015 2.895-.015 3.3 0 .315.225.69.825.57A12.02 12.02 0 0024 12c0-6.63-5.37-12-12-12z" ++ JS.dq ++ "/></svg>
                            </a>
                            "
      ++ (if JS.truthy homepage
       then "<a href=" ++ JS.dq
           ++ homepage
           ++ JS.dq ++ " target=" ++ JS.dq ++ "_blank" ++ JS.dq ++ " rel=" ++ JS.dq ++ "noopener" ++ JS.dq ++ " title=" ++ JS.dq ++ "Live Demo" ++ JS.dq ++ ">↗</a>"
       else "")
      ++ "
                        </div>
                    </div>
                    <h3 class=" ++ JS.dq ++ "project-title" ++ JS.dq ++ ">"
      ++ escapeHtml (Some (Repo.name repo))
      ++ "</h3>
                    <p class=" ++ JS.dq ++ "project-desc" ++ JS.dq ++ ">"
      ++ description
      ++ "</p>
                    <div class=" ++ JS.dq ++ "project-footer" ++ JS.dq ++ ">
                        <div class=" ++ JS.dq ++ "project-langs" ++ JS.dq ++ ">
                            "
      ++ (JS.join ""
         (map (fun l => "<span class=" ++ JS.dq ++ "lang-dot" ++ JS.dq ++ " style=" ++ JS.dq ++ "background: "
           ++ getLangColor l
           ++ JS.dq ++ " title=" ++ JS.dq
           ++ l
           ++ JS.dq ++ "></span>") langs))
      ++ "
                            <span class=" ++ JS.dq ++ "lang-name" ++ JS.dq ++ ">"
      ++ (match langs with l :: _ => l | [] => "" end)
      ++ "</span>
                        </div>
                        <div class=" ++ JS.dq ++ "project-stats" ++ JS.dq ++ ">
                            <span>★ "
      ++ JS.string_of_Z (Repo.stargazers_count repo)
      ++ "</span>
                            <span>⑂ "
      ++ JS.string_of_Z (Repo.forks_count repo)
      ++ "</span>
                        </div>
                    </div>
                </article>
            ")
  else if String.eqb template "creative" then
    let gradient :=
      nth (Z.to_nat (Z.abs (hashCode (Repo.name repo))
                     mod Z.of_nat (length gradients)))
          gradients "" in
    ("
                <article class=" ++ JS.dq ++ "project-card" ++ JS.dq ++ " style=" ++ JS.dq ++ "--card-gradient: "
      ++ gradient
      ++ JS.dq ++ ">
                    <div class=" ++ JS.dq ++ "card-accent" ++ JS.dq ++ "></div>
                    <div class=" ++ JS.dq ++ "card-content" ++ JS.dq ++ ">
                        <div class=" ++ JS.dq ++ "card-top" ++ JS.dq ++ ">
                            "
      ++ (JS.join ""
         (map (fun t => "<span class=" ++ JS.dq ++ "topic-tag" ++ JS.dq ++ ">"
      ++ t
      ++ "</span>")
              (firstn 2 topics)))
      ++ "
                        </div>
                        <h3 class=" ++ JS.dq ++ "project-title" ++ JS.dq ++ ">"
      ++ escapeHtml (Some (Repo.name repo))
      ++ "</h3>
                        <p class=" ++ JS.dq ++ "project-desc" ++ JS.dq ++ ">"
      ++ description
      ++ "</p>
                        <div class=" ++ JS.dq ++ "card-bottom" ++ JS.dq ++ ">
                            <div class=" ++ JS.dq ++ "lang-pills" ++ JS.dq ++ ">
                                "
      ++ (JS.join ""
         (map (fun l => "<span class=" ++ JS.dq ++ "lang-pill" ++ JS.dq ++ ">"
           ++ l
           ++ "</span>") langs))
      ++ "
                            </div>
                            <div class=" ++ JS.dq ++ "card-actions" ++ JS.dq ++ ">
                                <a href=" ++ JS.dq
      ++ Repo.html_url repo
      ++ JS.dq ++ " class=" ++ JS.dq ++ "card-btn" ++ JS.dq ++ " target=" ++ JS.dq ++ "_blank" ++ JS.dq ++ " rel=" ++ JS.dq ++ "noopener" ++ JS.dq ++ ">View Code</a>
                                "
      ++ (if JS.truthy homepage
       then "<a href=" ++ JS.dq
           ++ homepage
           ++ JS.dq ++ " class=" ++ JS.dq ++ "card-btn primary" ++ JS.dq ++ " target=" ++ JS.dq ++ "_blank" ++ JS.dq ++ " rel=" ++ JS.dq ++ "noopener" ++ JS.dq ++ ">Demo</a>"
       else "")
      ++ "
                            </div>
                        </div>
                    </div>
                </article>
            ")
  else "".

(** generate social links html *)
Definition generateSocialLinks (engine : Engine) : string :=
  let settings := settings engine in
  let links1 :=
    if JS.truthy (Settings.linkedin settings) then
      ["<a href=" ++ JS.dq
      ++ Settings.linkedin settings
      ++ JS.dq ++ " target=" ++ JS.dq ++ "_blank" ++ JS.dq ++ " rel=" ++ JS.dq ++ "noopener" ++ JS.dq ++ " class=" ++ JS.dq ++ "social-link" ++ JS.dq ++ " aria-label=" ++ JS.dq ++ "LinkedIn" ++ JS.dq ++ ">
                <svg viewBox=" ++ JS.dq ++ "0 0 24 24" ++ JS.dq ++ " width=" ++ JS.dq ++ "24" ++ JS.dq ++ " height=" ++ JS.dq ++ "24" ++ JS.dq ++ " fill=" ++ JS.dq ++ "currentColor" ++ JS.dq ++ "><path d=" ++ JS.dq ++ "M20.447 20.452h-3.554v-5.569c0-1.328-.027-3.037-1.852-3.037-1.853 0-2.136 1.445-2.136 2.939v5.667H9.351V9h3.414v1.561h.046c.477-.9 1.637-1.85 3.37-1.85 3.601 0 4.267 2.37 4.267 5.455v6.286zM5.337 7.433c-1.144 0-2.063-.926-2.063-2.065 0-1.138.92-2.063 2.063-2.063 1.14 0 2.064.925 2.064 2.063 0 1.139-.925 2.065-2.064 2.065zm1.782 13.019H3.555V9h3.564v11.452zM22.225 0H1.771C.792 0 0 .774 0 1.729v20.542C0 23.227.792 24 1.771 24h20.451C23.2 24 24 23.227 24 22.271V1.729C24 .774 23.2 0 22.222 0h.003z" ++ JS.dq ++ "/></svg>
            </a>"]
    else [] in
  let links2 :=
    if JS.truthy (Settings.twitter settings) then
      let handle :=
        match JS.indexOf "@" (Settings.twitter settings) with
        | Some i => JS.take i (Settings.twitter settings)
                      ++ JS.drop (S i) (Settings.twitter settings)
        | None => Settings.twitter settings
        end in
      ["<a href=" ++ JS.dq ++ "https://twitter.com/"
      ++ handle
      ++ JS.dq ++ " target=" ++ JS.dq ++ "_blank" ++ JS.dq ++ " rel=" ++ JS.dq ++ "noopener" ++ JS.dq ++ " class=" ++ JS.dq ++ "social-link" ++ JS.dq ++ " aria-label=" ++ JS.dq ++ "Twitter" ++ JS.dq ++ ">
                <svg viewBox=" ++ JS.dq ++ "0 0 24 24" ++ JS.dq ++ " width=" ++ JS.dq ++ "24" ++ JS.dq ++ " height=" ++ JS.dq ++ "24" ++ JS.dq ++ " fill=" ++ JS.dq ++ "currentColor" ++ JS.dq ++ "><path d=" ++ JS.dq ++ "M23.953 4.57a10 10 0 01-2.825.775 4.958 4.958 0 002.163-2.723c-.951.555-2.005.959-3.127 1.184a4.92 4.92 0 00-8.384 4.482C7.69 8.095 4.067 6.13 1.64 3.162a4.822 4.822 0 00-.666 2.475c0 1.71.87 3.213 2.188 4.096a4.904 4.904 0 01-2.228-.616v.06a4.923 4.923 0 003.946 4.827 4.996 4.996 0 01-2.212.085 4.936 4.936 0 004.604 3.417 9.867 9.867 0 01-6.102 2.105c-.39 0-.779-.023-1.17-.067a13.995 13.995 0 007.557 2.209c9.053 0 13.998-7.496 13.998-13.985 0-.21 0-.42-.015-.63A9.935 9.935 0 0024 4.59z" ++ JS.dq ++ "/></svg>
            </a>"]
    else [] in
  let links3 :=
    if JS.truthy (Settings.email settings) then
      ["<a href=" ++ JS.dq ++ "mailto:"
      ++ Settings.email settings
      ++ JS.dq ++ " class=" ++ JS.dq ++ "social-link" ++ JS.dq ++ " aria-label=" ++ JS.dq ++ "Email" ++ JS.dq ++ ">
                <svg viewBox=" ++ JS.dq ++ "0 0 24 24" ++ JS.dq ++ " width=" ++ JS.dq ++ "24" ++ JS.dq ++ " height=" ++ JS.dq ++ "24" ++ JS.dq ++ " fill=" ++ JS.dq ++ "currentColor" ++ JS.dq ++ "><path d=" ++ JS.dq ++ "M20 4H4c-1.1 0-2 .9-2 2v12c0 1.1.9 2 2 2h16c1.1 0 2-.9 2-2V6c0-1.1-.9-2-2-2zm0 4l-8 5-8-5V6l8 5 8-5v2z" ++ JS.dq ++ "/></svg>
            </a>"]
    else [] in
  let links4 :=
    match userData engine with
    | Some ud =>
      ["<a href=" ++ JS.dq
      ++ User.html_url (userInfo ud)
      ++ JS.dq ++ " target=" ++ JS.dq ++ "_blank" ++ JS.dq ++ " rel=" ++ JS.dq ++ "noopener" ++ JS.dq ++ " class=" ++ JS.dq ++ "social-link" ++ JS.dq ++ " aria-label=" ++ JS.dq ++ "GitHub" ++ JS.dq ++ ">
                <svg viewBox=" ++ JS.dq ++ "0 0 24 24" ++ JS.dq ++ " width=" ++ JS.dq ++ "24" ++ JS.dq ++ " height=" ++ JS.dq ++ "24" ++ JS.dq ++ " fill=" ++ JS.dq ++ "currentColor" ++ JS.dq ++ "><path d=" ++ JS.dq ++ "M12 0C5.37 0 0 5.37 0 12c0 5.31 3.435 9.795 8.205 11.385.6.105.825-.255.825-.57 0-.285-.015-1.23-.015-2.235-3.015.555-3.795-.735-4.035-1.41-.135-.345-.72-1.41-1.23-1.695-.42-.225-1.02-.78-.015-.795.945-.015 1.62.87 1.845 1.23 1.08 1.815 2.805 1.305 3.495.99.105-.78.42-1.305.765-1.605-2.67-.3-5.46-1.335-5.46-5.925 0-1.305.465-2.385 1.23-3.225-.12-.3-.54-1.53.12-3.18 0 0 1.005-.315 3.3 1.23.96-.27 1.98-.405 3-.405s2.04.135 3 .405c2.295-1.56 3.3-1.23 3.3-1.23.66 1.65.24 2.88.12 3.18.765.84 1.23 1.905 1.23 3.225 0 4.605-2.805 5.625-5.475 5.925.435.375.81 1.095.81 2.22 0 1.605-.015 2.895-.015 3.3 0 .315.225.69.825.57A12.02 12.02 0 0024 12c0-6.63-5.37-12-12-12z" ++ JS.dq ++ "/></svg>
            </a>"]
    | None => []
    end in
  JS.join newline (links1 ++ links2 ++ links3 ++ links4)%list.

(** One row of the All Projects list. *)
Definition projectRow (repo : Repo.t) : string :=
    "
                        <a href=" ++ JS.dq
      ++ Repo.html_url repo
      ++ JS.dq ++ " class=" ++ JS.dq ++ "project-row" ++ JS.dq ++ " target=" ++ JS.dq ++ "_blank" ++ JS.dq ++ " rel=" ++ JS.dq ++ "noopener" ++ JS.dq ++ ">
                            <span class=" ++ JS.dq ++ "row-name" ++ JS.dq ++ ">"
      ++ escapeHtml (Some (Repo.name repo))
      ++ "</span>
                            <span class=" ++ JS.dq ++ "row-desc" ++ JS.dq ++ ">"
      ++ escapeHtml (Some (JS.or_else (Repo.description repo) ""))
      ++ "</span>
                            <span class=" ++ JS.dq ++ "row-stats" ++ JS.dq ++ ">★ "
      ++ JS.string_of_Z (Repo.stargazers_count repo)
      ++ "</span>
                        </a>
                    ".

(** format date nicely.  [now] and [date] are the instants (in
    milliseconds) of [new Date()] and [new Date(dateStr)]; the two
    [Math.floor] quotients are integer divisions rounding down. *)
Definition formatDate (now date : Z) : string :=
  let diffMs := (now - date)%Z in
  let diffDays := (diffMs / (1000 * 60 * 60 * 24))%Z in
  if (diffDays <? 1)%Z then "today"
  else if (diffDays =? 1)%Z then "yesterday"
  else if (diffDays <? 30)%Z then JS.string_of_Z diffDays ++ " days ago"
  else if (diffDays <? 365)%Z then
    let months := (diffDays / 30)%Z in
    JS.string_of_Z months ++ " month"
      ++ (if (months >? 1)%Z then "s" else "") ++ " ago"
  else
    let years := (diffDays / 365)%Z in
    JS.string_of_Z years ++ " year"
      ++ (if (years >? 1)%Z then "s" else "") ++ " ago".

(** The All Projects section of the page, for the repositories after
    the first six. *)
Definition allProjectsSection (rest : list Repo.t) : string :=
    "
            <section class=" ++ JS.dq ++ "all-projects" ++ JS.dq ++ ">
                <h2 class=" ++ JS.dq ++ "section-title" ++ JS.dq ++ ">All Projects</h2>
                <div class=" ++ JS.dq ++ "projects-list" ++ JS.dq ++ ">
                    "
      ++ (JS.join JS.newline (map projectRow rest))
      ++ "
                </div>
            </section>
            ".

(** The template literal of [render]: the page for the snapshot [ud],
    given the style sheet, the featured repositories and the text of
    the All Projects section (empty when there are at most six
    repositories). *)
Definition pageHtml (engine : Engine) (ud : Snapshot)
           (templateStyles : string) (featuredRepos : list Repo.t)
           (allSection : string) : string :=
  let user := userInfo ud in
  let settings := settings engine in
  let name := JS.or_else (User.name user) (User.login user) in
  let bio :=
    if JS.truthy (Settings.bio settings) then Settings.bio settings
    else JS.or_else (User.bio user) "" in
  let avatar := User.avatar_url user in
  let location := JS.or_else (User.location user) "" in
    "
<!DOCTYPE html>
<html lang=" ++ JS.dq ++ "en" ++ JS.dq ++ ">
<head>
    <meta charset=" ++ JS.dq ++ "UTF-8" ++ JS.dq ++ ">
    <meta name=" ++ JS.dq ++ "viewport" ++ JS.dq ++ " content=" ++ JS.dq ++ "width=device-width, initial-scale=1.0" ++ JS.dq ++ ">
    <title>"
      ++ escapeHtml (Some name)
      ++ " - Portfolio</title>
    <link rel=" ++ JS.dq ++ "preconnect" ++ JS.dq ++ " href=" ++ JS.dq ++ "https://fonts.googleapis.com" ++ JS.dq ++ ">
    <link rel=" ++ JS.dq ++ "preconnect" ++ JS.dq ++ " href=" ++ JS.dq ++ "https://fonts.gstatic.com" ++ JS.dq ++ " crossorigin>
    <link href=" ++ JS.dq ++ "https://fonts.googleapis.com/css2?family=Inter:wght@400;500;600;700&family=JetBrains+Mono:wght@400;500&display=swap" ++ JS.dq ++ " rel=" ++ JS.dq ++ "stylesheet" ++ JS.dq ++ ">
    <style>
        "
      ++ templateStyles
      ++ "
    </style>
    <!-- SEO meta tags will be injected by seo-generator -->
</head>
<body>
    <div class=" ++ JS.dq ++ "portfolio-container" ++ JS.dq ++ ">
        <header class=" ++ JS.dq ++ "hero" ++ JS.dq ++ ">
            <img src=" ++ JS.dq
      ++ avatar
      ++ JS.dq ++ " alt=" ++ JS.dq
      ++ escapeHtml (Some name)
      ++ JS.dq ++ " class=" ++ JS.dq ++ "avatar" ++ JS.dq ++ " loading=" ++ JS.dq ++ "lazy" ++ JS.dq ++ ">
            <h1 class=" ++ JS.dq ++ "name" ++ JS.dq ++ ">"
      ++ escapeHtml (Some name)
      ++ "</h1>
            "
      ++ (if JS.truthy bio
       then "<p class=" ++ JS.dq ++ "bio" ++ JS.dq ++ ">"
      ++ escapeHtml (Some bio)
      ++ "</p>"
       else "")
      ++ "
            "
      ++ (if JS.truthy location
       then "<p class=" ++ JS.dq ++ "location" ++ JS.dq ++ ">📍 "
      ++ escapeHtml (Some location)
      ++ "</p>"
       else "")
      ++ "
            <div class=" ++ JS.dq ++ "social-links" ++ JS.dq ++ ">
                "
      ++ generateSocialLinks engine
      ++ "
            </div>
        </header>

        <main>
            <section class=" ++ JS.dq ++ "projects-section" ++ JS.dq ++ ">
                <h2 class=" ++ JS.dq ++ "section-title" ++ JS.dq ++ ">Featured Projects</h2>
                <div class=" ++ JS.dq ++ "projects-grid" ++ JS.dq ++ ">
                    "
      ++ (JS.join JS.newline
         (map (fun repo => generateProjectCard repo (currentTemplate engine))
              featuredRepos))
      ++ "
                </div>
            </section>

            "
      ++ allSection
      ++ "
        </main>

        <footer class=" ++ JS.dq ++ "footer" ++ JS.dq ++ ">
            <p>Built with <a href=" ++ JS.dq ++ "https://github.com" ++ JS.dq ++ " target=" ++ JS.dq ++ "_blank" ++ JS.dq ++ " rel=" ++ JS.dq ++ "noopener" ++ JS.dq ++ ">GitHub</a></p>
        </footer>
    </div>
</body>
</html>
        ".

Section WithPlatform.
(** [String.prototype.localeCompare] (locale collation) and the style
    sheet of a template (static CSS text, [getTemplateStyles]) are
    taken as given. *)
Variable localeCompare : string -> string -> Z.
Variable getTemplateStyles : string -> string.

(** filter and sort repos based on settings.  The [filterStarred]
    setting is not consulted: the source leaves the starred filter as
    a comment. *)
Definition getFilteredRepos (engine : Engine) : ST loc :=
  match userData engine with
  | None => alloc []
  | Some ud =>
      match repos ud with
      | None => alloc []
      | Some data =>
          repos <- spread data ;;
          repos <- (if Settings.filterNoForks (settings engine)
                    then filter_arr (fun r => negb (Repo.fork r)) repos
                    else ret repos) ;;
          let sortBy := Settings.sortBy (settings engine) in
          (if String.eqb sortBy "stars" then
             sort_arr (fun a b => (Repo.stargazers_count b
                                   - Repo.stargazers_count a)%Z) repos
           else if String.eqb sortBy "updated" then
             sort_arr (fun a b => (Repo.updated_at b
                                   - Repo.updated_at a)%Z) repos
           else if String.eqb sortBy "name" then
             sort_arr (fun a b => localeCompare (Repo.name a)
                                                (Repo.name b)) repos
           else ret repos) ;;;
          ret repos
      end
  end.

(** [arr.filter(Boolean)] on the result of the [find]s. *)
Definition compact (l : list (option Repo.t)) : list Repo.t :=
  flat_map (fun o => match o with Some r => [r] | None => [] end) l.

(** get featured repos (user selected or top 6) *)
Definition getFeaturedRepos (engine : Engine) : ST loc :=
  repos <- getFilteredRepos engine ;;
  let featured := Settings.featuredRepos (settings engine) in
  if (0 <? length featured)%nat then
    rs <- read repos ;;
    let found :=
      map (fun name =>
             List.find (fun r => String.eqb (Repo.name r) name) rs)
          featured in
    kept <- alloc (compact found) ;;
    slice_arr 0 6 kept
  else slice_arr 0 6 repos.

(** main render function - generates complete portfolio html *)
Definition render (engine : Engine) : ST string :=
  match userData engine with
  | None => ret "<p>No data available</p>"
  | Some ud =>
      featuredRepos <- getFeaturedRepos engine ;;
      allRepos <- getFilteredRepos engine ;;
      let templateStyles := getTemplateStyles (currentTemplate engine) in
      featuredRepos <- read featuredRepos ;;
      all <- read allRepos ;;
      allSection <-
        (if (6 <? length all)%nat then
           rest <- slice_from 6 allRepos ;;
           rest <- read rest ;;
           ret (allProjectsSection rest)
         else ret "") ;;
      ret (pageHtml engine ud templateStyles featuredRepos allSection)
  end.
End WithPlatform.

End TemplateEngine.

(* ===================================================================== *)
(** * seo meta tag generator                                              *)
(* ===================================================================== *)

Module SEOGenerator.

Section WithGenerators.
(** [injectIntoHtml] only splices the two strings that
    [generateMetaTags] and [generateStructuredData] return; the
    generators are taken as given. *)
Variable generateMetaTags : option UserData.t -> Settings.t -> string.
Variable generateStructuredData :
  option UserData.t -> Settings.t -> string.

(** inject seo tags into html *)
Definition injectIntoHtml (html : string) (userData : option UserData.t)
           (settings : Settings.t) : string :=
  let metaTags := generateMetaTags userData settings in
  let structuredData := generateStructuredData userData settings in
  match JS.indexOf "</head>" html with
  | None => html            (* no head tag: just return as is *)
  | Some headCloseIndex =>
      let result :=
        JS.take headCloseIndex html ++ metaTags
          ++ JS.newline ++ JS.drop headCloseIndex html in
      match JS.indexOf "</body>" result with
      | Some bodyCloseIndex =>
          JS.take bodyCloseIndex result ++ structuredData
            ++ JS.newline ++ JS.drop bodyCloseIndex result
      | None => result
      end
  end.
End WithGenerators.

(** helper to escape html attributes *)
Definition escapeAttr (str : option string) : string :=
  match str with
  | None => ""
  | Some s =>
      if negb (JS.truthy s) then ""
      else
        JS.replaceChar ">" "&gt;"
          (JS.replaceChar "<" "&lt;"
             (JS.replaceChar "'" "&#039;"
                (JS.replaceChar (ascii_of_nat 34) "&quot;"
                   (JS.replaceChar "&" "&amp;" s))))
  end.

(** helper to escape xml *)
Definition escapeXml (str : option string) : string :=
  match str with
  | None => ""
  | Some s =>
      if negb (JS.truthy s) then ""
      else
        JS.replaceChar "'" "&apos;"
          (JS.replaceChar (ascii_of_nat 34) "&quot;"
             (JS.replaceChar ">" "&gt;"
                (JS.replaceChar "<" "&lt;"
                   (JS.replaceChar "&" "&amp;" s))))
  end.

(** generate sitemap xml.  [today] is the date part of the current
    instant in ISO form. *)
Definition generateSitemap (today : string)
           (userData : option UserData.t) : string :=
  match userData with
  | None => ""
  | Some data =>
      let baseUrl := User.html_url (UserData.userInfo data) in
      "<?xml version=" ++ JS.dq ++ "1.0" ++ JS.dq ++ " encoding="
        ++ JS.dq ++ "UTF-8" ++ JS.dq ++ "?>
<urlset xmlns=" ++ JS.dq ++ "http://www.sitemaps.org/schemas/sitemap/0.9"
        ++ JS.dq ++ ">
    <url>
        <loc>" ++ escapeXml (Some baseUrl) ++ "</loc>
        <lastmod>" ++ today ++ "</lastmod>
        <changefreq>weekly</changefreq>
        <priority>1.0</priority>
    </url>
</urlset>"
  end.

End SEOGenerator.

(* ===================================================================== *)
(** * export and download functionality                                   *)
(* ===================================================================== *)

Module ExportHandler.

Import TemplateEngine.

(** add custom color variables to the html *)
Definition injectCustomColors (html : string) (settings : Settings.t)
  : string :=
  let colorVars :=
    "
        :root {
            --primary: " ++ Settings.primaryColor settings ++ ";
            --accent: " ++ Settings.accentColor settings ++ ";
        }" in
  match JS.indexOf "<style>" html with
  | Some styleIndex =>
      let insertPos := (styleIndex + 7)%nat in
      JS.take insertPos html ++ colorVars ++ JS.drop insertPos html
  | None => html
  end.

(** The snapshot object as the generators read it: its repository
    array is looked up in the heap (an absent array reads as empty). *)
Definition snapshotValue (ud : Snapshot) : ST UserData.t :=
  rs <- (match repos ud with
         | Some l => read l
         | None => ret []
         end) ;;
  ret (UserData.mk (username ud) rs (userInfo ud) (lastFetch ud)).

Section WithPlatform.
Variable localeCompare : string -> string -> Z.
Variable getTemplateStyles : string -> string.
Variable generateMetaTags : option UserData.t -> Settings.t -> string.
Variable generateStructuredData :
  option UserData.t -> Settings.t -> string.

(** generate final html with seo; [None] is the [null] returned when
    there is no data to export. *)
Definition generateExportHtml (engine : Engine) : ST (option string) :=
  match userData engine with
  | None => ret None
  | Some ud =>
      let settings := settings engine in
      html <- render localeCompare getTemplateStyles engine ;;
      data <- snapshotValue ud ;;
      let html :=
        SEOGenerator.injectIntoHtml generateMetaTags
          generateStructuredData html (Some data) settings in
      let html := injectCustomColors html settings in
      ret (Some html)
  end.
End WithPlatform.

End ExportHandler.

(* ===================================================================== *)
(** * Vocabulary of the properties                                      *)
(* ===================================================================== *)

(** What the statements below say about the API client. *)
Module Spec.
Import GitHubAPI.

(** The cache slot holds no snapshot with an empty repository list. *)
Definition cache_ok (w : World) : bool :=
  match storage w with
  | Slot (Some (Stored d)) => negb (length (UserData.repos d) =? 0)%nat
  | _ => true
  end.

(** The page of [all] that the remote service returns for page number
    [page] (pages are numbered from 1). *)
Definition pageOf (all : list Repo.t) (page : nat) : list Repo.t :=
  firstn perPage (skipn ((page - 1) * perPage) all).

(** The account [username] has the repository list [all]: every
    listing response that parses carries the requested page of it. *)
Definition lists (env : Env) (username : string) (all : list Repo.t)
  : Prop :=
  forall n page r b,
    fetch env n (ReposReq username page) = Responded r ->
    json r = Some b -> b = pageOf all page.

(** The service answers every listing request for [username] with the
    requested page of [all], in a 2xx response that does not report the
    quota as used up. *)
Definition serves (env : Env) (username : string) (all : list Repo.t)
  : Prop :=
  forall n page,
    exists r,
      fetch env n (ReposReq username page) = Responded r
      /\ ok r = true
      /\ json r = Some (pageOf all page)
      /\ match hdrRemaining r with
         | Some remaining => (0 < remaining)%Z
         | None => True
         end.

(** The URLs of the listing requests for pages [from .. from+count-1]. *)
Definition pageUrls (username : string) (from count : nat) : list string :=
  map (fun p => url (ReposReq username p)) (seq from count).

(** The world after an optional progress report. *)
Definition reported (onProgress : bool) (p : Progress) (w : World)
  : World :=
  snd (when onProgress (report p) w).

(** Text with nothing left to clean: one line of at most 250
    characters that [trim] leaves as it is (no white space at either
    end, the no-break space included), that is not a heading and has no
    bracket, star or backquote. *)
Definition isClean (t : string) : bool :=
  negb (JS.mem "010" t) && String.eqb (JS.trim t) t
  && negb (JS.startsWith "#" t)
  && negb (JS.mem "[" t) && negb (JS.mem "*" t) && negb (JS.mem "`" t)
  && (String.length t <=? 250)%nat.

Definition readme_example : string :=
  "# Title" ++ JS.newline ++ JS.newline ++ "![badge](x)" ++ JS.newline
    ++ JS.newline ++ "This is **bold** and a [link](url).".
End Spec.

(** Concrete accounts and environments for the examples. *)
Module Demo.
Import GitHubAPI.

Definition user : User.t :=
  User.mk "octocat" (Some "The Octocat") "https://example.org/a.png"
          "https://github.com/octocat" None None.

Definition repo (name : string) (stars : Z) : Repo.t :=
  Repo.mk name None ("https://github.com/octocat/" ++ name) None stars 0
          false None 0 None None.

Definition respond {B} (b : B) : Outcome B :=
  Responded (mkResponse 200 None None (Some b)).

(** A service for an account with the repositories [all]: the profile
    and the listing succeed, the enrichment endpoints reject. *)
Definition service (all : list Repo.t) (n : nat) (q : Request)
  : Outcome (Body q) :=
  match q with
  | UserReq _ => respond user
  | ReposReq _ page => respond (Spec.pageOf all page)
  | LanguagesReq _ _ => Rejected
  | ReadmeReq _ _ => Rejected
  end.

Definition env (all : list Repo.t) (time : Z) : Env :=
  mkEnv (fun _ => time) (service all) (fun _ => None) (fun _ => true).

Definition snapshot : UserData.t :=
  UserData.mk "octocat" [repo "hello" 3] user 0.

Definition cached : World :=
  initial (Slot (Some (Stored snapshot))).
End Demo.

(** What the statements below say about the template engine: the lists
    held by the arrays it reads and returns. *)
Module View.
Import TemplateEngine.

(** The list held by the array that [userData.repos] refers to. *)
Definition snapshotRepos (e : Engine) (h : Heap) : list Repo.t :=
  match userData e with
  | Some ud =>
      match repos ud with
      | Some l => default [] (h !! l)
      | None => []
      end
  | None => []
  end.

(** The snapshot's array reference points into the heap. *)
Definition valid (e : Engine) (h : Heap) : bool :=
  match userData e with
  | Some ud =>
      match repos ud with
      | Some l => (l <? length h)%nat
      | None => true
      end
  | None => true
  end.

(** The list held by the array that a computation returns. *)
Definition contents (m : ST loc) (h : Heap) : list Repo.t :=
  default [] (snd (m h) !! fst (m h)).

(** The engine with the [filterStarred] setting replaced. *)
Definition with_filterStarred (b : bool) (e : Engine) : Engine :=
  updateSettings (Settings.set_filterStarred b (settings e)) e.

Definition nonFork (r : Repo.t) : bool := negb (Repo.fork r).

Definition hasName (name : string) (r : Repo.t) : bool :=
  String.eqb (Repo.name r) name.

(** The list that [getFilteredRepos] computes from the snapshot's. *)
Definition filteredSorted (localeCompare : string -> string -> Z)
           (s : Settings.t) (rs : list Repo.t) : list Repo.t :=
  let kept := if Settings.filterNoForks s then List.filter nonFork rs
              else rs in
  if String.eqb (Settings.sortBy s) "stars" then
    sorted_by (fun a b => (Repo.stargazers_count b
                           - Repo.stargazers_count a)%Z) kept
  else if String.eqb (Settings.sortBy s) "updated" then
    sorted_by (fun a b => (Repo.updated_at b - Repo.updated_at a)%Z) kept
  else if String.eqb (Settings.sortBy s) "name" then
    sorted_by (fun a b => localeCompare (Repo.name a) (Repo.name b)) kept
  else kept.

(** The list that [getFeaturedRepos] computes from the filtered and
    sorted one. *)
Definition featuredOf (featured : list string) (sorted : list Repo.t)
  : list Repo.t :=
  match featured with
  | [] => firstn 6 sorted
  | _ :: _ =>
      firstn 6 (compact (map (fun name => List.find (hasName name) sorted)
                             featured))
  end.

(** The page that [render] computes from the snapshot's list. *)
Definition renderFrom (localeCompare : string -> string -> Z)
           (getTemplateStyles : string -> string)
           (e : Engine) (rs : list Repo.t) : string :=
  match userData e with
  | None => "<p>No data available</p>"
  | Some ud =>
      let fs := filteredSorted localeCompare (settings e) rs in
      pageHtml e ud (getTemplateStyles (currentTemplate e))
               (featuredOf (Settings.featuredRepos (settings e)) fs)
               (if (6 <? length fs)%nat
                then allProjectsSection (skipn 6 fs) else "")
  end.
End View.

(** A concrete engine state for the examples. *)
Module DemoEngine.
Import TemplateEngine.

(** Code-unit comparison, standing for the locale collation. *)
Definition localeCompare (a b : string) : Z :=
  match String.compare a b with Lt => (-1)%Z | Eq => 0%Z | Gt => 1%Z end.

Definition styles (template : string) : string := "body { margin: 0; }".

Definition repo (name : string) (stars : Z) (fork : bool) : Repo.t :=
  Repo.mk name None ("https://github.com/octocat/" ++ name) None stars 0
          fork None 0 None None.

Definition user : User.t :=
  User.mk "octocat" (Some "The Octocat") "https://example.org/a.png"
          "https://github.com/octocat" None None.

(** A heap whose cell 0 is the snapshot's array: [a] has more stars
    than [b], and [c] is a fork. *)
Definition heap : list (list Repo.t) :=
  [[repo "b" 5 false; repo "c" 7 true; repo "a" 10 false]].

Definition engine (featured : list string) : Engine :=
  mkEngine "minimal"
           (Some (mkSnapshot "octocat" user (Some 0%nat) 0))
           (Settings.mk "#6366f1" "#22d3ee" "" "" "" "" false true "stars"
                        featured).

(** A repository whose description and topic carry markup. *)
Definition hostile : Repo.t :=
  Repo.mk "demo" (Some "<b>bold</b>") "https://github.com/octocat/demo"
          None 0 0 false (Some ["<img src=x onerror=alert(1)>"]) 0 None
          None.
End DemoEngine.

(** Occurrences of a marker in a document. *)
Module Splice.
(** [needle] occurs in [s] at position [i]. *)
Definition occursAt (needle : string) (i : nat) (s : string) : bool :=
  String.prefix needle (JS.drop i s).

(** Position [i] is the first occurrence of [needle] in [s]. *)
Definition firstAt (needle : string) (i : nat) (s : string) : Prop :=
  occursAt needle i s = true
  /\ forall j, (j < i)%nat -> occursAt needle j s = false.

(** [needle] does not occur in [s]. *)
Definition absent (needle : string) (s : string) : Prop :=
  forall j, occursAt needle j s = false.

(** Stand-ins for the two generators of the page metadata. *)
Definition metaTags (_ : option UserData.t) (_ : Settings.t) : string :=
  "<meta name=robots content=index>".

Definition structuredData (_ : option UserData.t) (_ : Settings.t)
  : string :=
  "<script type=application/ld+json>{}</script>".

Definition bodyOnly : string := "<html><body><p>hi</p></body></html>".
End Splice.

(** What the further statements say about the API client. *)
Module Client.
Import GitHubAPI.



(** The quota state after a response with the given headers. *)
Definition recorded {B} (r : Response B) (w : World) : Z * option Z :=
  (match hdrRemaining r with
   | Some x => x
   | None => rateLimitRemaining w
   end,
   match hdrReset r with
   | Some x => Some (x * 1000)%Z
   | None => rateLimitReset w
   end).

(** How a response is interpreted. *)
Definition interpreted {B} (r : Response B) : Res B :=
  if (status r =? 404)%Z then Throw UserNotFound
  else if (status r =? 403)%Z then Throw RateLimitLater
  else if (status r <? 200)%Z || (299 <? status r)%Z
       then Throw (ApiError (status r))
  else match json r with
       | Some b => Ok b
       | None => Throw BadJson
       end.

(** The fields of a repository that enrichment does not assign. *)
Definition sameBase (r r' : Repo.t) : Prop :=
  Repo.name r' = Repo.name r
  /\ Repo.description r' = Repo.description r
  /\ Repo.html_url r' = Repo.html_url r
  /\ Repo.homepage r' = Repo.homepage r
  /\ Repo.stargazers_count r' = Repo.stargazers_count r
  /\ Repo.forks_count r' = Repo.forks_count r
  /\ Repo.fork r' = Repo.fork r
  /\ Repo.topics r' = Repo.topics r
  /\ Repo.updated_at r' = Repo.updated_at r.

(** [l'] is [l] after the enrichment loop started at index [i]: the
    base fields are kept, every repository has language data, the
    ones at an index below six have a readme excerpt (possibly null)
    and the others keep whatever excerpt field they had. *)
Fixpoint enrichedFrom (i : nat) (l l' : list Repo.t) : Prop :=
  match l, l' with
  | [], [] => True
  | r :: l, r' :: l' =>
      sameBase r r'
      /\ Repo.languageData r' <> None
      /\ (if (i <? 6)%nat then Repo.readmeExcerpt r' <> None
          else Repo.readmeExcerpt r' = Repo.readmeExcerpt r)
      /\ enrichedFrom (S i) l l'
  | _, _ => False
  end.

(** A computation sends at most [n] requests. *)
Definition sendsAtMost {A} (n : nat) (m : M A) : Prop :=
  forall w, (length (sent (snd (m w))) <= length (sent w) + n)%nat.

(** A readme line that the excerpt scan passes over: blank, heading,
    image or badge. *)
Definition skipped (line : string) : bool :=
  let trimmed := JS.trim line in
  negb (JS.truthy trimmed)
  || JS.startsWith "#" trimmed
  || JS.startsWith "![" trimmed
  || JS.startsWith "[!" trimmed.

(** A service that answers every request with a fixed status and no
    body, and the given quota headers. *)
Definition failing (code : Z) (remaining reset : option Z) (n : nat)
           (q : Request) : Outcome (Body q) :=
  Responded (mkResponse code remaining reset None).

Definition failingEnv (code : Z) (remaining reset : option Z) (time : Z)
  : Env :=
  mkEnv (fun _ => time) (failing code remaining reset) (fun _ => None)
        (fun _ => true).
End Client.

(** What the further statements say about escaping. *)
Module Markup.

(** Replace every character by its image. *)
Fixpoint substitute (f : ascii -> string) (s : string) : string :=
  match s with
  | EmptyString => EmptyString
  | String a s' => f a ++ substitute f s'
  end.

(** The entity of a character in HTML text and attribute values. *)
Definition entity (c : ascii) : string :=
  if Ascii.eqb c "&" then "&amp;"
  else if Ascii.eqb c "<" then "&lt;"
  else if Ascii.eqb c ">" then "&gt;"
  else if Ascii.eqb c (ascii_of_nat 34) then "&quot;"
  else if Ascii.eqb c "'" then "&#039;"
  else String c EmptyString.

(** The entity of a character in XML text. *)
Definition entityXml (c : ascii) : string :=
  if Ascii.eqb c "'" then "&apos;" else entity c.
End Markup.

(** What the further statements say about ordering. *)
Module Order.
Import TemplateEngine.

(** Keys never increase along the list. *)
Fixpoint descending {A} (key : A -> Z) (l : list A) : Prop :=
  match l with
  | [] => True
  | x :: l' =>
      List.Forall (fun b => (key b <= key x)%Z) l' /\ descending key l'
  end.

(** [l'] has, for every key value, the elements of [l] with that key,
    in the order they have in [l]. *)
Definition keepsTies {A} (key : A -> Z) (l l' : list A) : Prop :=
  forall k,
    List.filter (fun a => (key a =? k)%Z) l'
    = List.filter (fun a => (key a =? k)%Z) l.

(** The numeric key of a [sortBy] setting, if it has one. *)
Definition sortKey (sortBy : string) : option (Repo.t -> Z) :=
  if String.eqb sortBy "stars" then Some Repo.stargazers_count
  else if String.eqb sortBy "updated" then Some Repo.updated_at
  else None.

(** The [sortBy] values that the switch has a case for. *)
Definition recognised (sortBy : string) : bool :=
  String.eqb sortBy "stars" || String.eqb sortBy "updated"
  || String.eqb sortBy "name".

(** The repositories that pass the fork filter. *)
Definition kept (s : Settings.t) (rs : list Repo.t) : list Repo.t :=
  if Settings.filterNoForks s then List.filter View.nonFork rs else rs.
End Order.

(** What the further statements say about the card hash. *)
Module Hash.

(** The polynomial hash with multiplier 31 over the character codes,
    in unbounded integers. *)
Fixpoint poly31_from (h : Z) (s : string) : Z :=
  match s with
  | EmptyString => h
  | String c rest =>
      poly31_from (31 * h + Z.of_nat (nat_of_ascii c))%Z rest
  end.

Definition poly31 (s : string) : Z := poly31_from 0 s.
End Hash.

(** What the further statements say about the exported page. *)
Module Page.
Import TemplateEngine.

(** The rendered document from its start to the opening of the title,
    and from the end of the title to the style element. *)
Definition titleOpen : string :=
  "
<!DOCTYPE html>
<html lang=" ++ JS.dq ++ "en" ++ JS.dq ++ ">
<head>
    <meta charset=" ++ JS.dq ++ "UTF-8" ++ JS.dq ++ ">
    <meta name=" ++ JS.dq ++ "viewport" ++ JS.dq ++ " content=" ++ JS.dq ++ "width=device-width, initial-scale=1.0" ++ JS.dq ++ ">
    <title>".

Definition styleLead : string :=
  " - Portfolio</title>
    <link rel=" ++ JS.dq ++ "preconnect" ++ JS.dq ++ " href=" ++ JS.dq ++ "https://fonts.googleapis.com" ++ JS.dq ++ ">
    <link rel=" ++ JS.dq ++ "preconnect" ++ JS.dq ++ " href=" ++ JS.dq ++ "https://fonts.gstatic.com" ++ JS.dq ++ " crossorigin>
    <link href=" ++ JS.dq ++ "https://fonts.googleapis.com/css2?family=Inter:wght@400;500;600;700&family=JetBrains+Mono:wght@400;500&display=swap" ++ JS.dq ++ " rel=" ++ JS.dq ++ "stylesheet" ++ JS.dq ++ ">
    ".

(** Everything in front of the page's style element, for a display
    name. *)
Definition prologue (name : string) : string :=
  titleOpen ++ escapeHtml (Some name) ++ styleLead.

(** The display name shown by the page. *)
Definition displayName (ud : Snapshot) : string :=
  JS.or_else (User.name (userInfo ud)) (User.login (userInfo ud)).

(** The block of custom properties written for the colour settings. *)
Definition colorVars (settings : Settings.t) : string :=
  "
        :root {
            --primary: " ++ Settings.primaryColor settings ++ ";
            --accent: " ++ Settings.accentColor settings ++ ";
        }".

(** [needle] differs from [s] at a character that both have. *)
Fixpoint mismatch (needle s : string) : bool :=
  match needle, s with
  | String a needle', String b s' =>
      if Ascii.eqb a b then mismatch needle' s' else true
  | _, _ => false
  end.

(** No occurrence of [needle] can begin inside [s], whatever text
    follows [s]. *)
Fixpoint clearOf (needle s : string) : bool :=
  match s with
  | EmptyString => true
  | String _ s' => mismatch needle s && clearOf needle s'
  end.

(** [s] has an occurrence of [n1] with an occurrence of [n2] somewhere
    after it. *)
Definition followedBy (n1 n2 s : string) : Prop :=
  exists A B, s = A ++ n1 ++ B /\ JS.indexOf n2 B <> None.

(** The snapshot as the generators of the page metadata receive it. *)
Definition exported (e : Engine) (ud : Snapshot) (h : Heap) : UserData.t :=
  UserData.mk (username ud) (View.snapshotRepos e h) (userInfo ud)
              (lastFetch ud).
End Page.

(* ===================================================================== *)
(** * Proof automation                                                  *)
(* ===================================================================== *)

(** Case analysis of one call of the HTTP client. *)
Ltac sent_case :=
  split; [reflexivity|]; right; split; [reflexivity|];
  first [discriminate | eauto].

Ltac dispatch env w q :=
  unfold GitHubAPI.do_fetch; cbn;
  destruct (GitHubAPI.fetch env (length (GitHubAPI.sent w)) q) as [|resp];
  cbn; [sent_case|];
  destruct (GitHubAPI.status resp =? 404)%Z; cbn; [sent_case|];
  destruct (GitHubAPI.status resp =? 403)%Z; cbn; [sent_case|];
  destruct (GitHubAPI.ok resp) eqn:Hok; cbn; [|sent_case];
  destruct (GitHubAPI.json resp) as [b|] eqn:Hj; cbn; sent_case.

(* ===================================================================== *)
(** * Readme excerpt                                                    *)
(* ===================================================================== *)

Section StringFacts.

Lemma split_absent sep s : JS.mem sep s = false -> JS.split sep s = [s].
Proof.
  induction s as [|a s IH]; simpl; [reflexivity|].
  intros H. apply orb_false_iff in H as [Ha Hs].
  rewrite Ha, (IH Hs). reflexivity.
Qed.

Lemma take_all n s : (String.length s <= n)%nat -> JS.take n s = s.
Proof.
  revert n. induction s as [|a s IH]; intros [|n] H; simpl in *;
    try reflexivity; try lia.
  f_equal. apply IH. lia.
Qed.

Lemma replaceAll_absent c re s :
  JS.mem c s = false -> JS.replaceAll (JS.Lit c :: re) s = s.
Proof.
  unfold JS.replaceAll.
  induction s as [|a s IH]; [reflexivity|].
  intros H. simpl in H. apply orb_false_iff in H as [Ha Hs].
  cbn [JS.replaceAll_from JS.exec]. rewrite Ha, (IH Hs). reflexivity.
Qed.

Lemma append_empty_r (s : string) : s ++ "" = s.
Proof.
  induction s as [|a s IH]; [reflexivity|].
  change (String a (s ++ "") = String a s). f_equal. exact IH.
Qed.

Lemma startsWith_second p c s :
  JS.mem c s = false -> JS.startsWith (String p (String c "")) s = false.
Proof.
  unfold JS.startsWith.
  destruct s as [|a [|b s]]; simpl; intros H.
  - reflexivity.
  - destruct (ascii_dec p a); reflexivity.
  - destruct (ascii_dec p a); [|reflexivity].
    destruct (ascii_dec c b) as [->|]; [|reflexivity].
    rewrite Ascii.eqb_refl in H. rewrite orb_true_r in H. discriminate.
Qed.

Lemma startsWith_first c q s :
  JS.mem c s = false -> JS.startsWith (String c q) s = false.
Proof.
  unfold JS.startsWith.
  destruct s as [|a s]; simpl; intros H; [reflexivity|].
  destruct (ascii_dec c a) as [->|]; [|reflexivity].
  rewrite Ascii.eqb_refl in H. discriminate.
Qed.

End StringFacts.

Lemma extractFirstParagraph_clean t :
  Spec.isClean t = true -> GitHubAPI.extractFirstParagraph t = t.
Proof.
  unfold Spec.isClean. rewrite !andb_true_iff, !negb_true_iff.
  intros [[[[[[Hnl Htrim] Hhash] Hbr] Hstar] Htick] Hlen].
  apply String.eqb_eq in Htrim. apply Nat.leb_le in Hlen.
  unfold GitHubAPI.extractFirstParagraph.
  rewrite (split_absent _ _ Hnl).
  assert (Hscan : GitHubAPI.scanLines [t] "" false = t).
  { cbn [GitHubAPI.scanLines]. rewrite Htrim.
    destruct t as [|a t']; [reflexivity|].
    cbn [JS.truthy negb]. rewrite Hhash.
    rewrite (startsWith_second "!" "[" _ Hbr).
    rewrite (startsWith_first "[" "!" _ Hbr).
    rewrite (startsWith_first "[" "![" _ Hbr).
    change (JS.truthy "") with false. cbn iota.
    change ("" ++ "" ++ String a t') with (String a t').
    replace (300 <? String.length (String a t'))%nat with false
      by (symmetry; apply Nat.ltb_ge; lia).
    reflexivity. }
  rewrite Hscan.
  unfold GitHubAPI.re_link, GitHubAPI.re_bold, GitHubAPI.re_italic,
    GitHubAPI.re_code.
  rewrite (replaceAll_absent _ _ _ Hbr), !(replaceAll_absent _ _ _ Hstar),
    (replaceAll_absent _ _ _ Htick).
  rewrite (take_all _ _ Hlen).
  replace (250 <? String.length t)%nat with false
    by (symmetry; apply Nat.ltb_ge; lia).
  apply append_empty_r.
Qed.

(** C5: [extractFirstParagraph] returns clean text unchanged (one trimmed
    line of at most 250 characters with no heading mark and no markdown
    syntax), so applying it to an output that is clean returns that
    output; on the example readme of the specification it returns
    exactly the cleaned sentence, which is itself clean. *)
Theorem extractFirstParagraph_idempotent_on_clean_text :
  (forall t, Spec.isClean t = true -> GitHubAPI.extractFirstParagraph t = t)
  /\ (forall md,
        Spec.isClean (GitHubAPI.extractFirstParagraph md) = true ->
        GitHubAPI.extractFirstParagraph (GitHubAPI.extractFirstParagraph md)
        = GitHubAPI.extractFirstParagraph md)
  /\ GitHubAPI.extractFirstParagraph Spec.readme_example
     = "This is bold and a link."
  /\ Spec.isClean "This is bold and a link." = true.
Proof.
  split; [exact extractFirstParagraph_clean|].
  split; [intros md H; exact (extractFirstParagraph_clean _ H)|].
  split; vm_compute; reflexivity.
Qed.

Lemma extractFirstParagraph_idempotent_witness :
  GitHubAPI.extractFirstParagraph
    (GitHubAPI.extractFirstParagraph Spec.readme_example)
  = GitHubAPI.extractFirstParagraph Spec.readme_example.
Proof.
  apply (proj1 (proj2 extractFirstParagraph_idempotent_on_clean_text)).
  vm_compute. reflexivity.
Defined.

(** Decoded readme bytes may end in the no-break space (the second byte
    of a UTF-8 letter such as a-grave): [trim] removes it, so such text
    is not clean and its excerpt is shorter by that unit. *)
Example extractFirstParagraph_trims_no_break_space :
  Spec.isClean ("Voil" ++ String (ascii_of_nat 195)
                        (String (ascii_of_nat 160) ""))
  = false
  /\ GitHubAPI.extractFirstParagraph
       ("Voil" ++ String (ascii_of_nat 195) (String (ascii_of_nat 160) ""))
     = "Voil" ++ String (ascii_of_nat 195) "".
Proof. vm_compute. split; reflexivity. Qed.

(* ===================================================================== *)
(** * Cache, client, enrichment, aggregation                            *)
(* ===================================================================== *)

Section ApiFacts.
Import GitHubAPI Spec.
Variable env : Env.

Lemma when_report_ok b p w :
  when b (report p) w = (Ok tt, reported b p w)
  /\ storage (reported b p w) = storage w
  /\ sent (reported b p w) = sent w.
Proof. unfold reported. destruct b; cbn; auto. Qed.

(** What one call of the HTTP client does to the world: the cache slot
    is untouched; either the local guard fires and nothing is sent, or
    exactly the request [q] is sent and a value comes from a parsed
    2xx response. *)
Lemma fetchWithRateLimit_cases q w :
  storage (snd (fetchWithRateLimit env q w)) = storage w
  /\ ((sent (snd (fetchWithRateLimit env q w)) = sent w
       /\ exists m, fst (fetchWithRateLimit env q w)
                    = Throw (RateLimitWait m))
      \/ (sent (snd (fetchWithRateLimit env q w)) = (sent w ++ [url q])%list
          /\ match fst (fetchWithRateLimit env q w) with
             | Ok b => exists r,
                 fetch env (length (sent w)) q = Responded r
                 /\ json r = Some b /\ ok r = true
             | Throw e => forall m, e <> RateLimitWait m
             | OutOfFuel => False
             end)).
Proof.
  unfold fetchWithRateLimit, bind, exhausted.
  destruct (rateLimitRemaining w <=? 0)%Z; [|cbn; dispatch env w q].
  destruct (rateLimitReset w) as [r|]; [|cbn; dispatch env w q].
  destruct (r =? 0)%Z; [cbn; dispatch env w q|].
  cbn. unfold bind, Date_now. cbn.
  destruct (now env (clock w) <? r)%Z; cbn; [|dispatch env w q].
  split; [reflexivity|]. left. split; [reflexivity|]. eauto.
Qed.

Lemma fetchWithRateLimit_storage q w res w' :
  fetchWithRateLimit env q w = (res, w') -> storage w' = storage w.
Proof.
  intros H. pose proof (fetchWithRateLimit_cases q w) as [Hs _].
  rewrite H in Hs. exact Hs.
Qed.

Lemma fetchWithRateLimit_fuel q w : 
  fst (fetchWithRateLimit env q w) <> OutOfFuel.
Proof.
  pose proof (fetchWithRateLimit_cases q w) as [_ [[_ [m Hm]]|[_ H]]].
  - rewrite Hm. discriminate.
  - destruct (fst (fetchWithRateLimit env q w)); [discriminate..|contradiction].
Qed.

(** ** The cache read *)
Lemma getCachedData_stored username w d :
  storage w = Slot (Some (Stored d)) ->
  fst (getCachedData env username w)
  = Ok (if String.eqb (UserData.username d) username
           && (now env (clock w) - UserData.lastFetch d
               <=? CACHE_DURATION)%Z
        then Some d else None).
Proof.
  intros Hst. unfold getCachedData. rewrite Hst.
  destruct (String.eqb (UserData.username d) username); cbn; [|reflexivity].
  unfold bind, Date_now. cbn.
  rewrite Z.gtb_ltb, Z.ltb_antisym.
  destruct (now env (clock w) - UserData.lastFetch d <=? CACHE_DURATION)%Z;
    reflexivity.
Qed.

Lemma getCachedData_frame username w :
  storage (snd (getCachedData env username w)) = storage w
  /\ sent (snd (getCachedData env username w)) = sent w
  /\ match fst (getCachedData env username w) with
     | Ok (Some d) => storage w = Slot (Some (Stored d))
     | Ok None => True
     | _ => False
     end.
Proof.
  unfold getCachedData.
  destruct (storage w) as [|[[|d]|]] eqn:Hst; cbn; auto.
  destruct (String.eqb (UserData.username d) username); cbn; auto.
  unfold bind, Date_now; cbn.
  destruct (_ >? _)%Z; cbn; auto.
Qed.

(** ** Frame: only [setCachedData] and [clearCache] write the slot *)
Lemma fetchRepos_loop_storage username onProgress fuel :
  forall repos page w,
    storage (snd (fetchRepos_loop env fuel username onProgress repos page w))
    = storage w.
Proof.
  induction fuel as [|fuel IH]; intros repos page w; [reflexivity|].
  cbn [fetchRepos_loop]. unfold bind at 1.
  destruct (fetchWithRateLimit env (ReposReq username page) w)
    as [[b|e|] w1] eqn:E;
    pose proof (fetchWithRateLimit_storage _ _ _ _ E) as Hs;
    try exact Hs.
  destruct (length b =? 0)%nat; [exact Hs|].
  unfold bind at 1.
  destruct (when_report_ok onProgress (Fetched (length (repos ++ b))) w1)
    as (-> & Hs' & _).
  destruct (length b <? perPage)%nat; [exact (eq_trans Hs' Hs)|].
  unfold bind at 1. cbn [sleep ret]. rewrite IH. exact (eq_trans Hs' Hs).
Qed.

Lemma fetchLanguages_total owner repo w :
  exists langs w',
    fetchLanguages env owner repo w = (Ok langs, w')
    /\ storage w' = storage w.
Proof.
  unfold fetchLanguages, try_catch.
  pose proof (fetchWithRateLimit_fuel (LanguagesReq owner repo) w) as Hf.
  destruct (fetchWithRateLimit env (LanguagesReq owner repo) w)
    as [[b|e|] w1] eqn:E;
    pose proof (fetchWithRateLimit_storage _ _ _ _ E) as Hs; cbn in *;
    eauto; contradiction.
Qed.

Lemma fetchReadme_total owner repo w :
  exists excerpt w',
    fetchReadme env owner repo w = (Ok excerpt, w')
    /\ storage w' = storage w.
Proof.
  unfold fetchReadme, try_catch, bind.
  pose proof (fetchWithRateLimit_fuel (ReadmeReq owner repo) w) as Hf.
  destruct (fetchWithRateLimit env (ReadmeReq owner repo) w)
    as [[b|e|] w1] eqn:E;
    pose proof (fetchWithRateLimit_storage _ _ _ _ E) as Hs; cbn in *;
    eauto; [|contradiction].
  destruct (atob env b); cbn; eauto.
Qed.

Lemma enrich_total username onProgress total :
  forall topRepos i w,
    exists enriched w',
      enrich env username onProgress total i topRepos w
      = (Ok enriched, w')
      /\ storage w' = storage w
      /\ length enriched = length topRepos.
Proof.
  induction topRepos as [|repo rest IH]; intros i w; cbn [enrich].
  - cbn. eauto.
  - unfold bind at 1.
    destruct (fetchLanguages_total username (Repo.name repo) w)
      as (langs & w1 & -> & Hs1).
    unfold bind at 1.
    set (repo1 := Repo.set_languageData repo langs).
    assert (Hstep : exists repo2 w2,
               (if (i <? 6)%nat
                then bind (fetchReadme env username (Repo.name repo1))
                       (fun excerpt =>
                          ret (Repo.set_readmeExcerpt repo1 excerpt))
                else ret repo1) w1 = (Ok repo2, w2)
               /\ storage w2 = storage w1).
    { destruct (i <? 6)%nat; [|cbn; eauto].
      unfold bind.
      destruct (fetchReadme_total username (Repo.name repo1) w1)
        as (ex & w2 & -> & Hs2). cbn. eauto. }
    destruct Hstep as (repo2 & w2 & -> & Hs2).
    unfold bind at 1.
    destruct (when_report_ok onProgress (Processing (S i) total) w2)
      as (-> & Hs3 & _).
    unfold bind at 1. cbn [sleep ret].
    unfold bind at 1.
    destruct (IH (S i) (reported onProgress (Processing (S i) total) w2))
      as (rest' & w4 & -> & Hs4 & Hlen).
    cbn. do 2 eexists. split; [reflexivity|].
    split; [congruence|]. cbn. lia.
Qed.

Lemma setCachedData_ok username repos userInfo w :
  exists w',
    setCachedData env username repos userInfo w = (Ok tt, w')
    /\ (cache_ok w = true -> repos <> [] -> cache_ok w' = true).
Proof.
  unfold setCachedData, bind, Date_now, cache_ok. cbn.
  destruct (storage w) as [|item] eqn:Hst; cbn.
  - eexists; split; [reflexivity|]. cbn. auto.
  - destruct (fits env _); eexists; (split; [reflexivity|]); cbn; auto.
    intros _ Hne. destruct repos; [contradiction|reflexivity].
Qed.

Lemma cache_ok_initial :
  cache_ok (initial (Slot None)) = true
  /\ cache_ok (initial Disabled) = true.
Proof. split; reflexivity. Qed.

Lemma clearCache_cache_ok w : cache_ok (snd (clearCache w)) = true.
Proof.
  unfold clearCache, cache_ok.
  destruct (storage w) eqn:Hs; cbn; rewrite ?Hs; reflexivity.
Qed.

(** ** The two paths of [fetchUserData] *)
Lemma fetchUserData_cached fuel username onProgress w d w1 :
  getCachedData env username w = (Ok (Some d), w1) ->
  fetchUserData env fuel username onProgress w
  = (Ok d, reported onProgress UsingCached w1).
Proof.
  intros H. unfold fetchUserData. unfold bind at 1. rewrite H.
  unfold bind.
  destruct (when_report_ok onProgress UsingCached w1) as (-> & _).
  reflexivity.
Qed.

Lemma fetchUserData_fresh fuel username onProgress w w1 :
  getCachedData env username w = (Ok None, w1) ->
  fetchUserData env fuel username onProgress w
  = bind (fetchUser env username)
      (fun userInfo =>
         bind (when onProgress (report FetchingRepos))
           (fun _ =>
              bind (fetchRepos env fuel username onProgress)
                (fun repos =>
                   if (length repos =? 0)%nat then throw NoPublicRepos
                   else
                     bind (when onProgress (report FetchingLanguages))
                       (fun _ =>
                          bind (enrich env username onProgress
                                  (length (firstn 20 repos)) 0
                                  (firstn 20 repos))
                            (fun enriched =>
                               bind (setCachedData env username
                                       (enriched ++ skipn 20 repos)
                                       userInfo)
                                 (fun _ =>
                                    bind (Date_now env)
                                      (fun t =>
                                         ret (UserData.mk username
                                                (enriched ++ skipn 20 repos)
                                                userInfo t))))))))
      (reported onProgress FetchingUser w1).
Proof.
  intros H. unfold fetchUserData. unfold bind at 1. rewrite H.
  unfold bind at 1.
  destruct (when_report_ok onProgress FetchingUser w1) as (-> & _).
  reflexivity.
Qed.

(** After the repository list has arrived, nothing can fail. *)
Lemma aggregate_tail username onProgress userInfo repos w :
  repos <> [] ->
  exists data w',
    bind (when onProgress (report FetchingLanguages))
      (fun _ =>
         bind (enrich env username onProgress
                 (length (firstn 20 repos)) 0 (firstn 20 repos))
           (fun enriched =>
              bind (setCachedData env username
                      (enriched ++ skipn 20 repos) userInfo)
                (fun _ =>
                   bind (Date_now env)
                     (fun t =>
                        ret (UserData.mk username
                               (enriched ++ skipn 20 repos)
                               userInfo t))))) w
    = (Ok data, w')
    /\ length (UserData.repos data) = length repos
    /\ UserData.username data = username
    /\ (cache_ok w = true -> cache_ok w' = true).
Proof.
  intros Hne. unfold bind at 1.
  destruct (when_report_ok onProgress FetchingLanguages w)
    as (-> & Hs0 & _).
  unfold bind at 1.
  destruct (enrich_total username onProgress (length (firstn 20 repos))
              (firstn 20 repos) 0
              (reported onProgress FetchingLanguages w))
    as (enriched & w2 & -> & Hs2 & Hlen).
  assert (Hlen' : length (enriched ++ skipn 20 repos) = length repos).
  { rewrite length_app, Hlen, <- length_app, firstn_skipn. reflexivity. }
  assert (Hne' : (enriched ++ skipn 20 repos)%list <> []).
  { intros Heq. rewrite Heq in Hlen'. destruct repos; [congruence|].
    discriminate. }
  unfold bind at 1.
  assert (Hok2 : cache_ok w = true -> cache_ok w2 = true).
  { unfold cache_ok. rewrite Hs2, Hs0. auto. }
  destruct (setCachedData_ok username (enriched ++ skipn 20 repos)
              userInfo w2) as (w3 & -> & Hok3).
  unfold bind, Date_now. cbn.
  do 2 eexists. split; [reflexivity|]. cbn.
  split; [exact Hlen'|]. split; [reflexivity|].
  intros Hok. unfold cache_ok in *. cbn. auto.
Qed.
End ApiFacts.

Section ApiClaims.
Import GitHubAPI Spec.

(** C2 (as stated): the entry is returned iff the names are equal and
    the age is strictly below the TTL.  False: at an age of exactly
    thirty minutes the entry is still returned. *)
Lemma getCachedData_strict_ttl_counterexample :
  ~ (forall env username w d,
        storage w = Slot (Some (Stored d)) ->
        (fst (getCachedData env username w) = Ok (Some d)
         <-> UserData.username d = username
             /\ (now env (clock w) - UserData.lastFetch d
                 < CACHE_DURATION)%Z)).
Proof.
  intros H.
  specialize (H (Demo.env [] 1800000) "octocat" Demo.cached Demo.snapshot
                eq_refl).
  destruct H as [H _]. specialize (H eq_refl). cbn in H.
  destruct H as [_ H]. unfold CACHE_DURATION in H. lia.
Qed.

(** C2 (as amended): for a stored entry [d] and a queried [username],
    [getCachedData] returns [d] if and only if the stored username equals
    the queried one and the elapsed time [now - lastFetch] is at most the
    TTL of 30 minutes; in every other case it returns absent. *)
Theorem getCachedData_returns_entry_iff_fresh env username w d :
  storage w = Slot (Some (Stored d)) ->
  let age := (now env (clock w) - UserData.lastFetch d)%Z in
  (fst (getCachedData env username w) = Ok (Some d)
   <-> UserData.username d = username /\ (age <= 1000 * 60 * 30)%Z)
  /\ (fst (getCachedData env username w) = Ok None
      <-> ~ (UserData.username d = username /\ (age <= 1000 * 60 * 30)%Z)).
Proof.
  intros Hst age. rewrite (getCachedData_stored env username w d Hst).
  fold age. change CACHE_DURATION with (1000 * 60 * 30)%Z.
  destruct (String.eqb_spec (UserData.username d) username) as [Heq|Hne];
    destruct (Z.leb_spec age (1000 * 60 * 30)) as [Hle|Hgt]; cbn;
    split; split; intros H;
    try discriminate; try reflexivity;
    try (split; [assumption|lia]);
    try (intros [? ?]; first [contradiction | lia]);
    try (destruct H as [? ?]; first [contradiction | lia]);
    try (exfalso; apply H; split; [assumption|lia]).
Qed.

Lemma getCachedData_returns_entry_iff_fresh_witness :
  fst (getCachedData (Demo.env [] 1800000) "octocat" Demo.cached)
  = Ok (Some Demo.snapshot).
Proof.
  apply (getCachedData_returns_entry_iff_fresh
           (Demo.env [] 1800000) "octocat" Demo.cached Demo.snapshot
           eq_refl).
  split; [reflexivity|]. vm_compute. discriminate.
Defined.

(** C8: when the underlying request fails for any reason, [fetchLanguages]
    returns the empty mapping and [fetchReadme] returns null (not the empty
    string); neither ever throws, the enrichment loop always completes, and
    once the profile and a non-empty repository list have been fetched the
    overall [fetchUserData] succeeds whatever the enrichment requests do. *)
Theorem enrichment_failures_degrade env owner repo w :
  (exists langs, fst (fetchLanguages env owner repo w) = Ok langs)
  /\ (forall e,
        fst (fetchWithRateLimit env (LanguagesReq owner repo) w) = Throw e ->
        fst (fetchLanguages env owner repo w) = Ok [])
  /\ (exists excerpt, fst (fetchReadme env owner repo w) = Ok excerpt)
  /\ (forall e,
        fst (fetchWithRateLimit env (ReadmeReq owner repo) w) = Throw e ->
        fst (fetchReadme env owner repo w) = Ok None
        /\ fst (fetchReadme env owner repo w) <> Ok (Some ""))
  /\ (forall content,
        fst (fetchWithRateLimit env (ReadmeReq owner repo) w) = Ok content ->
        atob env content = None ->
        fst (fetchReadme env owner repo w) = Ok None)
  /\ (forall onProgress total i topRepos,
        exists enriched,
          fst (enrich env owner onProgress total i topRepos w) = Ok enriched
          /\ length enriched = length topRepos)
  /\ (forall fuel onProgress userInfo repos w1 w2 w3,
        getCachedData env owner w = (Ok None, w1) ->
        fetchUser env owner (reported onProgress FetchingUser w1)
        = (Ok userInfo, w2) ->
        fetchRepos env fuel owner onProgress
                   (reported onProgress FetchingRepos w2)
        = (Ok repos, w3) ->
        repos <> [] ->
        exists data,
          fst (fetchUserData env fuel owner onProgress w) = Ok data
          /\ length (UserData.repos data) = length repos).
Proof.
  split.
  { destruct (fetchLanguages_total env owner repo w) as (l & w' & -> & _).
    eauto. }
  split.
  { intros e. unfold fetchLanguages, try_catch.
    destruct (fetchWithRateLimit env (LanguagesReq owner repo) w)
      as [[b|e'|] w1]; cbn; intros [=]. reflexivity. }
  split.
  { destruct (fetchReadme_total env owner repo w) as (x & w' & -> & _).
    eauto. }
  split.
  { intros e. unfold fetchReadme, try_catch, bind.
    destruct (fetchWithRateLimit env (ReadmeReq owner repo) w)
      as [[b|e'|] w1]; cbn; intros [=]. split; [reflexivity|discriminate]. }
  split.
  { intros content. unfold fetchReadme, try_catch, bind.
    destruct (fetchWithRateLimit env (ReadmeReq owner repo) w)
      as [[b|e'|] w1]; cbn; intros [=]; subst b. intros ->. reflexivity. }
  split.
  { intros onProgress total i topRepos.
    destruct (enrich_total env owner onProgress total topRepos i w)
      as (l & w' & -> & _ & Hlen). eauto. }
  intros fuel onProgress userInfo repos w1 w2 w3 Hc Hu Hr Hne.
  rewrite (fetchUserData_fresh env fuel owner onProgress w w1 Hc).
  unfold bind at 1. rewrite Hu.
  unfold bind at 1.
  destruct (when_report_ok onProgress FetchingRepos w2) as (-> & _).
  unfold bind at 1. rewrite Hr.
  destruct repos as [|r0 repos]; [contradiction|].
  cbn [length Nat.eqb].
  destruct (aggregate_tail env owner onProgress userInfo (r0 :: repos) w3 Hne)
    as (data & w' & -> & Hlen & _). eauto.
Qed.

Lemma enrichment_failures_degrade_witness :
  fst (fetchLanguages (Demo.env [] 0) "octocat" "hello" (initial (Slot None)))
  = Ok [].
Proof.
  apply (proj1 (proj2 (enrichment_failures_degrade
                         (Demo.env [] 0) "octocat" "hello"
                         (initial (Slot None))))
           NetworkError).
  reflexivity.
Defined.

(** C3: every snapshot that [fetchUserData] returns successfully, fresh or
    from the cache, has a non-empty repository list, given that the cache
    slot holds no empty snapshot, which every call preserves; when the
    profile fetch succeeds and the paginated list is empty the call fails
    with the no-public-repositories error, which differs from the
    user-not-found error in kind and in message. *)
Theorem fetchUserData_repos_nonempty env fuel username onProgress w :
  cache_ok w = true ->
  cache_ok (snd (fetchUserData env fuel username onProgress w)) = true
  /\ (forall data,
        fst (fetchUserData env fuel username onProgress w) = Ok data ->
        UserData.repos data <> [])
  /\ (forall userInfo w1 w2 w3,
        getCachedData env username w = (Ok None, w1) ->
        fetchUser env username (reported onProgress FetchingUser w1)
        = (Ok userInfo, w2) ->
        fetchRepos env fuel username onProgress
                   (reported onProgress FetchingRepos w2)
        = (Ok [], w3) ->
        fst (fetchUserData env fuel username onProgress w)
        = Throw NoPublicRepos)
  /\ NoPublicRepos <> UserNotFound
  /\ message NoPublicRepos <> message UserNotFound.
Proof.
  intros Hok.
  assert (Hlast : NoPublicRepos <> UserNotFound
                  /\ message NoPublicRepos <> message UserNotFound)
    by (split; discriminate).
  assert (Hempty : forall userInfo w1 w2 w3,
        getCachedData env username w = (Ok None, w1) ->
        fetchUser env username (reported onProgress FetchingUser w1)
        = (Ok userInfo, w2) ->
        fetchRepos env fuel username onProgress
                   (reported onProgress FetchingRepos w2)
        = (Ok [], w3) ->
        fst (fetchUserData env fuel username onProgress w)
        = Throw NoPublicRepos).
  { intros userInfo w1 w2 w3 Hc Hu Hr.
    rewrite (fetchUserData_fresh env fuel username onProgress w w1 Hc).
    unfold bind at 1. rewrite Hu. unfold bind at 1.
    destruct (when_report_ok onProgress FetchingRepos w2) as (-> & _).
    unfold bind at 1. rewrite Hr. reflexivity. }
  cut (forall res w',
          fetchUserData env fuel username onProgress w = (res, w') ->
          cache_ok w' = true
          /\ (forall data, res = Ok data -> UserData.repos data <> [])).
  { intros Hrun.
    destruct (fetchUserData env fuel username onProgress w) as [res w'].
    destruct (Hrun res w' eq_refl). tauto. }
  clear Hempty Hlast. intros res w'.
  pose proof (getCachedData_frame env username w) as (Hs1 & _ & Hres).
  destruct (getCachedData env username w) as [[[d|]|e|] w1] eqn:Hc;
    cbn in Hs1, Hres; try contradiction.
  - (* served from the cache *)
    rewrite (fetchUserData_cached env fuel username onProgress w d w1 Hc).
    destruct (when_report_ok onProgress UsingCached w1) as (_ & Hs2 & _).
    intros [= <- <-].
    unfold cache_ok in *. rewrite Hs2, Hs1. rewrite Hres in Hok.
    split; [rewrite Hres; exact Hok|].
    intros data [= <-] Hnil. rewrite Hnil in Hok. discriminate.
  - (* freshly aggregated *)
    rewrite (fetchUserData_fresh env fuel username onProgress w w1 Hc).
    destruct (when_report_ok onProgress FetchingUser w1) as (_ & Hs2 & _).
    assert (Hoka : cache_ok (reported onProgress FetchingUser w1) = true)
      by (unfold cache_ok in *; rewrite Hs2, Hs1; exact Hok).
    unfold bind at 1. unfold fetchUser.
    destruct (fetchWithRateLimit env (UserReq username)
                (reported onProgress FetchingUser w1))
      as [[userInfo|e|] w2] eqn:Hu;
      pose proof (fetchWithRateLimit_storage _ _ _ _ _ Hu) as Hs3;
      assert (Hok2 : cache_ok w2 = true)
        by (unfold cache_ok in *; rewrite Hs3; exact Hoka);
      [|intros [= <- <-]; split; [exact Hok2|intros ? [=]]..].
    unfold bind at 1.
    destruct (when_report_ok onProgress FetchingRepos w2) as (-> & Hs4 & _).
    assert (Hokb : cache_ok (reported onProgress FetchingRepos w2) = true)
      by (unfold cache_ok in *; rewrite Hs4; exact Hok2).
    unfold bind at 1. unfold fetchRepos.
    pose proof (fetchRepos_loop_storage env username onProgress fuel []
                  1%nat (reported onProgress FetchingRepos w2)) as Hs5.
    destruct (fetchRepos_loop env fuel username onProgress [] 1
                (reported onProgress FetchingRepos w2))
      as [[repos|e|] w3] eqn:Hr; cbn [snd] in Hs5;
      assert (Hok4 : cache_ok w3 = true)
        by (unfold cache_ok in *; rewrite Hs5; exact Hokb);
      [|intros [= <- <-]; split; [exact Hok4|intros ? [=]]..].
    destruct repos as [|r0 repos];
      [intros [= <- <-]; split; [exact Hok4|intros ? [=]]|].
    cbn [length Nat.eqb].
    destruct (aggregate_tail env username onProgress userInfo (r0 :: repos) w3)
      as (data & w4 & -> & Hlen & _ & Hpres); [discriminate|].
    intros [= <- <-]. split; [auto|].
    intros data' [= <-] Hnil. rewrite Hnil in Hlen. discriminate.
Qed.

Lemma fetchUserData_repos_nonempty_witness :
  cache_ok (snd (fetchUserData (Demo.env [Demo.repo "hello" 3] 0) 5
                               "octocat" true (initial (Slot None))))
  = true.
Proof.
  apply (fetchUserData_repos_nonempty
           (Demo.env [Demo.repo "hello" 3] 0) 5 "octocat" true
           (initial (Slot None))).
  reflexivity.
Defined.

(** The demonstration service yields one enriched repository, with an
    empty language mapping and a null readme excerpt. *)
Example fetchUserData_demo :
  fst (fetchUserData (Demo.env [Demo.repo "hello" 3] 7) 5 "octocat" false
                     (initial (Slot None)))
  = Ok (UserData.mk "octocat"
          [Repo.set_readmeExcerpt
             (Repo.set_languageData (Demo.repo "hello" 3) []) None]
          Demo.user 7).
Proof. vm_compute. reflexivity. Qed.
End ApiClaims.

(* ===================================================================== *)
(** * Pagination                                                        *)
(* ===================================================================== *)

Section Pagination.
Import GitHubAPI Spec.
Variable env : Env.
Variable username : string.
Variable onProgress : bool.
Variable all : list Repo.t.
Hypothesis Hlists : lists env username all.

Lemma firstn_add {A} (a b : nat) (l : list A) :
  firstn (a + b) l = (firstn a l ++ firstn b (skipn a l))%list.
Proof.
  revert l. induction a as [|a IH]; intros [|x l]; cbn;
    try reflexivity.
  - destruct b; reflexivity.
  - f_equal. apply IH.
Qed.

Lemma pageOf_length page :
  length (pageOf all page)
  = Nat.min perPage (length all - (page - 1) * perPage).
Proof. unfold pageOf. rewrite length_firstn, length_skipn. reflexivity. Qed.

(** The loop at page [k + 1], having accumulated the first [k] full
    pages. *)
Lemma fetchRepos_loop_pages fuel :
  forall k w,
    (k * perPage <= length all)%nat ->
    (length all / perPage < fuel + k)%nat ->
    exists res w' j,
      fetchRepos_loop env fuel username onProgress
                      (firstn (k * perPage) all) (S k) w = (res, w')
      /\ res <> OutOfFuel
      /\ (k + j <= length all / perPage + 1)%nat
      /\ sent w' = (sent w ++ pageUrls username (S k) j)%list
      /\ (forall rs, res = Ok rs ->
                     (k + j)%nat = (length all / perPage + 1)%nat
                     /\ rs = all).
Proof.
  unfold perPage.
  pose proof (Nat.div_mod_eq (length all) 100) as Hdm.
  pose proof (Nat.mod_upper_bound (length all) 100 ltac:(lia)) as Hmod.
  induction fuel as [|fuel IH]; intros k w Hk Hfuel; [lia|].
  cbn [fetchRepos_loop]. unfold bind at 1.
  pose proof (fetchWithRateLimit_cases env (ReposReq username (S k)) w)
    as [_ Hc].
  destruct (fetchWithRateLimit env (ReposReq username (S k)) w)
    as [[b|e|] w1]; cbn [fst snd] in Hc.
  - (* a page arrived *)
    destruct Hc as [[_ [m [=]]]|[Hsent (r & Hr & Hj & _)]].
    pose proof (Hlists _ _ _ _ Hr Hj) as Hb.
    pose proof (pageOf_length (S k)) as Hlen. rewrite <- Hb in Hlen.
    unfold pageOf, perPage in Hb, Hlen.
    replace (S k - 1)%nat with k in Hb, Hlen by lia.
    destruct (Nat.eqb_spec (length b) 0) as [H0|H0].
    + (* empty page *)
      exists (Ok (firstn (k * 100) all)), w1, 1%nat.
      split; [reflexivity|]. split; [discriminate|].
      split; [lia|]. split; [exact Hsent|].
      intros rs [= <-]. split; [lia|]. apply firstn_all2. lia.
    + unfold bind at 1.
      destruct (when_report_ok onProgress
                  (Fetched (length (firstn (k * 100) all ++ b))) w1)
        as (-> & _ & Hsent').
      unfold perPage.
      destruct (Nat.ltb_spec (length b) 100) as [Hshort|Hfull].
      * (* short page *)
        exists (Ok (firstn (k * 100) all ++ b)%list), 
          (reported onProgress
             (Fetched (length (firstn (k * 100) all ++ b))) w1), 1%nat.
        split; [reflexivity|]. split; [discriminate|].
        split; [lia|]. split; [rewrite Hsent', Hsent; reflexivity|].
        intros rs [= <-]. split; [lia|].
        rewrite Hb.
        rewrite (firstn_all2 (n := 100) (skipn (k * 100) all))
          by (rewrite length_skipn; lia).
        apply firstn_skipn.
      * (* full page: next iteration *)
        unfold bind at 1. cbn [sleep ret].
        assert (Hacc : (firstn (k * 100) all ++ b)%list
                       = firstn (S k * 100) all).
        { rewrite Hb. replace (S k * 100)%nat with (k * 100 + 100)%nat
            by lia. symmetry. apply firstn_add. } 
        rewrite Hacc.
        destruct (IH (S k)
                    (reported onProgress
                       (Fetched (length (firstn (S k * 100) all))) w1))
          as (res & w' & j & Hrun & Hfuel' & Hj' & Hs & Hres);
          [lia | lia |].
        exists res, w', (S j). split; [exact Hrun|].
        split; [exact Hfuel'|]. split; [lia|].
        split.
        { rewrite Hs. rewrite <- Hacc, Hsent', Hsent.
          rewrite <- app_assoc. reflexivity. }
        intros rs Hrs. destruct (Hres rs Hrs). split; [lia|assumption].
  - (* the request failed *)
    destruct Hc as [[Hsent _]|[Hsent _]].
    + exists (Throw e), w1, 0%nat. split; [reflexivity|].
      split; [discriminate|]. split; [lia|].
      split; [rewrite Hsent; cbn; symmetry; apply app_nil_r|].
      intros rs [=].
    + exists (Throw e), w1, 1%nat. split; [reflexivity|].
      split; [discriminate|]. split; [lia|].
      split; [exact Hsent|]. intros rs [=].
  - destruct Hc as [[_ [m [=]]]|[_ []]].
Qed.

(** One listing request to a service that answers: the page arrives
    and the quota stays open. *)
Lemma fetchWithRateLimit_served page w :
  serves env username all ->
  (0 < rateLimitRemaining w)%Z ->
  exists w1,
    fetchWithRateLimit env (ReposReq username page) w
    = (Ok (pageOf all page), w1)
    /\ (0 < rateLimitRemaining w1)%Z.
Proof.
  intros Hserves Hquota.
  destruct (Hserves (length (sent w)) page) as (r & Hr & Hok & Hj & Hrem).
  unfold fetchWithRateLimit, bind at 1, exhausted.
  replace (rateLimitRemaining w <=? 0)%Z with false
    by (symmetry; apply Z.leb_gt; exact Hquota).
  unfold bind at 1, do_fetch. rewrite Hr.
  unfold bind, updateRateLimit.
  assert (H404 : (status r =? 404)%Z = false).
  { unfold ok in Hok. apply andb_true_iff in Hok as [_ Hle].
    apply Z.leb_le in Hle. apply Z.eqb_neq. lia. }
  assert (H403 : (status r =? 403)%Z = false).
  { unfold ok in Hok. apply andb_true_iff in Hok as [_ Hle].
    apply Z.leb_le in Hle. apply Z.eqb_neq. lia. }
  rewrite H404, H403, Hok, Hj. cbn [negb].
  eexists. split; [reflexivity|]. cbn [rateLimitRemaining].
  destruct (hdrRemaining r); assumption.
Qed.

(** Against a service that answers, the loop does not throw. *)
Lemma fetchRepos_loop_served fuel :
  serves env username all ->
  forall repos page w,
    (0 < rateLimitRemaining w)%Z ->
    forall e,
      fst (fetchRepos_loop env fuel username onProgress repos page w)
      <> Throw e.
Proof.
  intros Hserves.
  induction fuel as [|fuel IH]; intros repos page w Hquota e;
    [discriminate|].
  cbn [fetchRepos_loop]. unfold bind at 1.
  destruct (fetchWithRateLimit_served page w Hserves Hquota)
    as (w1 & -> & Hquota1).
  destruct (length (pageOf all page) =? 0)%nat; [discriminate|].
  unfold bind at 1.
  destruct (when_report_ok onProgress
              (Fetched (length (repos ++ pageOf all page))) w1)
    as (-> & _).
  destruct (length (pageOf all page) <? perPage)%nat; [discriminate|].
  unfold bind at 1. cbn [sleep ret].
  apply IH. unfold reported. destruct onProgress; exact Hquota1.
Qed.
End Pagination.

Section PaginationClaims.
Import GitHubAPI Spec.

(** C4: for an account whose repository list is [all], [fetchRepos]
    terminates whenever the loop bound exceeds [length all / 100]: it
    issues the requests for pages 1, 2, ... in order, at most
    [length all / 100 + 1] of them, and when it returns it has issued
    exactly that many and returns [all].  Page [length all / 100 + 1] is
    the first page shorter than the page size, and it is empty when the
    length is an exact multiple of the page size.  Against a service
    that answers every listing request, with the quota open, [fetchRepos]
    does return: it issues exactly the [length all / 100 + 1] requests
    and returns [all]. *)
Theorem fetchRepos_terminates env username onProgress all fuel w :
  lists env username all ->
  (length all / perPage < fuel)%nat ->
  let pages := (length all / perPage + 1)%nat in
  let run := fetchRepos env fuel username onProgress w in
  fst run <> OutOfFuel
  /\ (exists count,
        (count <= pages)%nat
        /\ sent (snd run) = (sent w ++ pageUrls username 1 count)%list
        /\ (forall repos, fst run = Ok repos -> count = pages /\ repos = all))
  /\ (length (pageOf all pages) < perPage)%nat
  /\ (forall page, (1 <= page < pages)%nat ->
                   length (pageOf all page) = perPage)
  /\ ((length all mod perPage = 0)%nat -> pageOf all pages = [])
  /\ (serves env username all ->
      (0 < rateLimitRemaining w)%Z ->
      fst run = Ok all
      /\ sent (snd run) = (sent w ++ pageUrls username 1 pages)%list).
Proof.
  intros Hlists Hfuel pages run.
  pose proof (Nat.div_mod_eq (length all) 100) as Hdm.
  pose proof (Nat.mod_upper_bound (length all) 100 ltac:(lia)) as Hmod.
  pose proof (fun Hserves =>
                fetchRepos_loop_served env username onProgress all fuel
                  Hserves [] 1%nat w) as Hserved.
  fold (fetchRepos env fuel username onProgress) in Hserved.
  destruct (fetchRepos_loop_pages env username onProgress all Hlists fuel
              0%nat w) as (res & w' & j & Hrun & Hf & Hj & Hs & Hres);
    [cbn; lia | unfold perPage in *; lia |].
  change (firstn (0 * perPage) all) with (@nil Repo.t) in Hrun.
  fold (fetchRepos env fuel username onProgress) in Hrun.
  subst run. rewrite Hrun in *. cbn [fst snd] in *.
  split; [exact Hf|].
  split; [exists j; split; [exact Hj|]; split; [exact Hs|exact Hres]|].
  subst pages. unfold perPage in *.
  split; [rewrite pageOf_length; unfold perPage; lia|].
  split; [intros page Hp; rewrite pageOf_length; unfold perPage; nia|].
  split.
  { intros H0. apply length_zero_iff_nil. rewrite pageOf_length.
    unfold perPage. lia. }
  intros Hserves Hquota.
  destruct res as [rs|e|].
  - destruct (Hres rs eq_refl) as [Hcount ->].
    split; [reflexivity|]. rewrite Hs. cbn [Nat.add] in Hcount.
    rewrite Hcount. reflexivity.
  - exfalso. exact (Hserved Hserves Hquota e eq_refl).
  - contradiction.
Qed.

Lemma fetchRepos_terminates_witness :
  fst (fetchRepos (Demo.env (repeat (Demo.repo "r" 0) 200) 0) 3 "octocat"
                  false (initial (Slot None)))
  = Ok (repeat (Demo.repo "r" 0) 200)
  /\ sent (snd (fetchRepos (Demo.env (repeat (Demo.repo "r" 0) 200) 0) 3
                           "octocat" false (initial (Slot None))))
     = pageUrls "octocat" 1 3.
Proof.
  apply (fetchRepos_terminates
           (Demo.env (repeat (Demo.repo "r" 0) 200) 0) "octocat" false
           (repeat (Demo.repo "r" 0) 200) 3 (initial (Slot None))).
  - intros n page r b Hr Hj. cbn in Hr. injection Hr as <-.
    cbn in Hj. injection Hj as <-. reflexivity.
  - vm_compute. lia.
  - intros n page. eexists. repeat split; reflexivity.
  - reflexivity.
Defined.

(** An account with exactly two full pages: three requests are sent, the
    third returning the empty page. *)
Example fetchRepos_two_full_pages :
  let run := fetchRepos (Demo.env (repeat (Demo.repo "r" 0) 200) 0) 3
                        "octocat" false (initial (Slot None)) in
  fst run = Ok (repeat (Demo.repo "r" 0) 200)
  /\ sent (snd run)
     = ["https://api.github.com/users/octocat/repos?per_page=100&page=1&sort=updated";
        "https://api.github.com/users/octocat/repos?per_page=100&page=2&sort=updated";
        "https://api.github.com/users/octocat/repos?per_page=100&page=3&sort=updated"].
Proof. vm_compute. split; reflexivity. Qed.
End PaginationClaims.

(* ===================================================================== *)
(** * Filtering, featured selection, rendering                          *)
(* ===================================================================== *)

Section HeapFacts.
Import TemplateEngine View.
Local Open Scope list_scope.

Lemma lookup_last (h : Heap) x : (h ++ [x]) !! length h = Some x.
Proof. apply list_lookup_middle. reflexivity. Qed.

Lemma insert_last (h : Heap) x y : <[length h := y]> (h ++ [x]) = h ++ [y].
Proof.
  rewrite insert_app_r_alt by lia. rewrite Nat.sub_diag. reflexivity.
Qed.

Lemma read_inner (h : Heap) x rest :
  read (length h) ((h ++ [x]) ++ rest) = (x, (h ++ [x]) ++ rest).
Proof.
  unfold read.
  assert (E : ((h ++ [x]) ++ rest) !! length h = Some x)
    by (rewrite <- app_assoc; apply list_lookup_middle; reflexivity).
  rewrite E. reflexivity.
Qed.

Lemma read_last (h : Heap) x : read (length h) (h ++ [x]) = (x, h ++ [x]).
Proof. unfold read. rewrite lookup_last. reflexivity. Qed.

Lemma sort_last cmp (h : Heap) x :
  sort_arr cmp (length h) (h ++ [x])
  = (length h, h ++ [sorted_by cmp x]).
Proof.
  unfold sort_arr, bind. rewrite read_last. unfold write, ret.
  rewrite insert_last. reflexivity.
Qed.

Lemma filter_last p (h : Heap) x :
  filter_arr p (length h) (h ++ [x])
  = (length (h ++ [x]), (h ++ [x]) ++ [List.filter p x]).
Proof. unfold filter_arr, bind. rewrite read_last. reflexivity. Qed.

Lemma slice_last i j (h : Heap) x :
  slice_arr i j (length h) (h ++ [x])
  = (length (h ++ [x]), (h ++ [x]) ++ [firstn (j - i) (skipn i x)]).
Proof. unfold slice_arr, bind. rewrite read_last. reflexivity. Qed.
End HeapFacts.

Section SortFacts.
Import TemplateEngine.
Context {A : Type} (cmp : A -> A -> Z).

Lemma insert_sorted_perm x l : Permutation (insert_sorted cmp x l) (x :: l).
Proof.
  induction l as [|y l IH]; cbn; [reflexivity|].
  destruct (cmp x y >? 0)%Z; [|reflexivity].
  rewrite IH. apply perm_swap.
Qed.

Lemma sorted_by_perm l : Permutation (sorted_by cmp l) l.
Proof.
  induction l as [|x l IH]; cbn; [reflexivity|].
  rewrite insert_sorted_perm. constructor. exact IH.
Qed.
End SortFacts.

Section EngineFacts.
Import TemplateEngine View.
Local Open Scope list_scope.
Variable localeCompare : string -> string -> Z.
Variable getTemplateStyles : string -> string.

(** [getFilteredRepos] returns a fresh array, the last cell of an
    extended heap, holding the filtered and sorted copy. *)
Lemma getFilteredRepos_run e h :
  exists pre,
    getFilteredRepos localeCompare e h
    = (length (h ++ pre),
       (h ++ pre)
         ++ [filteredSorted localeCompare (settings e)
                            (snapshotRepos e h)]).
Proof.
  unfold getFilteredRepos, snapshotRepos, filteredSorted.
  destruct (userData e) as [ud|];
    [destruct (repos ud) as [data|]|].
  2,3: exists []; rewrite app_nil_r; unfold alloc;
       destruct (Settings.filterNoForks (settings e));
       repeat (destruct (String.eqb _ _)); reflexivity.
  unfold bind at 1. unfold spread, bind at 1, read, alloc.
  set (v := default [] (h !! data)).
  unfold bind at 1.
  destruct (Settings.filterNoForks (settings e)).
  - exists [v]. rewrite filter_last. unfold bind.
    destruct (String.eqb _ "stars");
      [rewrite sort_last; reflexivity|].
    destruct (String.eqb _ "updated");
      [rewrite sort_last; reflexivity|].
    destruct (String.eqb _ "name");
      [rewrite sort_last; reflexivity|]. reflexivity.
  - exists []. rewrite app_nil_r. unfold ret at 1. unfold bind.
    destruct (String.eqb _ "stars");
      [rewrite sort_last; reflexivity|].
    destruct (String.eqb _ "updated");
      [rewrite sort_last; reflexivity|].
    destruct (String.eqb _ "name");
      [rewrite sort_last; reflexivity|]. reflexivity.
Qed.

Lemma getFeaturedRepos_run e h :
  exists pre,
    getFeaturedRepos localeCompare e h
    = (length (h ++ pre),
       (h ++ pre)
         ++ [featuredOf (Settings.featuredRepos (settings e))
                        (filteredSorted localeCompare (settings e)
                                        (snapshotRepos e h))]).
Proof.
  unfold getFeaturedRepos, bind at 1.
  destruct (getFilteredRepos_run e h) as [pre ->].
  set (fs := filteredSorted localeCompare (settings e) (snapshotRepos e h)).
  destruct (Settings.featuredRepos (settings e)) as [|n names].
  - exists (pre ++ [fs]). cbn [length Nat.ltb Nat.leb].
    rewrite slice_last, app_assoc. reflexivity.
  - exists (pre ++ [fs; compact (map (fun name => List.find (hasName name) fs)
                                   (n :: names))]).
    cbn [length Nat.ltb Nat.leb]. unfold bind at 1. rewrite read_last.
    unfold bind at 1, alloc at 1.
    rewrite slice_last.
    replace (h ++ pre ++ [fs; compact (map (fun name => List.find (hasName name) fs) (n :: names))])
      with (((h ++ pre) ++ [fs]) ++ [compact (map (fun name => List.find (hasName name) fs) (n :: names))])
      by (rewrite <- !app_assoc; reflexivity).
    reflexivity.
Qed.

Lemma contents_getFilteredRepos e h :
  contents (getFilteredRepos localeCompare e) h
  = filteredSorted localeCompare (settings e) (snapshotRepos e h).
Proof.
  unfold contents. destruct (getFilteredRepos_run e h) as [pre ->].
  cbn [fst snd]. rewrite lookup_last. reflexivity.
Qed.

Lemma contents_getFeaturedRepos e h :
  contents (getFeaturedRepos localeCompare e) h
  = featuredOf (Settings.featuredRepos (settings e))
               (contents (getFilteredRepos localeCompare e) h).
Proof.
  rewrite contents_getFilteredRepos.
  unfold contents. destruct (getFeaturedRepos_run e h) as [pre ->].
  cbn [fst snd]. rewrite lookup_last. reflexivity.
Qed.

Lemma snapshotRepos_extend e h fresh :
  valid e h = true -> snapshotRepos e (h ++ fresh) = snapshotRepos e h.
Proof.
  unfold valid, snapshotRepos.
  destruct (userData e) as [ud|]; [|reflexivity].
  destruct (repos ud) as [l|]; [|reflexivity].
  intros Hl. apply Nat.ltb_lt in Hl.
  rewrite lookup_app_l by exact Hl. reflexivity.
Qed.

(** Handing a fetched snapshot to the engine stores its repository
    list in a fresh array, which the engine's state then refers to. *)
Lemma setUserData_valid data e h :
  valid (fst (setUserData data e h)) (snd (setUserData data e h)) = true
  /\ snapshotRepos (fst (setUserData data e h)) (snd (setUserData data e h))
     = UserData.repos data
  /\ snd (setUserData data e h) = h ++ [UserData.repos data].
Proof.
  unfold setUserData, bind, alloc, ret, valid, snapshotRepos. cbn.
  rewrite lookup_last, length_app. cbn.
  split; [apply Nat.ltb_lt; lia|]. split; reflexivity.
Qed.

(** [render] extends the heap and computes the page from the
    snapshot's list alone. *)
Lemma render_run e h :
  valid e h = true ->
  exists fresh,
    render localeCompare getTemplateStyles e h
    = (renderFrom localeCompare getTemplateStyles e (snapshotRepos e h),
       h ++ fresh).
Proof.
  intros Hv. unfold render, renderFrom.
  destruct (userData e) as [ud|] eqn:Hud.
  2:{ exists []. rewrite app_nil_r. reflexivity. }
  set (rs := snapshotRepos e h).
  set (fs := filteredSorted localeCompare (settings e) rs).
  set (feat := featuredOf (Settings.featuredRepos (settings e)) fs).
  unfold bind at 1.
  destruct (getFeaturedRepos_run e h) as [pre1 ->]. fold rs fs feat.
  unfold bind at 1.
  destruct (getFilteredRepos_run e ((h ++ pre1) ++ [feat])) as [pre2 ->].
  replace (snapshotRepos e ((h ++ pre1) ++ [feat])) with rs
    by (rewrite <- app_assoc, snapshotRepos_extend by exact Hv;
        reflexivity).
  fold fs.
  unfold bind at 1.
  rewrite <- (app_assoc ((h ++ pre1) ++ [feat]) pre2 [fs]).
  rewrite read_inner.
  rewrite (app_assoc ((h ++ pre1) ++ [feat]) pre2 [fs]).
  unfold bind at 1. rewrite read_last.
  set (H := ((h ++ pre1) ++ [feat]) ++ pre2).
  destruct (6 <? length fs)%nat.
  - exists (pre1 ++ [feat] ++ pre2 ++ [fs] ++ [skipn 6 fs]).
    unfold bind at 1. unfold bind at 1.
    unfold slice_from. unfold bind at 1. rewrite read_last.
    unfold alloc. unfold bind at 1. rewrite read_last.
    unfold ret. f_equal. subst H. rewrite <- !app_assoc. reflexivity.
  - exists (pre1 ++ [feat] ++ pre2 ++ [fs]).
    unfold bind, ret. f_equal. subst H. rewrite <- !app_assoc.
    reflexivity.
Qed.
End EngineFacts.

Section EngineClaims.
Import TemplateEngine View.

Section Selection.
Local Open Scope list_scope.

Lemma compact_names names (sorted : list Repo.t) :
  map Repo.name
      (compact (map (fun n => List.find (hasName n) sorted) names))
  = List.filter (fun n => existsb (hasName n) sorted) names.
Proof.
  induction names as [|n names IH]; [reflexivity|].
  cbn [map compact flat_map List.filter].
  destruct (List.find (hasName n) sorted) as [r|] eqn:Hf.
  - apply find_some in Hf as [Hin Hn].
    assert (He : existsb (hasName n) sorted = true)
      by (apply existsb_exists; eauto).
    rewrite He. cbn [app map]. f_equal.
    + unfold hasName in Hn. apply String.eqb_eq in Hn. exact Hn.
    + exact IH.
  - assert (He : existsb (hasName n) sorted = false).
    { apply not_true_is_false. intros He.
      apply existsb_exists in He as (r & Hin & Hr).
      pose proof (find_none _ _ Hf r Hin) as Hn. congruence. }
    rewrite He. exact IH.
Qed.

Lemma compact_in names (sorted : list Repo.t) :
  Forall (fun r => In r sorted)
         (compact (map (fun n => List.find (hasName n) sorted) names)).
Proof.
  induction names as [|n names IH]; [constructor|].
  cbn [map compact flat_map].
  destruct (List.find (hasName n) sorted) as [r|] eqn:Hf; [|exact IH].
  apply find_some in Hf as [Hin _]. constructor; assumption.
Qed.
End Selection.

(** C6: with a non-empty [featuredRepos], [getFeaturedRepos] returns the
    named repositories in the user's order (so [["b"; "a"]] yields
    [[b; a]] whatever the sort order), resolved against the filtered and
    sorted list, with unresolved names dropped and at most six kept; with
    an empty [featuredRepos] it returns the first six of the filtered and
    sorted list. *)
Theorem getFeaturedRepos_selection localeCompare e h :
  let featured := Settings.featuredRepos (settings e) in
  let sorted := contents (getFilteredRepos localeCompare e) h in
  let result := contents (getFeaturedRepos localeCompare e) h in
  (featured <> [] ->
   map Repo.name result
   = firstn 6 (List.filter (fun n => existsb (hasName n) sorted) featured)
   /\ result
      = firstn 6 (compact (map (fun n => List.find (hasName n) sorted)
                               featured))
   /\ Forall (fun r => In r sorted) result)
  /\ (forall ra rb,
        featured = ["b"; "a"] ->
        List.find (hasName "b") sorted = Some rb ->
        List.find (hasName "a") sorted = Some ra ->
        result = [rb; ra])
  /\ (featured = [] -> result = firstn 6 sorted)
  /\ (length result <= 6)%nat.
Proof.
  intros featured sorted result.
  assert (Hres : result = featuredOf featured sorted)
    by apply contents_getFeaturedRepos.
  clearbody result sorted featured. subst result.
  split; [|split; [|split]].
  - intros Hne. destruct featured as [|n names]; [contradiction|].
    cbn [featuredOf]. split; [|split].
    + rewrite <- firstn_map, compact_names. reflexivity.
    + reflexivity.
    + apply Forall_take, compact_in.
  - intros ra rb -> Hb Ha. cbn [featuredOf map]. rewrite Hb, Ha.
    reflexivity.
  - intros ->. reflexivity.
  - destruct featured; cbn [featuredOf]; rewrite length_firstn; lia.
Qed.

Lemma getFeaturedRepos_selection_witness :
  contents (getFeaturedRepos DemoEngine.localeCompare
                             (DemoEngine.engine ["b"; "a"]))
           DemoEngine.heap
  = [DemoEngine.repo "b" 5 false; DemoEngine.repo "a" 10 false].
Proof.
  apply (proj1 (proj2 (getFeaturedRepos_selection
                         DemoEngine.localeCompare
                         (DemoEngine.engine ["b"; "a"]) DemoEngine.heap)));
    reflexivity.
Defined.

(** In the demonstration heap the sort by stars puts [a] before [b]. *)
Example getFilteredRepos_demo :
  contents (getFilteredRepos DemoEngine.localeCompare
                             (DemoEngine.engine ["b"; "a"]))
           DemoEngine.heap
  = [DemoEngine.repo "a" 10 false; DemoEngine.repo "b" 5 false].
Proof. reflexivity. Qed.

(** C9: the outputs of [getFilteredRepos], [getFeaturedRepos] and
    [render] are the same for the two values of [filterStarred], and
    with [filterNoForks] set the filtered list has no fork and keeps
    exactly the non-fork repositories of the snapshot. *)
Theorem filterStarred_has_no_effect localeCompare getTemplateStyles e h
        (b1 b2 : bool) :
  getFilteredRepos localeCompare (with_filterStarred b1 e) h
  = getFilteredRepos localeCompare (with_filterStarred b2 e) h
  /\ getFeaturedRepos localeCompare (with_filterStarred b1 e) h
     = getFeaturedRepos localeCompare (with_filterStarred b2 e) h
  /\ render localeCompare getTemplateStyles (with_filterStarred b1 e) h
     = render localeCompare getTemplateStyles (with_filterStarred b2 e) h
  /\ (Settings.filterNoForks (settings e) = true ->
      Forall (fun r => Repo.fork r = false)
             (contents (getFilteredRepos localeCompare e) h)
      /\ Permutation (contents (getFilteredRepos localeCompare e) h)
                     (List.filter nonFork (snapshotRepos e h))).
Proof.
  split; [reflexivity|]. split; [reflexivity|]. split; [reflexivity|].
  intros Hnf. rewrite contents_getFilteredRepos.
  assert (Hperm : Permutation
                    (filteredSorted localeCompare (settings e)
                                    (snapshotRepos e h))
                    (List.filter nonFork (snapshotRepos e h))).
  { unfold filteredSorted. rewrite Hnf.
    repeat (destruct (String.eqb _ _); [apply sorted_by_perm|]).
    reflexivity. }
  split; [|exact Hperm].
  apply List.Forall_forall. intros r Hr.
  apply (Permutation_in _ Hperm) in Hr. apply filter_In in Hr as [_ Hr].
  unfold nonFork in Hr. apply negb_true_iff in Hr. exact Hr.
Qed.

Lemma filterStarred_has_no_effect_witness :
  Forall (fun r => Repo.fork r = false)
         (contents (getFilteredRepos DemoEngine.localeCompare
                                     (DemoEngine.engine []))
                   DemoEngine.heap).
Proof.
  apply (filterStarred_has_no_effect
           DemoEngine.localeCompare DemoEngine.styles
           (DemoEngine.engine []) DemoEngine.heap true false).
  reflexivity.
Defined.

(** The heap model does see in-place updates: sorting the snapshot's own
    array would reorder it. *)
Example sort_arr_mutates_in_place :
  snd (sort_arr (fun a b => (Repo.stargazers_count b
                             - Repo.stargazers_count a)%Z)
                0%nat DemoEngine.heap)
  = [[DemoEngine.repo "a" 10 false; DemoEngine.repo "c" 7 true;
      DemoEngine.repo "b" 5 false]].
Proof. reflexivity. Qed.

(** C10: [getFilteredRepos], [getFeaturedRepos] and [render] only add
    cells to the heap: every array that existed before, the snapshot's
    among them, keeps its elements and their order; hence a render under
    any settings and template gives the same page after an earlier render
    under other settings as it gives on the original heap. *)
Theorem rendering_leaves_snapshot_unchanged
        localeCompare getTemplateStyles e h :
  valid e h = true ->
  (exists fresh,
      snd (getFilteredRepos localeCompare e h) = (h ++ fresh)%list)
  /\ (exists fresh,
        snd (getFeaturedRepos localeCompare e h) = (h ++ fresh)%list)
  /\ (exists fresh,
        snd (render localeCompare getTemplateStyles e h)
        = (h ++ fresh)%list)
  /\ snapshotRepos e (snd (getFilteredRepos localeCompare e h))
     = snapshotRepos e h
  /\ snapshotRepos e (snd (getFeaturedRepos localeCompare e h))
     = snapshotRepos e h
  /\ snapshotRepos e (snd (render localeCompare getTemplateStyles e h))
     = snapshotRepos e h
  /\ (forall s1 t1 s2 t2,
        fst (render localeCompare getTemplateStyles
                    (setTemplate t2 (updateSettings s2 e))
                    (snd (render localeCompare getTemplateStyles
                                 (setTemplate t1 (updateSettings s1 e)) h)))
        = fst (render localeCompare getTemplateStyles
                      (setTemplate t2 (updateSettings s2 e)) h)).
Proof.
  intros Hv.
  destruct (getFilteredRepos_run localeCompare e h) as [pre1 E1].
  destruct (getFeaturedRepos_run localeCompare e h) as [pre2 E2].
  destruct (render_run localeCompare getTemplateStyles e h Hv)
    as [fresh3 E3].
  rewrite E1, E2, E3. cbn [fst snd].
  rewrite <- !app_assoc.
  rewrite !snapshotRepos_extend by exact Hv.
  repeat (split; [eauto|]).
  intros s1 t1 s2 t2.
  set (e1 := setTemplate t1 (updateSettings s1 e)).
  set (e2 := setTemplate t2 (updateSettings s2 e)).
  assert (Hv1 : valid e1 h = true) by exact Hv.
  assert (Hv2 : valid e2 h = true) by exact Hv.
  destruct (render_run localeCompare getTemplateStyles e1 h Hv1)
    as [fresh1 ->]. cbn [snd].
  assert (Hv2' : valid e2 (h ++ fresh1) = true).
  { revert Hv2. unfold valid. destruct (userData e2) as [ud|]; [|auto].
    destruct (repos ud) as [l|]; [|auto].
    rewrite !Nat.ltb_lt, length_app. lia. }
  destruct (render_run localeCompare getTemplateStyles e2 _ Hv2')
    as [fresh2 ->].
  destruct (render_run localeCompare getTemplateStyles e2 h Hv2)
    as [fresh2' ->].
  cbn [fst]. rewrite snapshotRepos_extend by exact Hv2. reflexivity.
Qed.

Lemma rendering_leaves_snapshot_unchanged_witness :
  snapshotRepos (DemoEngine.engine [])
                (snd (render DemoEngine.localeCompare DemoEngine.styles
                             (DemoEngine.engine []) DemoEngine.heap))
  = snapshotRepos (DemoEngine.engine []) DemoEngine.heap.
Proof.
  apply (rendering_leaves_snapshot_unchanged
           DemoEngine.localeCompare DemoEngine.styles
           (DemoEngine.engine []) DemoEngine.heap).
  reflexivity.
Defined.
End EngineClaims.

(* ===================================================================== *)
(** * Escaping                                                          *)
(* ===================================================================== *)

Section EscapeFacts.
Import TemplateEngine.

Lemma mem_append c s t : JS.mem c (s ++ t) = JS.mem c s || JS.mem c t.
Proof.
  induction s as [|a s IH]; [reflexivity|].
  change (String a s ++ t) with (String a (s ++ t)).
  cbn [JS.mem]. rewrite IH, orb_assoc. reflexivity.
Qed.

Lemma replaceChar_removes c rep s :
  JS.mem c rep = false -> JS.mem c (JS.replaceChar c rep s) = false.
Proof.
  intros Hrep. induction s as [|a s IH]; [reflexivity|].
  cbn [JS.replaceChar]. destruct (Ascii.eqb a c) eqn:Ha.
  - rewrite mem_append, Hrep, IH. reflexivity.
  - cbn [JS.mem]. rewrite Ha, IH. reflexivity.
Qed.

Lemma replaceChar_keeps d c rep s :
  JS.mem d rep = false -> JS.mem d s = false ->
  JS.mem d (JS.replaceChar c rep s) = false.
Proof.
  intros Hrep. induction s as [|a s IH]; [reflexivity|].
  cbn [JS.replaceChar JS.mem]. intros H.
  apply orb_false_iff in H as [Ha Hs].
  destruct (Ascii.eqb a c).
  - rewrite mem_append, Hrep, (IH Hs). reflexivity.
  - cbn [JS.mem]. rewrite Ha, (IH Hs). reflexivity.
Qed.

(** Escaped text has no angle bracket and no quote left. *)
Lemma escapeHtml_no_markup str :
  JS.mem "<" (escapeHtml str) = false
  /\ JS.mem ">" (escapeHtml str) = false
  /\ JS.mem (ascii_of_nat 34) (escapeHtml str) = false
  /\ JS.mem "'" (escapeHtml str) = false.
Proof.
  destruct str as [s|]; [|repeat split; reflexivity].
  unfold escapeHtml.
  repeat split;
    repeat first
      [ apply replaceChar_removes; reflexivity
      | apply replaceChar_keeps; [reflexivity|] ].
Qed.
End EscapeFacts.

Section EscapeClaims.
Import TemplateEngine View.

(** C1 fails on the code for topics: the creative card interpolates each
    topic as it is, while the name and the description of the same
    repository are escaped.  Evaluated on a repository whose topic and
    description carry markup, alone and inside a rendered page. *)
Theorem creative_card_topic_not_escaped :
  let card := generateProjectCard DemoEngine.hostile "creative" in
  let page :=
    fst (render DemoEngine.localeCompare DemoEngine.styles
                (mkEngine "creative"
                          (Some (mkSnapshot "octocat" DemoEngine.user
                                            (Some 0%nat) 0))
                          Settings.default)
                [[DemoEngine.hostile]]) in
  JS.indexOf "<img src=x onerror=alert(1)>" card <> None
  /\ JS.indexOf "&lt;img src=x onerror=alert(1)&gt;" card = None
  /\ JS.indexOf "&lt;b&gt;bold&lt;/b&gt;" card <> None
  /\ JS.indexOf "<b>bold</b>" card = None
  /\ JS.indexOf "<img src=x onerror=alert(1)>" page <> None.
Proof. vm_compute. repeat split; discriminate. Qed.
End EscapeClaims.

(* ===================================================================== *)
(** * Metadata injection                                                *)
(* ===================================================================== *)

Section IndexOfFacts.
Import Splice.
Variable needle : string.

Lemma drop_empty j : JS.drop j "" = "".
Proof. destruct j; reflexivity. Qed.

Lemma indexOf_spec s :
  match JS.indexOf needle s with
  | Some i => firstAt needle i s
  | None => absent needle s
  end.
Proof.
  induction s as [|a s IH].
  - cbn [JS.indexOf]. destruct (String.prefix needle "") eqn:Hp.
    + split; [exact Hp|]. intros j Hj. lia.
    + intros j. unfold occursAt. rewrite drop_empty. exact Hp.
  - cbn [JS.indexOf].
    destruct (String.prefix needle (String a s)) eqn:Hp.
    + split; [exact Hp|]. intros j Hj. lia.
    + destruct (JS.indexOf needle s) as [i|]; cbn [option_map].
      * destruct IH as [Hocc Hfirst]. split; [exact Hocc|].
        intros [|j] Hj; [exact Hp|]. apply Hfirst. lia.
      * intros [|j]; [exact Hp|]. apply IH.
Qed.

Lemma firstAt_indexOf i s : firstAt needle i s -> JS.indexOf needle s = Some i.
Proof.
  intros [Hocc Hfirst]. pose proof (indexOf_spec s) as Hspec.
  destruct (JS.indexOf needle s) as [i'|].
  - destruct Hspec as [Hocc' Hfirst']. f_equal.
    destruct (Nat.lt_trichotomy i i') as [Hlt|[Heq|Hgt]];
      [|symmetry; exact Heq|].
    + rewrite (Hfirst' i Hlt) in Hocc. discriminate.
    + rewrite (Hfirst i' Hgt) in Hocc'. discriminate.
  - rewrite (Hspec i) in Hocc. discriminate.
Qed.

Lemma absent_indexOf s : absent needle s -> JS.indexOf needle s = None.
Proof.
  intros Habs. pose proof (indexOf_spec s) as Hspec.
  destruct (JS.indexOf needle s) as [i|]; [|reflexivity].
  destruct Hspec as [Hocc _]. rewrite (Habs i) in Hocc. discriminate.
Qed.
End IndexOfFacts.

Section SpliceClaims.
Import Splice.

(** C7 (as stated): on a document without a closing head marker but with
    a closing body marker the structured data is still injected before
    the body marker.  False: such a document is returned as it is. *)
Lemma injectIntoHtml_headless_counterexample :
  ~ (forall generateMetaTags generateStructuredData html userData settings j,
        JS.indexOf "</head>" html = None ->
        JS.indexOf "</body>" html = Some j ->
        SEOGenerator.injectIntoHtml generateMetaTags generateStructuredData
                                    html userData settings
        = JS.take j html ++ generateStructuredData userData settings
            ++ JS.newline ++ JS.drop j html).
Proof.
  intros H.
  specialize (H metaTags structuredData bodyOnly None Settings.default
                21%nat eq_refl eq_refl).
  vm_compute in H. discriminate H.
Qed.

(** C7 (as amended): when the document has no closing head marker,
    [injectIntoHtml] returns it unchanged (neither injection happens);
    when it has one, the metadata and a line feed are inserted
    immediately before the first closing head marker, and the structured
    data and a line feed immediately before the first closing body
    marker of the resulting document when there is one, the document
    with the metadata alone being returned otherwise. *)
Theorem injectIntoHtml_splices
        generateMetaTags generateStructuredData html userData settings :
  let metaTags := generateMetaTags userData settings in
  let structuredData := generateStructuredData userData settings in
  let output :=
    SEOGenerator.injectIntoHtml generateMetaTags generateStructuredData
                                html userData settings in
  (absent "</head>" html -> output = html)
  /\ (forall i,
        firstAt "</head>" i html ->
        let result :=
          JS.take i html ++ metaTags ++ JS.newline ++ JS.drop i html in
        (absent "</body>" result -> output = result)
        /\ (forall j,
              firstAt "</body>" j result ->
              output = JS.take j result ++ structuredData ++ JS.newline
                         ++ JS.drop j result)).
Proof.
  intros metaTags structuredData output. subst output.
  unfold SEOGenerator.injectIntoHtml. fold metaTags structuredData.
  split.
  - intros Habs. rewrite (absent_indexOf _ _ Habs). reflexivity.
  - intros i Hi. rewrite (firstAt_indexOf _ _ _ Hi).
    split.
    + intros Habs. rewrite (absent_indexOf _ _ Habs). reflexivity.
    + intros j Hj. rewrite (firstAt_indexOf _ _ _ Hj). reflexivity.
Qed.

Lemma injectIntoHtml_splices_witness :
  SEOGenerator.injectIntoHtml metaTags structuredData bodyOnly None
                              Settings.default
  = bodyOnly.
Proof.
  apply (proj1 (injectIntoHtml_splices metaTags structuredData bodyOnly
                                       None Settings.default)).
  intros j. unfold occursAt.
  do 36 (destruct j as [|j]; [reflexivity|]). reflexivity.
Defined.

(** On a complete document both splices happen, each before its marker. *)
Example injectIntoHtml_demo :
  SEOGenerator.injectIntoHtml metaTags structuredData
    "<head><title>t</title></head><body>x</body>" None Settings.default
  = "<head><title>t</title><meta name=robots content=index>" ++ JS.newline
    ++ "</head><body>x<script type=application/ld+json>{}</script>"
    ++ JS.newline ++ "</body>".
Proof. vm_compute. reflexivity. Qed.
End SpliceClaims.

(* ===================================================================== *)
(** * Rate limiter and response handling                                *)
(* ===================================================================== *)

Section ClientFacts.
Import GitHubAPI Spec Client.
Variable env : Env.

Lemma guard_open w :
  (0 < rateLimitRemaining w)%Z -> exhausted env w = (Ok None, w).
Proof.
  intros H. unfold exhausted.
  replace (rateLimitRemaining w <=? 0)%Z with false
    by (symmetry; apply Z.leb_gt; lia). reflexivity.
Qed.

Lemma negb_ok {B} (r : Response B) :
  negb (ok r) = (status r <? 200)%Z || (299 <? status r)%Z.
Proof.
  unfold ok. rewrite negb_andb, !Z.leb_antisym, !negb_involutive.
  reflexivity.
Qed.

(** After the guard: send, record the headers, interpret the status. *)
Lemma dispatch_run q w r :
  fetch env (length (sent w)) q = Responded r ->
  bind (do_fetch env q)
    (fun response =>
       bind (updateRateLimit response)
         (fun _ =>
            if (status response =? 404)%Z then throw UserNotFound
            else if (status response =? 403)%Z then throw RateLimitLater
            else if negb (ok response)
                 then throw (ApiError (status response))
            else match json response with
                 | Some b => ret b
                 | None => throw BadJson
                 end)) w
  = (interpreted r,
     mkWorld (clock w) (sent w ++ [url q])%list
             (fst (recorded r w)) (snd (recorded r w))
             (storage w) (progress w)).
Proof.
  intros Hr. unfold bind at 1, do_fetch. rewrite Hr.
  unfold bind, updateRateLimit, interpreted, recorded. cbn.
  rewrite negb_ok.
  destruct (status r =? 404)%Z; [reflexivity|].
  destruct (status r =? 403)%Z; [reflexivity|].
  destruct ((status r <? 200)%Z || (299 <? status r)%Z); [reflexivity|].
  destruct (json r); reflexivity.
Qed.

(** The guard with a used-up quota and a reset instant on record. *)
Lemma guard_closed q w r :
  (rateLimitRemaining w <= 0)%Z -> rateLimitReset w = Some r ->
  r <> 0%Z -> (now env (clock w) < r)%Z ->
  fetchWithRateLimit env q w
  = (Throw (RateLimitWait (ceil_div (r - now env (S (clock w))) 60000)),
     mkWorld (S (S (clock w))) (sent w) (rateLimitRemaining w)
             (rateLimitReset w) (storage w) (progress w)).
Proof.
  intros Hle Hreset Hne Hlt.
  unfold fetchWithRateLimit, bind at 1, exhausted.
  replace (rateLimitRemaining w <=? 0)%Z with true
    by (symmetry; apply Z.leb_le; exact Hle).
  rewrite Hreset.
  replace (r =? 0)%Z with false by (symmetry; apply Z.eqb_neq; exact Hne).
  unfold bind at 1, Date_now at 1.
  replace (now env (clock w) <? r)%Z with true
    by (symmetry; apply Z.ltb_lt; exact Hlt).
  cbn. rewrite ?Hreset. reflexivity.
Qed.

Lemma guard_reopened q w r :
  (rateLimitRemaining w <= 0)%Z -> rateLimitReset w = Some r ->
  r <> 0%Z -> (r <= now env (clock w))%Z ->
  sent (snd (fetchWithRateLimit env q w)) = (sent w ++ [url q])%list.
Proof.
  intros Hle Hreset Hne Hge.
  unfold fetchWithRateLimit, bind at 1, exhausted.
  replace (rateLimitRemaining w <=? 0)%Z with true
    by (symmetry; apply Z.leb_le; exact Hle).
  rewrite Hreset.
  replace (r =? 0)%Z with false by (symmetry; apply Z.eqb_neq; exact Hne).
  unfold bind at 1, Date_now at 1.
  replace (now env (clock w) <? r)%Z with false
    by (symmetry; apply Z.ltb_ge; exact Hge).
  cbn [ret fst snd].
  unfold bind at 1, do_fetch at 1. cbn [sent length].
  destruct (fetch env _ q) as [|r2]; [reflexivity|].
  unfold bind, updateRateLimit. cbn.
  destruct (status r2 =? 404)%Z; [reflexivity|].
  destruct (status r2 =? 403)%Z; [reflexivity|].
  destruct (negb (ok r2)); [reflexivity|].
  destruct (json r2); reflexivity.
Qed.
End ClientFacts.

Section ClientExtras.
Import GitHubAPI Spec Client.

(** X1: when the local quota is not used up, [fetchWithRateLimit] sends
    exactly the request, records the quota headers of the response
    whatever its status (absent headers keep the previous values), and
    then maps 404 to the user-not-found error, 403 to the rate-limit
    error, any other status outside 200..299 to the API error carrying
    the status, and a 2xx response to its parsed body. *)
Theorem fetchWithRateLimit_interprets env q w r :
  (0 < rateLimitRemaining w)%Z ->
  fetch env (length (sent w)) q = Responded r ->
  fetchWithRateLimit env q w
  = (interpreted r,
     mkWorld (clock w) (sent w ++ [url q])%list
             (fst (recorded r w)) (snd (recorded r w))
             (storage w) (progress w))
  /\ getRateLimitInfo (snd (fetchWithRateLimit env q w)) = recorded r w.
Proof.
  intros Hq Hr.
  assert (E : fetchWithRateLimit env q w
              = (interpreted r,
                 mkWorld (clock w) (sent w ++ [url q])%list
                         (fst (recorded r w)) (snd (recorded r w))
                         (storage w) (progress w))).
  { unfold fetchWithRateLimit. unfold bind at 1.
    rewrite (guard_open env w Hq). apply dispatch_run. exact Hr. }
  split; [exact E|]. rewrite E. unfold getRateLimitInfo, recorded.
  reflexivity.
Qed.

Lemma fetchWithRateLimit_interprets_witness :
  fst (fetchWithRateLimit (failingEnv 404 (Some 59%Z) None 0)
                          (UserReq "nobody") (initial (Slot None)))
  = Throw UserNotFound
  /\ getRateLimitInfo
       (snd (fetchWithRateLimit (failingEnv 404 (Some 59%Z) None 0)
                                (UserReq "nobody") (initial (Slot None))))
     = (59%Z, None).
Proof.
  destruct (fetchWithRateLimit_interprets
              (failingEnv 404 (Some 59%Z) None 0) (UserReq "nobody")
              (initial (Slot None))
              (mkResponse 404 (Some 59%Z) None None)
              ltac:(reflexivity) eq_refl) as [E1 E2].
  rewrite E2. rewrite E1. split; reflexivity.
Defined.

(** X2: after a response whose headers say that nothing remains until
    the reset instant, every further call made before that instant sends
    nothing and fails with the rate-limit error carrying the minutes left
    (rounded up); a call made at or after the reset instant is sent
    again. *)
Theorem exhausted_quota_blocks_requests env q w r remaining reset q2 :
  (0 < rateLimitRemaining w)%Z ->
  fetch env (length (sent w)) q = Responded r ->
  hdrRemaining r = Some remaining -> (remaining <= 0)%Z ->
  hdrReset r = Some reset -> reset <> 0%Z ->
  let w1 := snd (fetchWithRateLimit env q w) in
  ((now env (clock w1) < reset * 1000)%Z ->
   fst (fetchWithRateLimit env q2 w1)
   = Throw (RateLimitWait
              (ceil_div (reset * 1000 - now env (S (clock w1))) 60000))
   /\ sent (snd (fetchWithRateLimit env q2 w1)) = sent w1)
  /\ ((reset * 1000 <= now env (clock w1))%Z ->
      sent (snd (fetchWithRateLimit env q2 w1))
      = (sent w1 ++ [url q2])%list).
Proof.
  intros Hq Hr Hrem Hle Hreset Hne w1.
  destruct (fetchWithRateLimit_interprets env q w r Hq Hr) as [E _].
  subst w1. rewrite E. cbn [snd]. unfold recorded. rewrite Hrem, Hreset.
  cbn [fst snd].
  split.
  - intros Hlt.
    rewrite (guard_closed env q2 _ (reset * 1000)%Z);
      [split; reflexivity | exact Hle | reflexivity | lia | exact Hlt].
  - intros Hge.
    rewrite (guard_reopened env q2 _ (reset * 1000)%Z);
      [reflexivity | exact Hle | reflexivity | lia | exact Hge].
Qed.

Lemma exhausted_quota_blocks_requests_witness :
  fst (fetchWithRateLimit
         (failingEnv 403 (Some 0%Z) (Some 7200%Z) 1000) (UserReq "octocat")
         (snd (fetchWithRateLimit
                 (failingEnv 403 (Some 0%Z) (Some 7200%Z) 1000)
                 (UserReq "octocat") (initial (Slot None)))))
  = Throw (RateLimitWait 120).
Proof.
  apply (exhausted_quota_blocks_requests
           (failingEnv 403 (Some 0%Z) (Some 7200%Z) 1000) (UserReq "octocat")
           (initial (Slot None))
           (mkResponse 403 (Some 0%Z) (Some 7200%Z) None) 0 7200
           (UserReq "octocat")
           ltac:(reflexivity) eq_refl eq_refl ltac:(lia) eq_refl
           ltac:(discriminate)).
  reflexivity.
Defined.
End ClientExtras.

(* ===================================================================== *)
(** * Cache round trips                                                 *)
(* ===================================================================== *)

Section CacheFacts.
Import GitHubAPI Spec Client.
Variable env : Env.

(** A write to an available slot that fits. *)
Lemma setCachedData_stores username repos userInfo w item :
  storage w = Slot item ->
  fits env (UserData.mk username repos userInfo (now env (clock w)))
  = true ->
  setCachedData env username repos userInfo w
  = (Ok tt,
     mkWorld (S (clock w)) (sent w) (rateLimitRemaining w)
             (rateLimitReset w)
             (Slot (Some (Stored (UserData.mk username repos userInfo
                                              (now env (clock w))))))
             (progress w)).
Proof.
  intros Hst Hfit. unfold setCachedData, bind, Date_now. cbn.
  rewrite Hst, Hfit. reflexivity.
Qed.

Lemma getCachedData_hit username w d :
  storage w = Slot (Some (Stored d)) ->
  UserData.username d = username ->
  (now env (clock w) - UserData.lastFetch d <= CACHE_DURATION)%Z ->
  getCachedData env username w
  = (Ok (Some d),
     mkWorld (S (clock w)) (sent w) (rateLimitRemaining w)
             (rateLimitReset w) (storage w) (progress w)).
Proof.
  intros Hst Hname Hage. unfold getCachedData. rewrite Hst.
  rewrite <- Hname, String.eqb_refl. cbn [negb].
  unfold bind, Date_now. cbn.
  replace (now env (clock w) - UserData.lastFetch d >? CACHE_DURATION)%Z
    with false by (symmetry; rewrite Z.gtb_ltb; apply Z.ltb_ge; lia).
  cbn. rewrite Hst. reflexivity.
Qed.

(** The tail of a fresh aggregation when the slot is available and
    the record fits: the snapshot is stored with its own time stamp. *)
Lemma aggregate_tail_stores username onProgress userInfo repos w item :
  repos <> [] ->
  storage w = Slot item ->
  (forall d, fits env d = true) ->
  exists data cached w',
    bind (when onProgress (report FetchingLanguages))
      (fun _ =>
         bind (enrich env username onProgress
                 (length (firstn 20 repos)) 0 (firstn 20 repos))
           (fun enriched =>
              bind (setCachedData env username
                      (enriched ++ skipn 20 repos) userInfo)
                (fun _ =>
                   bind (Date_now env)
                     (fun t =>
                        ret (UserData.mk username
                               (enriched ++ skipn 20 repos)
                               userInfo t))))) w
    = (Ok data, w')
    /\ storage w' = Slot (Some (Stored cached))
    /\ UserData.username cached = username
    /\ UserData.repos cached = UserData.repos data
    /\ UserData.userInfo cached = UserData.userInfo data
    /\ UserData.username data = username
    /\ UserData.userInfo data = userInfo.
Proof.
  intros Hne Hst Hfit. unfold bind at 1.
  destruct (when_report_ok onProgress FetchingLanguages w)
    as (-> & Hs0 & _).
  unfold bind at 1.
  destruct (enrich_total env username onProgress
              (length (firstn 20 repos)) (firstn 20 repos) 0
              (reported onProgress FetchingLanguages w))
    as (enriched & w2 & -> & Hs2 & Hlen).
  unfold bind at 1.
  assert (Hst2 : storage w2 = Slot item) by congruence.
  rewrite (setCachedData_stores username (enriched ++ skipn 20 repos)
             userInfo w2 item Hst2 (Hfit _)).
  unfold bind, Date_now, ret. cbn.
  do 3 eexists. split; [reflexivity|]. cbn. repeat split; reflexivity.
Qed.
End CacheFacts.

Section CacheExtras.
Import GitHubAPI Spec Client.

(** X3: what [setCachedData] writes to an available slot is what
    [getCachedData] reads back for the same username while the entry is
    at most thirty minutes old; it reads absent once the entry is older,
    for any other username, and after [clearCache]. *)
Theorem cache_round_trip env username repos userInfo w item :
  storage w = Slot item ->
  fits env (UserData.mk username repos userInfo (now env (clock w)))
  = true ->
  let stored := UserData.mk username repos userInfo (now env (clock w)) in
  let w1 := snd (setCachedData env username repos userInfo w) in
  let age := (now env (clock w1) - now env (clock w))%Z in
  ((age <= 1000 * 60 * 30)%Z ->
   fst (getCachedData env username w1) = Ok (Some stored))
  /\ ((1000 * 60 * 30 < age)%Z ->
      fst (getCachedData env username w1) = Ok None)
  /\ (forall other,
        other <> username -> fst (getCachedData env other w1) = Ok None)
  /\ fst (getCachedData env username (snd (clearCache w1))) = Ok None.
Proof.
  intros Hst Hfit stored w1 age.
  pose proof (setCachedData_stores env username repos userInfo w item
                                   Hst Hfit) as E.
  subst w1 age. rewrite E. cbn [snd clock]. fold stored.
  set (w1 := mkWorld _ _ _ _ _ _).
  assert (Hs1 : storage w1 = Slot (Some (Stored stored))) by reflexivity.
  pose proof (getCachedData_stored env username w1 stored Hs1) as Hget.
  split; [|split; [|split]].
  - intros Hage. rewrite Hget. subst stored. cbn.
    rewrite String.eqb_refl. cbn.
    replace (_ <=? CACHE_DURATION)%Z with true
      by (symmetry; apply Z.leb_le; exact Hage). reflexivity.
  - intros Hage. rewrite Hget. subst stored. cbn.
    rewrite String.eqb_refl. cbn.
    replace (_ <=? CACHE_DURATION)%Z with false
      by (symmetry; apply Z.leb_gt; exact Hage). reflexivity.
  - intros other Hne.
    rewrite (getCachedData_stored env other w1 stored Hs1).
    subst stored. cbn.
    replace (String.eqb username other) with false
      by (symmetry; apply String.eqb_neq; congruence). reflexivity.
  - reflexivity.
Qed.

Lemma cache_round_trip_witness :
  fst (getCachedData (Demo.env [] 5) "octocat"
         (snd (setCachedData (Demo.env [] 5) "octocat"
                             [Demo.repo "hello" 3] Demo.user
                             (initial (Slot None)))))
  = Ok (Some (UserData.mk "octocat" [Demo.repo "hello" 3] Demo.user 5)).
Proof.
  apply (cache_round_trip (Demo.env [] 5) "octocat" [Demo.repo "hello" 3]
                          Demo.user (initial (Slot None)) None
                          eq_refl eq_refl).
  vm_compute. discriminate.
Defined.

(** X4: a fresh [fetchUserData] that can store its snapshot leaves it
    in the cache slot, with the username, repositories and profile of the
    result; a second call for the same username made while that stored
    snapshot is at most thirty minutes old sends no request and returns
    the stored snapshot. *)
Theorem refetch_within_ttl_uses_cache
        env fuel fuel2 username onProgress onProgress2
        userInfo repos w w1 w2 w3 item :
  getCachedData env username w = (Ok None, w1) ->
  fetchUser env username (reported onProgress FetchingUser w1)
  = (Ok userInfo, w2) ->
  fetchRepos env fuel username onProgress
             (reported onProgress FetchingRepos w2)
  = (Ok repos, w3) ->
  repos <> [] ->
  storage w = Slot item ->
  (forall d, fits env d = true) ->
  exists data cached,
    fst (fetchUserData env fuel username onProgress w) = Ok data
    /\ storage (snd (fetchUserData env fuel username onProgress w))
       = Slot (Some (Stored cached))
    /\ UserData.username cached = UserData.username data
    /\ UserData.repos cached = UserData.repos data
    /\ UserData.userInfo cached = UserData.userInfo data
    /\ let wf := snd (fetchUserData env fuel username onProgress w) in
       ((now env (clock wf) - UserData.lastFetch cached
         <= 1000 * 60 * 30)%Z ->
        fst (fetchUserData env fuel2 username onProgress2 wf) = Ok cached
        /\ sent (snd (fetchUserData env fuel2 username onProgress2 wf))
           = sent wf).
Proof.
  intros Hc Hu Hr Hne Hst Hfit.
  assert (Hst3 : storage w3 = Slot item).
  { pose proof (getCachedData_frame env username w) as (Hs1 & _).
    rewrite Hc in Hs1. cbn [snd] in Hs1.
    destruct (when_report_ok onProgress FetchingUser w1) as (_ & Hs2 & _).
    destruct (when_report_ok onProgress FetchingRepos w2) as (_ & Hs4 & _).
    pose proof (fetchWithRateLimit_storage env (UserReq username) _ _ _ Hu)
      as Hs3.
    pose proof (fetchRepos_loop_storage env username onProgress fuel []
                  1%nat (reported onProgress FetchingRepos w2)) as Hs5.
    unfold fetchRepos in Hr. rewrite Hr in Hs5. cbn [snd] in Hs5.
    congruence. }
  assert (Hrun : exists data cached wf,
             fetchUserData env fuel username onProgress w = (Ok data, wf)
             /\ storage wf = Slot (Some (Stored cached))
             /\ UserData.username cached = username
             /\ UserData.repos cached = UserData.repos data
             /\ UserData.userInfo cached = UserData.userInfo data
             /\ UserData.username data = username).
  { rewrite (fetchUserData_fresh env fuel username onProgress w w1 Hc).
    unfold bind at 1. rewrite Hu. unfold bind at 1.
    destruct (when_report_ok onProgress FetchingRepos w2) as (-> & _).
    unfold bind at 1. rewrite Hr.
    destruct repos as [|r0 repos]; [contradiction|].
    cbn [length Nat.eqb].
    destruct (aggregate_tail_stores env username onProgress userInfo
                (r0 :: repos) w3 item Hne Hst3 Hfit)
      as (data & cached & wf & -> & Hsf & Hn & Hrs & Hui & Hdn & _).
    exists data, cached, wf. repeat split; assumption. }
  destruct Hrun as (data & cached & wf & -> & Hsf & Hn & Hrs & Hui & Hdn).
  exists data, cached. cbn [fst snd].
  split; [reflexivity|]. split; [exact Hsf|]. split; [congruence|].
  split; [exact Hrs|]. split; [exact Hui|].
  intros Hage.
  rewrite (fetchUserData_cached env fuel2 username onProgress2 wf cached
             (mkWorld (S (clock wf)) (sent wf) (rateLimitRemaining wf)
                      (rateLimitReset wf) (storage wf) (progress wf))).
  - cbn [fst snd].
    destruct (when_report_ok onProgress2 UsingCached
                (mkWorld (S (clock wf)) (sent wf) (rateLimitRemaining wf)
                         (rateLimitReset wf) (storage wf) (progress wf)))
      as (_ & _ & Hsent).
    split; [reflexivity|exact Hsent].
  - apply getCachedData_hit; assumption.
Qed.

Lemma refetch_within_ttl_uses_cache_witness :
  fst (fetchUserData (Demo.env [Demo.repo "hello" 3] 0) 5 "octocat" false
         (snd (fetchUserData (Demo.env [Demo.repo "hello" 3] 0) 5
                             "octocat" true (initial (Slot None)))))
  = Ok (UserData.mk "octocat"
          [Repo.set_readmeExcerpt
             (Repo.set_languageData (Demo.repo "hello" 3) []) None]
          Demo.user 0)
  /\ sent (snd (fetchUserData (Demo.env [Demo.repo "hello" 3] 0) 5
                              "octocat" false
                              (snd (fetchUserData
                                      (Demo.env [Demo.repo "hello" 3] 0) 5
                                      "octocat" true
                                      (initial (Slot None))))))
     = sent (snd (fetchUserData (Demo.env [Demo.repo "hello" 3] 0) 5
                                "octocat" true (initial (Slot None)))).
Proof.
  destruct (refetch_within_ttl_uses_cache
              (Demo.env [Demo.repo "hello" 3] 0) 5 5 "octocat" true false
              Demo.user [Demo.repo "hello" 3] (initial (Slot None))
              _ _ _ None eq_refl eq_refl eq_refl
              ltac:(discriminate) eq_refl ltac:(reflexivity))
    as (data & cached & _ & Hstored & _ & _ & _ & Hsecond).
  vm_compute in Hstored. injection Hstored as <-.
  apply Hsecond. vm_compute. discriminate.
Defined.
End CacheExtras.

(* ===================================================================== *)
(** * Progress reporting                                                *)
(* ===================================================================== *)

Section AgreeFacts.
Import GitHubAPI Spec Client.
Variable env : Env.


















End AgreeFacts.

Section ProgressExtras.
Import GitHubAPI Spec Client.

End ProgressExtras.

(* ===================================================================== *)
(** * Request budget                                                    *)
(* ===================================================================== *)

Section BudgetFacts.
Import GitHubAPI Spec Client.
Variable env : Env.

Lemma sendsAtMost_weaken {A} n n' (m : M A) :
  (n <= n')%nat -> sendsAtMost n m -> sendsAtMost n' m.
Proof. intros Hle H w. specialize (H w). lia. Qed.

Lemma sendsAtMost_bind {A B} n k (m : M A) (f : A -> M B) :
  sendsAtMost n m -> (forall a, sendsAtMost k (f a)) ->
  sendsAtMost (n + k) (bind m f).
Proof.
  intros Hm Hf w. unfold bind. specialize (Hm w).
  destruct (m w) as [[a|e|] w1]; cbn [snd] in *; try lia.
  specialize (Hf a w1). lia.
Qed.

Lemma sendsAtMost_try_catch {A} n k (m h : M A) :
  sendsAtMost n m -> sendsAtMost k h ->
  sendsAtMost (n + k) (try_catch m h).
Proof.
  intros Hm Hh w. unfold try_catch. specialize (Hm w).
  destruct (m w) as [[a|e|] w1]; cbn [snd] in *; try lia.
  specialize (Hh w1). lia.
Qed.

Lemma sendsAtMost_ret {A} (a : A) : sendsAtMost 0 (ret a).
Proof. intros w. cbn. lia. Qed.

Lemma sendsAtMost_throw {A} e : sendsAtMost 0 (@throw A e).
Proof. intros w. cbn. lia. Qed.

Lemma sendsAtMost_report b p : sendsAtMost 0 (when b (report p)).
Proof.
  intros w. destruct (when_report_ok b p w) as (-> & _ & Hs).
  cbn [snd]. rewrite Hs. lia.
Qed.

Lemma sendsAtMost_Date_now : sendsAtMost 0 (Date_now env).
Proof. intros w. cbn. lia. Qed.

Lemma sendsAtMost_fetchWithRateLimit q :
  sendsAtMost 1 (fetchWithRateLimit env q).
Proof.
  intros w. destruct (fetchWithRateLimit_cases env q w)
    as [_ [[Hs _]|[Hs _]]]; rewrite Hs; [lia|].
  rewrite length_app. cbn. lia.
Qed.

Lemma sendsAtMost_getCachedData username :
  sendsAtMost 0 (getCachedData env username).
Proof.
  intros w. destruct (getCachedData_frame env username w) as (_ & Hs & _).
  rewrite Hs. lia.
Qed.

Lemma sendsAtMost_setCachedData username repos userInfo :
  sendsAtMost 0 (setCachedData env username repos userInfo).
Proof.
  intros w. unfold setCachedData, bind, Date_now. cbn.
  destruct (storage w); cbn; [lia|].
  destruct (fits env _); cbn; lia.
Qed.

Lemma sendsAtMost_fetchLanguages owner repo :
  sendsAtMost 1 (fetchLanguages env owner repo).
Proof.
  apply (sendsAtMost_try_catch 1 0);
    [apply (sendsAtMost_fetchWithRateLimit (LanguagesReq owner repo))
    |apply sendsAtMost_ret].
Qed.

Lemma sendsAtMost_fetchReadme owner repo :
  sendsAtMost 1 (fetchReadme env owner repo).
Proof.
  apply (sendsAtMost_try_catch 1 0); [|apply sendsAtMost_ret].
  apply (sendsAtMost_bind 1 0);
    [apply (sendsAtMost_fetchWithRateLimit (ReadmeReq owner repo))|].
  intros data. destruct (atob env data);
    [apply sendsAtMost_ret|apply sendsAtMost_throw].
Qed.

(** The enrichment loop: one request per repository, and one more for
    each index below six. *)
Lemma sendsAtMost_enrich username onProgress total :
  forall topRepos i,
    sendsAtMost (length topRepos + Nat.min (length topRepos) (6 - i))
                (enrich env username onProgress total i topRepos).
Proof.
  induction topRepos as [|repo rest IH]; intros i; cbn [enrich].
  - apply sendsAtMost_ret.
  - apply (sendsAtMost_weaken
             (1 + ((if (i <? 6)%nat then 1 else 0)
                   + (0 + (0 + ((length rest
                                 + Nat.min (length rest) (6 - S i))
                                + 0)))))).
    { cbn [length]. destruct (Nat.ltb_spec i 6); lia. }
    apply sendsAtMost_bind; [apply sendsAtMost_fetchLanguages|].
    intros langs. apply sendsAtMost_bind.
    { destruct (i <? 6)%nat; [|apply sendsAtMost_ret].
      apply (sendsAtMost_bind 1 0); [apply sendsAtMost_fetchReadme|].
      intros ex. apply sendsAtMost_ret. }
    intros repo'. apply sendsAtMost_bind; [apply sendsAtMost_report|].
    intros _. apply sendsAtMost_bind; [apply sendsAtMost_ret|].
    intros _. apply sendsAtMost_bind; [apply IH|].
    intros rest'. apply sendsAtMost_ret.
Qed.
End BudgetFacts.

Section BudgetExtras.
Import GitHubAPI Spec Client.

(** X6: a call of [fetchUserData] for an account with the repository
    list [all] sends at most [length all / 100 + 28] requests, whatever
    its outcome: one for the profile, at most [length all / 100 + 1] for
    the listing pages, at most twenty for languages and at most six for
    readmes. *)
Theorem fetchUserData_request_budget env fuel username onProgress all w :
  lists env username all ->
  (length all / perPage < fuel)%nat ->
  (length (sent (snd (fetchUserData env fuel username onProgress w)))
   <= length (sent w) + (length all / perPage + 28))%nat.
Proof.
  intros Hlists Hfuel. revert w.
  change (sendsAtMost (length all / perPage + 28)
                      (fetchUserData env fuel username onProgress)).
  assert (Hrepos : sendsAtMost (length all / perPage + 1)
                     (fetchRepos env fuel username onProgress)).
  { intros w.
    destruct (fetchRepos_loop_pages env username onProgress all Hlists fuel
                0%nat w) as (res & w' & j & Hrun & _ & Hj & Hs & _);
      [cbn; lia | lia |].
    change (firstn (0 * perPage) all) with (@nil Repo.t) in Hrun.
    unfold fetchRepos. rewrite Hrun. cbn [snd]. rewrite Hs, length_app.
    unfold pageUrls. rewrite length_map, length_seq. lia. }
  unfold fetchUserData.
  apply (sendsAtMost_weaken
           (0 + (0 + (1 + (0 + ((length all / perPage + 1) + 26)))))).
  { lia. }
  apply sendsAtMost_bind; [apply sendsAtMost_getCachedData|].
  intros [data|].
  - apply (sendsAtMost_weaken (0 + 0)); [lia|].
    apply sendsAtMost_bind; [apply sendsAtMost_report|]. intros _.
    apply sendsAtMost_ret.
  - apply sendsAtMost_bind; [apply sendsAtMost_report|]. intros _.
    apply sendsAtMost_bind;
      [apply (sendsAtMost_fetchWithRateLimit env (UserReq username))|].
    intros userInfo.
    apply sendsAtMost_bind; [apply sendsAtMost_report|]. intros _.
    apply sendsAtMost_bind; [exact Hrepos|]. intros repos.
    destruct (length repos =? 0)%nat.
    { apply (sendsAtMost_weaken 0); [lia|]. apply sendsAtMost_throw. }
    apply (sendsAtMost_weaken
             (0 + ((length (firstn 20 repos)
                    + Nat.min (length (firstn 20 repos)) (6 - 0))
                   + (0 + (0 + 0))))).
    { rewrite length_firstn. lia. }
    apply sendsAtMost_bind; [apply sendsAtMost_report|]. intros _.
    apply sendsAtMost_bind; [apply sendsAtMost_enrich|]. intros enriched.
    apply sendsAtMost_bind; [apply sendsAtMost_setCachedData|]. intros _.
    apply sendsAtMost_bind; [apply sendsAtMost_Date_now|]. intros t.
    apply sendsAtMost_ret.
Qed.

Lemma fetchUserData_request_budget_witness :
  (length (sent (snd (fetchUserData (Demo.env [Demo.repo "hello" 3] 0) 5
                                    "octocat" true (initial (Slot None)))))
   <= 28)%nat.
Proof.
  apply (fetchUserData_request_budget
           (Demo.env [Demo.repo "hello" 3] 0) 5 "octocat" true
           [Demo.repo "hello" 3] (initial (Slot None))).
  - intros n page r b Hr Hj. cbn in Hr. injection Hr as <-.
    cbn in Hj. injection Hj as <-. reflexivity.
  - vm_compute. lia.
Defined.
End BudgetExtras.

(* ===================================================================== *)
(** * Shape of the enriched snapshot                                    *)
(* ===================================================================== *)

Section EnrichFacts.
Import GitHubAPI Spec Client.
Variable env : Env.

Lemma sameBase_refl r : sameBase r r.
Proof. repeat split. Qed.

Lemma enrichedFrom_names i :
  forall l l', enrichedFrom i l l' -> map Repo.name l' = map Repo.name l.
Proof.
  intros l. revert i.
  induction l as [|r l IH]; intros i [|r' l'] H; cbn in H;
    try contradiction; [reflexivity|].
  destruct H as ((Hn & _) & _ & _ & H). cbn. rewrite Hn.
  f_equal. exact (IH _ _ H).
Qed.

Lemma enrichedFrom_length i :
  forall l l', enrichedFrom i l l' -> length l' = length l.
Proof.
  intros l l' H. apply enrichedFrom_names in H.
  rewrite <- (length_map Repo.name l'), H. apply length_map.
Qed.

Lemma enrich_shape username onProgress total :
  forall topRepos i w,
    exists enriched w',
      enrich env username onProgress total i topRepos w
      = (Ok enriched, w')
      /\ enrichedFrom i topRepos enriched.
Proof.
  induction topRepos as [|repo rest IH]; intros i w; cbn [enrich].
  - do 2 eexists. split; [reflexivity|exact I].
  - unfold bind at 1.
    destruct (fetchLanguages_total env username (Repo.name repo) w)
      as (langs & w1 & -> & _).
    unfold bind at 1.
    set (repo1 := Repo.set_languageData repo langs).
    assert (Hstep : exists repo2 w2,
               (if (i <? 6)%nat
                then bind (fetchReadme env username (Repo.name repo1))
                       (fun excerpt =>
                          ret (Repo.set_readmeExcerpt repo1 excerpt))
                else ret repo1) w1 = (Ok repo2, w2)
               /\ sameBase repo repo2
               /\ Repo.languageData repo2 <> None
               /\ (if (i <? 6)%nat then Repo.readmeExcerpt repo2 <> None
                   else Repo.readmeExcerpt repo2
                        = Repo.readmeExcerpt repo)).
    { destruct (i <? 6)%nat.
      - unfold bind.
        destruct (fetchReadme_total env username (Repo.name repo1) w1)
          as (ex & w2 & -> & _). cbn. do 2 eexists.
        split; [reflexivity|]. repeat split; discriminate.
      - cbn. do 2 eexists. split; [reflexivity|].
        repeat split; discriminate. }
    destruct Hstep as (repo2 & w2 & -> & Hb & Hl & Hr).
    unfold bind at 1.
    destruct (when_report_ok onProgress (Processing (S i) total) w2)
      as (-> & _).
    unfold bind at 1. cbn [sleep ret].
    unfold bind at 1.
    destruct (IH (S i) (reported onProgress (Processing (S i) total) w2))
      as (rest' & w4 & -> & Hshape).
    cbn [ret]. do 2 eexists. split; [reflexivity|].
    cbn [enrichedFrom]. auto.
Qed.

Lemma firstn_enriched (enriched repos : list Repo.t) :
  length enriched = length (firstn 20 repos) ->
  firstn 20 (enriched ++ skipn 20 repos) = enriched
  /\ skipn 20 (enriched ++ skipn 20 repos) = skipn 20 repos.
Proof.
  intros Hlen. rewrite length_firstn in Hlen.
  destruct (Nat.le_gt_cases 20 (length repos)) as [Hge|Hlt].
  - assert (length enriched = 20%nat) as H20 by lia.
    split.
    + rewrite <- H20 at 1. rewrite firstn_app, firstn_all.
      replace (length enriched - length enriched)%nat with 0%nat by lia.
      cbn. apply app_nil_r.
    + rewrite <- H20 at 1. rewrite skipn_app, skipn_all.
      replace (length enriched - length enriched)%nat with 0%nat by lia.
      reflexivity.
  - rewrite (skipn_all2 repos) by lia. rewrite app_nil_r.
    split; [apply firstn_all2; lia | apply skipn_all2; lia].
Qed.

(** The tail of a fresh aggregation returns the enriched prefix in
    front of the untouched rest. *)
Lemma aggregate_tail_shape username onProgress userInfo repos w :
  exists data w',
    bind (when onProgress (report FetchingLanguages))
      (fun _ =>
         bind (enrich env username onProgress
                 (length (firstn 20 repos)) 0 (firstn 20 repos))
           (fun enriched =>
              bind (setCachedData env username
                      (enriched ++ skipn 20 repos) userInfo)
                (fun _ =>
                   bind (Date_now env)
                     (fun t =>
                        ret (UserData.mk username
                               (enriched ++ skipn 20 repos)
                               userInfo t))))) w
    = (Ok data, w')
    /\ enrichedFrom 0 (firstn 20 repos) (firstn 20 (UserData.repos data))
    /\ skipn 20 (UserData.repos data) = skipn 20 repos
    /\ UserData.username data = username
    /\ UserData.userInfo data = userInfo.
Proof.
  unfold bind at 1.
  destruct (when_report_ok onProgress FetchingLanguages w) as (-> & _).
  unfold bind at 1.
  destruct (enrich_shape username onProgress (length (firstn 20 repos))
              (firstn 20 repos) 0%nat
              (reported onProgress FetchingLanguages w))
    as (enriched & w2 & -> & Hshape).
  unfold bind at 1.
  destruct (setCachedData_ok env username (enriched ++ skipn 20 repos)
              userInfo w2) as (w3 & -> & _).
  unfold bind, Date_now. cbn [ret].
  do 2 eexists. split; [reflexivity|]. cbn [UserData.repos
    UserData.username UserData.userInfo].
  destruct (firstn_enriched enriched repos
              (enrichedFrom_length _ _ _ Hshape)) as [-> ->].
  auto.
Qed.
End EnrichFacts.

Section EnrichExtras.
Import GitHubAPI Spec Client.

(** X7: when nothing fresh is cached, a snapshot returned by
    [fetchUserData] for an account with the repository list [all] has
    exactly those repositories in listing order: the first twenty with
    their base fields kept and language data attached, the first six of
    them with a readme excerpt field (possibly null), and everything
    from the twenty-first on unchanged. *)
Theorem snapshot_is_enriched_listing
        env fuel username onProgress all w data :
  lists env username all ->
  (length all / perPage < fuel)%nat ->
  fst (getCachedData env username w) = Ok None ->
  fst (fetchUserData env fuel username onProgress w) = Ok data ->
  enrichedFrom 0 (firstn 20 all) (firstn 20 (UserData.repos data))
  /\ skipn 20 (UserData.repos data) = skipn 20 all
  /\ map Repo.name (UserData.repos data) = map Repo.name all
  /\ UserData.username data = username.
Proof.
  intros Hlists Hfuel Hmiss Hrun.
  destruct (getCachedData env username w) as [c w1] eqn:Hc.
  cbn [fst] in Hmiss. subst c.
  rewrite (fetchUserData_fresh env fuel username onProgress w w1 Hc) in Hrun.
  unfold bind at 1 in Hrun.
  destruct (fetchUser env username (reported onProgress FetchingUser w1))
    as [[userInfo|e|] w2]; try discriminate Hrun.
  unfold bind at 1 in Hrun.
  destruct (when_report_ok onProgress FetchingRepos w2) as (Hr & _).
  rewrite Hr in Hrun. clear Hr.
  unfold bind at 1 in Hrun.
  destruct (fetchRepos_loop_pages env username onProgress all Hlists fuel
              0%nat (reported onProgress FetchingRepos w2))
    as (res & w3 & j & Hloop & _ & _ & _ & Hall); [cbn; lia | lia |].
  change (firstn (0 * perPage) all) with (@nil Repo.t) in Hloop.
  unfold fetchRepos in Hrun. rewrite Hloop in Hrun.
  destruct res as [repos|e|]; try discriminate Hrun.
  destruct (Hall repos eq_refl) as [_ ->].
  destruct (length all =? 0)%nat; [discriminate Hrun|].
  destruct (aggregate_tail_shape env username onProgress userInfo all w3)
    as (data' & w' & Htail & Hshape & Hrest & Hname & _).
  rewrite Htail in Hrun. cbn [fst] in Hrun. injection Hrun as <-.
  repeat split; try assumption.
  rewrite <- (firstn_skipn 20 (UserData.repos data')),
          <- (firstn_skipn 20 all) at 1.
  rewrite !map_app, Hrest. f_equal.
  exact (enrichedFrom_names _ _ _ Hshape).
Qed.

Lemma snapshot_is_enriched_listing_witness :
  enrichedFrom 0 (firstn 20 [Demo.repo "hello" 3])
    (firstn 20
       [Repo.set_readmeExcerpt
          (Repo.set_languageData (Demo.repo "hello" 3) []) None]).
Proof.
  apply (snapshot_is_enriched_listing
           (Demo.env [Demo.repo "hello" 3] 7) 5 "octocat" false
           [Demo.repo "hello" 3] (initial (Slot None))
           (UserData.mk "octocat"
              [Repo.set_readmeExcerpt
                 (Repo.set_languageData (Demo.repo "hello" 3) []) None]
              Demo.user 7)).
  - intros n page r b Hr Hj. cbn in Hr. injection Hr as <-.
    cbn in Hj. injection Hj as <-. reflexivity.
  - vm_compute. lia.
  - reflexivity.
  - vm_compute. reflexivity.
Defined.
End EnrichExtras.

(* ===================================================================== *)
(** * Shape of the readme excerpt                                       *)
(* ===================================================================== *)

Section ExcerptFacts.
Import GitHubAPI Client.

Lemma length_take n s : (String.length (JS.take n s) <= n)%nat.
Proof.
  revert s. induction n as [|n IH]; intros [|a s]; cbn; try lia.
  specialize (IH s). lia.
Qed.

Lemma length_append s t :
  String.length (s ++ t) = (String.length s + String.length t)%nat.
Proof.
  induction s as [|a s IH]; [reflexivity|].
  change (String a s ++ t) with (String a (s ++ t)). cbn. lia.
Qed.

Lemma mem_take c n s : JS.mem c s = false -> JS.mem c (JS.take n s) = false.
Proof.
  revert s. induction n as [|n IH]; intros [|a s]; cbn; try reflexivity.
  intros H. apply orb_false_iff in H as [-> Hs]. exact (IH _ Hs).
Qed.

Lemma mem_trimStart c s :
  JS.mem c s = false -> JS.mem c (JS.trimStart s) = false.
Proof.
  induction s as [|a s IH]; [reflexivity|]. cbn [JS.trimStart].
  destruct (JS.isWhite a); [|auto].
  cbn [JS.mem]. intros H. apply orb_false_iff in H as [_ Hs]. auto.
Qed.

Lemma mem_trimEnd c s :
  JS.mem c s = false -> JS.mem c (JS.trimEnd s) = false.
Proof.
  induction s as [|a s IH]; [reflexivity|]. cbn [JS.trimEnd JS.mem].
  intros H. apply orb_false_iff in H as [Ha Hs]. specialize (IH Hs).
  destruct (JS.trimEnd s) as [|b r].
  - destruct (JS.isWhite a); [reflexivity|]. cbn. rewrite Ha. reflexivity.
  - cbn [JS.mem] in *. rewrite Ha. exact IH.
Qed.

Lemma mem_trim c s : JS.mem c s = false -> JS.mem c (JS.trim s) = false.
Proof. intros H. apply mem_trimEnd, mem_trimStart, H. Qed.

(** The pieces of a split do not contain the separator. *)
Lemma split_pieces sep s :
  Forall (fun piece => JS.mem sep piece = false) (JS.split sep s).
Proof.
  induction s as [|a s IH]; cbn [JS.split].
  - constructor; [reflexivity|constructor].
  - destruct (Ascii.eqb a sep) eqn:Ha.
    + constructor; [reflexivity|exact IH].
    + destruct (JS.split sep s) as [|h t].
      * constructor; [|constructor]. cbn. rewrite Ha. reflexivity.
      * inversion IH as [|? ? Hh Ht]; subst.
        constructor; [|exact Ht]. cbn. rewrite Ha. exact Hh.
Qed.

Lemma scanLines_mem c lines :
  c <> " "%char ->
  Forall (fun line => JS.mem c line = false) lines ->
  forall paragraph foundContent,
    JS.mem c paragraph = false ->
    JS.mem c (scanLines lines paragraph foundContent) = false.
Proof.
  intros Hc. induction 1 as [|line rest Hline _ IH];
    intros paragraph foundContent Hp; cbn [scanLines]; [exact Hp|].
  assert (Hnew : JS.mem c (paragraph
                           ++ (if JS.truthy paragraph then " " else "")
                           ++ JS.trim line) = false).
  { rewrite !mem_append, Hp, (mem_trim _ _ Hline).
    destruct (JS.truthy paragraph); [|reflexivity].
    change (JS.mem c " ") with (Ascii.eqb " "%char c || false).
    replace (Ascii.eqb " "%char c) with false
      by (symmetry; apply Ascii.eqb_neq; congruence).
    reflexivity. }
  repeat match goal with
         | |- context [if ?b then _ else _] => destruct b
         end; auto.
Qed.

(** A match captures characters of the text it matched. *)
Lemma run_mem c d capture k :
  (forall s cap n, k s = Some (cap, n) ->
                   JS.mem c s = false -> JS.mem c cap = false) ->
  forall s cap n,
    JS.run d capture k s = Some (cap, n) ->
    JS.mem c s = false -> JS.mem c cap = false.
Proof.
  intros Hk. induction s as [|a s IH]; intros cap n; cbn [JS.run];
    [discriminate|].
  destruct (Ascii.eqb a d); [discriminate|].
  intros H Hs. cbn [JS.mem] in Hs. apply orb_false_iff in Hs as [Ha Hs].
  destruct (JS.run d capture k s) as [[cap1 n1]|].
  - injection H as <- <-. specialize (IH _ _ eq_refl Hs).
    destruct capture; [|exact IH]. cbn. rewrite Ha. exact IH.
  - destruct (k s) as [[cap1 n1]|] eqn:Hks; [|discriminate].
    injection H as <- <-.
    destruct capture; [cbn; rewrite Ha; reflexivity|].
    exact (Hk _ _ _ Hks Hs).
Qed.

Lemma exec_mem c re :
  forall s cap n,
    JS.exec re s = Some (cap, n) ->
    JS.mem c s = false -> JS.mem c cap = false.
Proof.
  induction re as [|[l|d|d] re IH]; intros s cap n; cbn [JS.exec].
  - intros [= <- <-] _. reflexivity.
  - destruct s as [|a s]; [discriminate|].
    destruct (Ascii.eqb a l); [|discriminate].
    destruct (JS.exec re s) as [[cap1 n1]|] eqn:He; [|discriminate].
    intros [= <- <-] Hs. cbn [JS.mem] in Hs.
    apply orb_false_iff in Hs as [_ Hs]. exact (IH _ _ _ He Hs).
  - apply run_mem. exact IH.
  - apply run_mem. exact IH.
Qed.

Lemma replaceAll_from_mem c re s :
  JS.mem c s = false ->
  forall skip, JS.mem c (JS.replaceAll_from re skip s) = false.
Proof.
  induction s as [|a s IH]; intros Hs skip; [reflexivity|].
  pose proof Hs as Hs'. cbn [JS.mem] in Hs'.
  apply orb_false_iff in Hs' as [Ha Hs'].
  cbn [JS.replaceAll_from]. destruct skip as [|k]; [|auto].
  destruct (JS.exec re (String a s)) as [[cap n]|] eqn:He.
  - rewrite mem_append, (exec_mem c re _ _ _ He Hs), (IH Hs').
    reflexivity.
  - cbn [JS.mem]. rewrite Ha, (IH Hs'). reflexivity.
Qed.

Lemma replaceAll_mem c re s :
  JS.mem c s = false -> JS.mem c (JS.replaceAll re s) = false.
Proof. intros H. apply replaceAll_from_mem, H. Qed.

Lemma skipped_badge line :
  JS.startsWith "[![" (JS.trim line) = true ->
  JS.startsWith "[!" (JS.trim line) = true.
Proof.
  unfold JS.startsWith.
  destruct (JS.trim line) as [|a [|b s]]; cbn [String.prefix];
    repeat match goal with
           | |- context [ascii_dec ?x ?y] => destruct (ascii_dec x y)
           end; try discriminate; try reflexivity.
  destruct s; reflexivity.
Qed.

Lemma scanLines_skipped pre :
  forallb skipped pre = true ->
  forall rest foundContent,
    scanLines (pre ++ rest)%list "" foundContent
    = scanLines rest "" foundContent.
Proof.
  induction pre as [|line pre IH]; intros H rest foundContent;
    [reflexivity|].
  cbn [forallb] in H. apply andb_true_iff in H as [Hl Hpre].
  cbn [app scanLines]. unfold skipped in Hl. cbn zeta in Hl.
  destruct (negb (JS.truthy (JS.trim line))).
  { cbn [JS.truthy]. rewrite andb_false_r. exact (IH Hpre _ _). }
  destruct (JS.startsWith "#" (JS.trim line)); [exact (IH Hpre _ _)|].
  destruct (JS.startsWith "![" (JS.trim line)); [exact (IH Hpre _ _)|].
  destruct (JS.startsWith "[!" (JS.trim line)); [exact (IH Hpre _ _)|].
  discriminate Hl.
Qed.
End ExcerptFacts.

Section ExcerptExtras.
Import GitHubAPI Client.

(** X8: whatever the readme, the excerpt is a single line (it contains
    no line feed) of at most 253 characters: 250 of the cleaned
    paragraph and, only when that was longer, the three dots. *)
Theorem extractFirstParagraph_short_single_line markdown :
  JS.mem "010" (extractFirstParagraph markdown) = false
  /\ (String.length (extractFirstParagraph markdown) <= 253)%nat.
Proof.
  unfold extractFirstParagraph. cbn zeta.
  set (p := JS.replaceAll re_code _).
  split.
  - rewrite mem_append. apply orb_false_iff. split.
    + apply mem_take. subst p. do 4 apply replaceAll_mem.
      apply scanLines_mem; [discriminate|apply split_pieces|reflexivity].
    + destruct (250 <? String.length p)%nat; reflexivity.
  - rewrite length_append. pose proof (length_take 250 p).
    destruct (250 <? String.length p)%nat;
      [change (String.length "...") with 3%nat
      |change (String.length "") with 0%nat]; lia.
Qed.

(** X9: lines that are blank, headings ([#]), images ([![]) or badges
    ([[!]) in front of the text are passed over: the excerpt of a readme
    is the excerpt of what follows them, and a readme made of such lines
    only has the empty excerpt.  (The fourth test of the source, for
    [[![], is covered by the third.) *)
Theorem extractFirstParagraph_skips_preamble pre rest :
  forallb skipped pre = true ->
  (forall markdown,
     JS.split "010" markdown = (pre ++ JS.split "010" rest)%list ->
     extractFirstParagraph markdown = extractFirstParagraph rest)
  /\ (forall markdown,
        JS.split "010" markdown = pre ->
        extractFirstParagraph markdown = "").
Proof.
  intros Hpre. split; intros markdown Hsplit;
    unfold extractFirstParagraph; cbn zeta; rewrite Hsplit.
  - rewrite (scanLines_skipped pre Hpre). reflexivity.
  - rewrite <- (app_nil_r pre), (scanLines_skipped pre Hpre).
    reflexivity.
Qed.

Lemma extractFirstParagraph_skips_preamble_witness :
  (forall markdown,
     JS.split "010" markdown
     = (["# Title"; ""; "[![build](b.svg)](ci)"]
          ++ JS.split "010" "Hello there.")%list ->
     extractFirstParagraph markdown = extractFirstParagraph "Hello there.")
  /\ (forall markdown,
        JS.split "010" markdown = ["# Title"; ""; "[![build](b.svg)](ci)"] ->
        extractFirstParagraph markdown = "").
Proof.
  apply (extractFirstParagraph_skips_preamble
           ["# Title"; ""; "[![build](b.svg)](ci)"] "Hello there.").
  vm_compute. reflexivity.
Defined.
End ExcerptExtras.

(* ===================================================================== *)
(** * Failed aggregation                                                *)
(* ===================================================================== *)

Section FailureExtras.
Import GitHubAPI Spec Client.

(** X10: the cache is written only by a call that succeeds.  When
    [fetchUserData] does not return a snapshot (a request failed, the
    quota guard fired, the account has no repository), the cache slot
    is exactly as it was before the call. *)
Theorem failed_fetchUserData_leaves_cache
        env fuel username onProgress w :
  (forall data,
     fst (fetchUserData env fuel username onProgress w) <> Ok data) ->
  storage (snd (fetchUserData env fuel username onProgress w)) = storage w.
Proof.
  intros Hfail.
  destruct (fetchUserData env fuel username onProgress w) as [res w']
    eqn:Hrun.
  cbn [fst snd] in *.
  destruct (getCachedData env username w) as [c w1] eqn:Hc.
  pose proof (getCachedData_frame env username w) as (Hs1 & _ & Hm).
  rewrite Hc in Hs1, Hm. cbn [fst snd] in Hs1, Hm.
  destruct c as [[d|]|e|]; try contradiction.
  { exfalso. apply (Hfail d).
    rewrite (fetchUserData_cached env fuel username onProgress w d w1 Hc)
      in Hrun. congruence. }
  rewrite (fetchUserData_fresh env fuel username onProgress w w1 Hc) in Hrun.
  destruct (when_report_ok onProgress FetchingUser w1) as (_ & Hs2 & _).
  unfold bind at 1 in Hrun.
  destruct (fetchUser env username (reported onProgress FetchingUser w1))
    as [[userInfo|e|] w2] eqn:Hu;
    pose proof (fetchWithRateLimit_storage env (UserReq username) _ _ _ Hu)
      as Hs3;
    try (injection Hrun as <- <-; congruence).
  unfold bind at 1 in Hrun.
  destruct (when_report_ok onProgress FetchingRepos w2) as (Hr & Hs4 & _).
  rewrite Hr in Hrun. clear Hr.
  unfold bind at 1 in Hrun.
  pose proof (fetchRepos_loop_storage env username onProgress fuel [] 1%nat
                (reported onProgress FetchingRepos w2)) as Hs5.
  fold (fetchRepos env fuel username onProgress) in Hs5.
  destruct (fetchRepos env fuel username onProgress
              (reported onProgress FetchingRepos w2)) as [[repos|e|] w3];
    cbn [snd] in Hs5; try (injection Hrun as <- <-; congruence).
  destruct (Nat.eqb_spec (length repos) 0) as [_|Hne];
    [injection Hrun as <- <-; congruence|].
  exfalso.
  destruct (aggregate_tail env username onProgress userInfo repos w3)
    as (data & w'' & Htail & _).
  { intros ->. apply Hne. reflexivity. }
  apply (Hfail data). rewrite Htail in Hrun. congruence.
Qed.

Lemma failed_fetchUserData_leaves_cache_witness :
  storage (snd (fetchUserData (failingEnv 404 None None 0) 5 "ghost" true
                              Demo.cached))
  = storage Demo.cached.
Proof.
  apply (failed_fetchUserData_leaves_cache
           (failingEnv 404 None None 0) 5 "ghost" true Demo.cached).
  intros data. vm_compute. discriminate.
Defined.
End FailureExtras.

(* ===================================================================== *)
(** * Entity substitution                                               *)
(* ===================================================================== *)

Section MarkupFacts.
Import Markup.

Lemma append_assoc (s t u : string) : (s ++ t) ++ u = s ++ (t ++ u).
Proof.
  induction s as [|a s IH]; [reflexivity|].
  change (String a ((s ++ t) ++ u) = String a (s ++ (t ++ u))).
  f_equal. exact IH.
Qed.

Lemma replaceChar_append c rep s t :
  JS.replaceChar c rep (s ++ t)
  = JS.replaceChar c rep s ++ JS.replaceChar c rep t.
Proof.
  induction s as [|a s IH]; [reflexivity|].
  change (String a s ++ t) with (String a (s ++ t)).
  cbn [JS.replaceChar]. rewrite IH.
  destruct (Ascii.eqb a c); [symmetry; apply append_assoc|reflexivity].
Qed.

Lemma replaceChar_substitute c rep f s :
  JS.replaceChar c rep (substitute f s)
  = substitute (fun a => JS.replaceChar c rep (f a)) s.
Proof.
  induction s as [|a s IH]; [reflexivity|].
  cbn [substitute]. rewrite replaceChar_append, IH. reflexivity.
Qed.

Lemma substitute_ext f g s :
  (forall a, f a = g a) -> substitute f s = substitute g s.
Proof.
  intros H. induction s as [|a s IH]; [reflexivity|].
  cbn [substitute]. rewrite H, IH. reflexivity.
Qed.

Lemma substitute_id s : substitute (fun a => String a "") s = s.
Proof.
  induction s as [|a s IH]; [reflexivity|].
  cbn [substitute]. rewrite IH. reflexivity.
Qed.

Lemma substitute_append f s t :
  substitute f (s ++ t) = substitute f s ++ substitute f t.
Proof.
  induction s as [|a s IH]; [reflexivity|].
  change (String a s ++ t) with (String a (s ++ t)).
  cbn [substitute]. rewrite IH. symmetry. apply append_assoc.
Qed.

(** The replacement chains of the three escape functions, character by
    character. *)
Lemma chain_html a :
  JS.replaceChar "'" "&#039;"
    (JS.replaceChar (ascii_of_nat 34) "&quot;"
       (JS.replaceChar ">" "&gt;"
          (JS.replaceChar "<" "&lt;"
             (JS.replaceChar "&" "&amp;" (String a "")))))
  = entity a.
Proof. destruct a as [[] [] [] [] [] [] [] []]; reflexivity. Qed.

Lemma chain_attr a :
  JS.replaceChar ">" "&gt;"
    (JS.replaceChar "<" "&lt;"
       (JS.replaceChar "'" "&#039;"
          (JS.replaceChar (ascii_of_nat 34) "&quot;"
             (JS.replaceChar "&" "&amp;" (String a "")))))
  = entity a.
Proof. destruct a as [[] [] [] [] [] [] [] []]; reflexivity. Qed.

Lemma chain_xml a :
  JS.replaceChar "'" "&apos;"
    (JS.replaceChar (ascii_of_nat 34) "&quot;"
       (JS.replaceChar ">" "&gt;"
          (JS.replaceChar "<" "&lt;"
             (JS.replaceChar "&" "&amp;" (String a "")))))
  = entityXml a.
Proof. destruct a as [[] [] [] [] [] [] [] []]; reflexivity. Qed.

Lemma escapeHtml_substitute s :
  TemplateEngine.escapeHtml (Some s) = substitute entity s.
Proof.
  unfold TemplateEngine.escapeHtml.
  rewrite <- (substitute_id s) at 1.
  rewrite !replaceChar_substitute.
  apply substitute_ext, chain_html.
Qed.
End MarkupFacts.

Section MarkupExtras.
Import Markup.

(** X11: the five replacements of [escapeHtml], made one after the
    other, amount to one simultaneous substitution of each character by
    its entity: an ampersand produced by an earlier replacement is never
    escaped again.  Hence escaping distributes over concatenation. *)
Theorem escapeHtml_one_pass s t :
  TemplateEngine.escapeHtml (Some s) = substitute entity s
  /\ TemplateEngine.escapeHtml (Some (s ++ t))
     = TemplateEngine.escapeHtml (Some s)
         ++ TemplateEngine.escapeHtml (Some t).
Proof.
  rewrite !escapeHtml_substitute. split; [reflexivity|].
  apply substitute_append.
Qed.

(** X12: the SEO generator's [escapeAttr] makes its replacements in
    another order than the template engine's [escapeHtml], and returns
    the same text for every argument, null and empty included;
    [escapeXml] differs from them only in the entity of the apostrophe. *)
Theorem escapeAttr_is_escapeHtml str :
  SEOGenerator.escapeAttr str = TemplateEngine.escapeHtml str
  /\ SEOGenerator.escapeXml str
     = match str with
       | Some s => substitute entityXml s
       | None => ""
       end.
Proof.
  destruct str as [s|]; [|split; reflexivity].
  rewrite escapeHtml_substitute.
  unfold SEOGenerator.escapeAttr, SEOGenerator.escapeXml.
  destruct s as [|a s]; [split; reflexivity|].
  cbn [JS.truthy negb].
  replace (JS.replaceChar "&" "&amp;" (String a s))
    with (JS.replaceChar "&" "&amp;"
            (substitute (fun c => String c "") (String a s)))
    by (rewrite substitute_id; reflexivity).
  rewrite !replaceChar_substitute. split.
  - apply substitute_ext, chain_attr.
  - apply substitute_ext, chain_xml.
Qed.
End MarkupExtras.

(* ===================================================================== *)
(** * Sort order                                                        *)
(* ===================================================================== *)

Section StableSortFacts.
Import TemplateEngine Order.
Context {A : Type} (key : A -> Z).
Local Open Scope list_scope.

Let cmp (a b : A) : Z := (key b - key a)%Z.

Lemma insert_sorted_descending x l :
  descending key l -> descending key (insert_sorted cmp x l).
Proof.
  induction l as [|y l IH]; cbn [insert_sorted descending].
  - intros _. split; [constructor|exact I].
  - intros [Hy Hl]. unfold cmp at 1.
    destruct (Z.gtb_spec (key y - key x) 0) as [Hgt|Hle].
    + cbn [descending]. split; [|exact (IH Hl)].
      apply List.Forall_forall. intros z Hz.
      apply (Permutation_in _ (insert_sorted_perm cmp x l)) in Hz.
      destruct Hz as [<-|Hz]; [lia|].
      exact (proj1 (List.Forall_forall _ _) Hy z Hz).
    + cbn [descending]. split; [|split; assumption].
      constructor; [lia|].
      apply List.Forall_forall. intros z Hz.
      pose proof (proj1 (List.Forall_forall _ _) Hy z Hz) as Hzy.
      cbn beta in Hzy. lia.
Qed.

Lemma sorted_by_descending l : descending key (sorted_by cmp l).
Proof.
  induction l as [|x l IH]; [exact I|].
  cbn [sorted_by fold_right]. apply insert_sorted_descending, IH.
Qed.

Lemma insert_sorted_ties k x l :
  List.filter (fun a => (key a =? k)%Z) (insert_sorted cmp x l)
  = List.filter (fun a => (key a =? k)%Z) (x :: l).
Proof.
  induction l as [|y l IH]; [reflexivity|]. cbn [insert_sorted].
  unfold cmp at 1. destruct (Z.gtb_spec (key y - key x) 0) as [Hgt|Hle];
    [|reflexivity].
  cbn [List.filter] in *. rewrite IH.
  destruct (Z.eqb_spec (key x) k), (Z.eqb_spec (key y) k);
    try reflexivity.
  lia.
Qed.

Lemma sorted_by_ties l : keepsTies key l (sorted_by cmp l).
Proof.
  intros k. induction l as [|x l IH]; [reflexivity|].
  cbn [sorted_by fold_right].
  change (fold_right (insert_sorted cmp) [] l) with (sorted_by cmp l).
  rewrite insert_sorted_ties. cbn [List.filter]. rewrite IH.
  reflexivity.
Qed.

Lemma descending_app l1 l2 :
  descending key (l1 ++ l2) ->
  descending key l1
  /\ forall a b, In a l1 -> In b l2 -> (key b <= key a)%Z.
Proof.
  induction l1 as [|x l1 IH]; cbn [app descending].
  - intros _. split; [exact I|]. intros a b [].
  - intros [Hx Hs]. destruct (IH Hs) as [H1 H2].
    apply List.Forall_app in Hx as [Hx1 Hx2]. split.
    + split; assumption.
    + intros a b [<-|Ha] Hb; [|exact (H2 a b Ha Hb)].
      exact (proj1 (List.Forall_forall _ _) Hx2 b Hb).
Qed.
End StableSortFacts.

Section OrderExtras.
Import TemplateEngine View Order.

(** X13: sorting by stars or by update time is a stable descending
    sort: in the list that [getFilteredRepos] returns the key never
    increases, and repositories with equal keys keep the order they have
    in the snapshot. *)
Theorem getFilteredRepos_sorts_stably localeCompare e h key :
  sortKey (Settings.sortBy (settings e)) = Some key ->
  descending key (contents (getFilteredRepos localeCompare e) h)
  /\ keepsTies key (kept (settings e) (snapshotRepos e h))
               (contents (getFilteredRepos localeCompare e) h).
Proof.
  intros Hkey. rewrite contents_getFilteredRepos.
  unfold filteredSorted, sortKey, kept in *. fold nonFork.
  set (rs := if Settings.filterNoForks (settings e)
             then List.filter nonFork (snapshotRepos e h)
             else snapshotRepos e h).
  destruct (String.eqb (Settings.sortBy (settings e)) "stars").
  { injection Hkey as <-.
    split; [apply sorted_by_descending|apply sorted_by_ties]. }
  destruct (String.eqb (Settings.sortBy (settings e)) "updated");
    [|discriminate].
  injection Hkey as <-.
  split; [apply sorted_by_descending|apply sorted_by_ties].
Qed.

Lemma getFilteredRepos_sorts_stably_witness :
  descending Repo.stargazers_count
    (contents (getFilteredRepos DemoEngine.localeCompare
                                (DemoEngine.engine []))
              DemoEngine.heap)
  /\ keepsTies Repo.stargazers_count
       (kept (settings (DemoEngine.engine []))
             (snapshotRepos (DemoEngine.engine []) DemoEngine.heap))
       (contents (getFilteredRepos DemoEngine.localeCompare
                                   (DemoEngine.engine []))
                 DemoEngine.heap).
Proof.
  apply (getFilteredRepos_sorts_stably
           DemoEngine.localeCompare (DemoEngine.engine []) DemoEngine.heap
           Repo.stargazers_count).
  reflexivity.
Defined.

(** X14: the switch on [sortBy] has no default case: under a value
    other than stars, updated and name, [getFilteredRepos] returns the
    repositories that pass the fork filter in the order of the
    snapshot. *)
Theorem getFilteredRepos_unrecognised_sortBy localeCompare e h :
  recognised (Settings.sortBy (settings e)) = false ->
  contents (getFilteredRepos localeCompare e) h
  = kept (settings e) (snapshotRepos e h).
Proof.
  unfold recognised. intros H.
  apply orb_false_iff in H as [H Hn]. apply orb_false_iff in H as [Hs Hu].
  rewrite contents_getFilteredRepos.
  unfold filteredSorted, kept. rewrite Hs, Hu, Hn. reflexivity.
Qed.

Lemma getFilteredRepos_unrecognised_sortBy_witness :
  contents (getFilteredRepos DemoEngine.localeCompare
              (updateSettings
                 (Settings.mk "#6366f1" "#22d3ee" "" "" "" "" false true
                              "forks" [])
                 (DemoEngine.engine [])))
           DemoEngine.heap
  = [DemoEngine.repo "b" 5 false; DemoEngine.repo "a" 10 false].
Proof.
  apply (getFilteredRepos_unrecognised_sortBy
           DemoEngine.localeCompare
           (updateSettings
              (Settings.mk "#6366f1" "#22d3ee" "" "" "" "" false true
                           "forks" [])
              (DemoEngine.engine []))
           DemoEngine.heap).
  reflexivity.
Defined.

(** X15: [getTopLanguages] splits the language entries of a repository
    into the listed ones and the rest: the listed ones are three (or all,
    if there are fewer), come in descending order of byte count, and none
    of the rest has more bytes than any listed one. *)
Theorem getTopLanguages_are_largest repo entries :
  Repo.languageData repo = Some entries ->
  exists top rest,
    Permutation entries (top ++ rest)
    /\ getTopLanguages repo = map fst top
    /\ length top = Nat.min 3 (length entries)
    /\ descending snd top
    /\ forall a b, In a top -> In b rest -> (snd b <= snd a)%Z.
Proof.
  intros Hdata. unfold getTopLanguages. rewrite Hdata.
  set (sorted := sorted_by (fun a b => (snd b - snd a)%Z) entries).
  exists (firstn 3 sorted), (skipn 3 sorted).
  pose proof (sorted_by_perm (fun a b => (snd b - snd a)%Z) entries)
    as Hperm. fold sorted in Hperm.
  pose proof (sorted_by_descending snd entries) as Hdesc.
  cbv zeta in Hdesc. fold sorted in Hdesc.
  rewrite <- (firstn_skipn 3 sorted) in Hdesc.
  destruct (descending_app snd _ _ Hdesc) as [H1 H2].
  split; [rewrite firstn_skipn; symmetry; exact Hperm|].
  split; [reflexivity|].
  split; [rewrite length_firstn, (Permutation_length Hperm); reflexivity|].
  split; assumption.
Qed.

Lemma getTopLanguages_are_largest_witness :
  exists top rest,
    Permutation [("CSS", 10%Z); ("Go", 400%Z); ("C", 30%Z); ("Rust", 7%Z)]
                (top ++ rest)
    /\ getTopLanguages
         (Repo.set_languageData (DemoEngine.repo "a" 1 false)
            [("CSS", 10%Z); ("Go", 400%Z); ("C", 30%Z); ("Rust", 7%Z)])
       = map fst top
    /\ length top = Nat.min 3 4
    /\ descending snd top
    /\ forall a b, In a top -> In b rest -> (snd b <= snd a)%Z.
Proof.
  apply (getTopLanguages_are_largest
           (Repo.set_languageData (DemoEngine.repo "a" 1 false)
              [("CSS", 10%Z); ("Go", 400%Z); ("C", 30%Z); ("Rust", 7%Z)])).
  reflexivity.
Defined.
End OrderExtras.

(* ===================================================================== *)
(** * Card hash, relative dates, page composition                       *)
(* ===================================================================== *)

Section HashFacts.
Import TemplateEngine Hash.
Local Open Scope Z_scope.

Lemma wrap32_range z : -2147483648 <= wrap32 z < 2147483648.
Proof.
  unfold wrap32.
  pose proof (Z.mod_pos_bound (z + 2147483648) 4294967296 ltac:(lia)).
  lia.
Qed.

Lemma wrap32_eq_iff a b :
  wrap32 a = wrap32 b <-> a mod 4294967296 = b mod 4294967296.
Proof.
  unfold wrap32. split; intros H.
  - assert (H' : (a + 2147483648) mod 4294967296
                 = (b + 2147483648) mod 4294967296) by lia.
    rewrite <- (Z.add_simpl_r a 2147483648), <- (Z.add_simpl_r b 2147483648).
    rewrite Zminus_mod, H', <- Zminus_mod. reflexivity.
  - rewrite Zplus_mod, H, <- Zplus_mod. reflexivity.
Qed.

Lemma wrap32_mod z : (wrap32 z) mod 4294967296 = z mod 4294967296.
Proof.
  unfold wrap32.
  rewrite Zminus_mod, Z.mod_mod, <- Zminus_mod by lia.
  f_equal. lia.
Qed.

Lemma wrap32_small z : -2147483648 <= z < 2147483648 -> wrap32 z = z.
Proof.
  intros H. unfold wrap32. rewrite Z.mod_small by lia. lia.
Qed.

(** One round of the loop is one step of the polynomial, wrapped. *)
Lemma hash_step h c :
  wrap32 (wrap32 (Z.shiftl h 5) - h + c) = wrap32 (31 * h + c).
Proof.
  apply wrap32_eq_iff. rewrite Z.shiftl_mul_pow2 by lia.
  replace (wrap32 (h * 2 ^ 5) - h + c)
    with (wrap32 (h * 2 ^ 5) + (c - h)) by lia.
  rewrite Zplus_mod, wrap32_mod, <- Zplus_mod. f_equal. lia.
Qed.

Lemma poly31_from_mod r :
  forall a b,
    a mod 4294967296 = b mod 4294967296 ->
    (poly31_from a r) mod 4294967296 = (poly31_from b r) mod 4294967296.
Proof.
  induction r as [|c r IH]; intros a b Hab; cbn [poly31_from];
    [exact Hab|].
  apply IH.
  rewrite (Zplus_mod (31 * a)), (Zplus_mod (31 * b)).
  rewrite (Zmult_mod 31 a), (Zmult_mod 31 b), Hab. reflexivity.
Qed.

Lemma hashCode_from_poly31 s :
  forall h,
    wrap32 h = h -> hashCode_from h s = wrap32 (poly31_from h s).
Proof.
  induction s as [|c s IH]; intros h Hh; cbn [hashCode_from poly31_from].
  - symmetry. exact Hh.
  - cbv zeta. rewrite hash_step.
    rewrite IH by (apply wrap32_small, wrap32_range).
    apply wrap32_eq_iff, poly31_from_mod, wrap32_mod.
Qed.
End HashFacts.

Section HelperExtras.
Import TemplateEngine View Hash.

(** X16: [hashCode] is the polynomial hash with multiplier 31 over the
    character codes, wrapped to a signed 32-bit integer; it therefore
    lies in the 32-bit range, and the gradient index computed from it for
    a creative card always selects one of the six gradients. *)
Theorem hashCode_is_wrapped_poly31 s :
  hashCode s = wrap32 (poly31 s)
  /\ (-2147483648 <= hashCode s < 2147483648)%Z
  /\ In (nth (Z.to_nat (Z.abs (hashCode s)
                        mod Z.of_nat (length gradients)))
             gradients "")
        gradients.
Proof.
  assert (H : hashCode s = wrap32 (poly31 s))
    by (apply hashCode_from_poly31; reflexivity).
  split; [exact H|]. split; [rewrite H; apply wrap32_range|].
  apply nth_In.
  pose proof (Z.mod_pos_bound (Z.abs (hashCode s))
                (Z.of_nat (length gradients)) ltac:(cbn; lia)) as Hb.
  change (length gradients) with 6%nat in *. lia.
Qed.

(** X17: the relative date is grammatical: it is today, yesterday, or a
    count of at least one unit, days, months or years, whose noun is
    plural exactly when the count is not one; a count of days is at
    least two, and a date that is not in the past reads today. *)
Theorem formatDate_grammar now date :
  (formatDate now date = "today"
   \/ formatDate now date = "yesterday"
   \/ exists n unit,
       In unit ["day"; "month"; "year"]
       /\ (1 <= n)%Z
       /\ formatDate now date
          = JS.string_of_Z n ++ " " ++ unit
              ++ (if (n =? 1)%Z then "" else "s") ++ " ago")
  /\ formatDate (Z.min now date) date = "today".
Proof.
  split.
  2:{ unfold formatDate. cbv zeta.
      replace ((Z.min now date - date) / (1000 * 60 * 60 * 24) <? 1)%Z
        with true; [reflexivity|].
      symmetry. apply Z.ltb_lt.
      apply Z.div_lt_upper_bound; lia. }
  unfold formatDate. cbv zeta.
  set (d := ((now - date) / (1000 * 60 * 60 * 24))%Z).
  destruct (Z.ltb_spec d 1); [auto|].
  destruct (Z.eqb_spec d 1); [auto|].
  right. right.
  destruct (Z.ltb_spec d 30).
  { exists d, "day". split; [cbn; auto|]. split; [lia|].
    replace (d =? 1)%Z with false by (symmetry; apply Z.eqb_neq; lia).
    reflexivity. }
  destruct (Z.ltb_spec d 365).
  { exists (d / 30)%Z, "month". split; [cbn; auto|].
    assert (1 <= d / 30)%Z by (apply Z.div_le_lower_bound; lia).
    split; [assumption|].
    destruct (Z.gtb_spec (d / 30) 1), (Z.eqb_spec (d / 30) 1);
      try lia; reflexivity. }
  exists (d / 365)%Z, "year". split; [cbn; auto|].
  assert (1 <= d / 365)%Z by (apply Z.div_le_lower_bound; lia).
  split; [assumption|].
  destruct (Z.gtb_spec (d / 365) 1), (Z.eqb_spec (d / 365) 1);
    try lia; reflexivity.
Qed.

(** X18: the page shows what the two queries return: the cards of
    [render] are the repositories of [getFeaturedRepos], and the rows of
    the All Projects section, present when [getFilteredRepos] returns
    more than six repositories, are its result from the seventh on,
    whichever repositories are featured. *)
Theorem render_shows_query_results
        localeCompare getTemplateStyles e h ud :
  valid e h = true ->
  userData e = Some ud ->
  fst (render localeCompare getTemplateStyles e h)
  = pageHtml e ud (getTemplateStyles (currentTemplate e))
      (contents (getFeaturedRepos localeCompare e) h)
      (if (6 <? length (contents (getFilteredRepos localeCompare e) h))%nat
       then allProjectsSection
              (skipn 6 (contents (getFilteredRepos localeCompare e) h))
       else "").
Proof.
  intros Hv Hud.
  destruct (render_run localeCompare getTemplateStyles e h Hv)
    as [fresh ->].
  rewrite contents_getFeaturedRepos, contents_getFilteredRepos.
  cbn [fst]. unfold renderFrom. rewrite Hud. reflexivity.
Qed.

Lemma render_shows_query_results_witness :
  fst (render DemoEngine.localeCompare DemoEngine.styles
              (DemoEngine.engine ["b"]) DemoEngine.heap)
  = pageHtml (DemoEngine.engine ["b"])
      (mkSnapshot "octocat" DemoEngine.user (Some 0%nat) 0)
      (DemoEngine.styles "minimal")
      (contents (getFeaturedRepos DemoEngine.localeCompare
                                  (DemoEngine.engine ["b"]))
                DemoEngine.heap)
      (if (6 <? length (contents
                          (getFilteredRepos DemoEngine.localeCompare
                                            (DemoEngine.engine ["b"]))
                          DemoEngine.heap))%nat
       then allProjectsSection
              (skipn 6 (contents
                          (getFilteredRepos DemoEngine.localeCompare
                                            (DemoEngine.engine ["b"]))
                          DemoEngine.heap))
       else "").
Proof.
  apply (render_shows_query_results
           DemoEngine.localeCompare DemoEngine.styles
           (DemoEngine.engine ["b"]) DemoEngine.heap
           (mkSnapshot "octocat" DemoEngine.user (Some 0%nat) 0));
    reflexivity.
Defined.
End HelperExtras.

(* ===================================================================== *)
(** * Export pipeline                                                   *)
(* ===================================================================== *)

Section SearchFacts.
Import Page.

Lemma take_app_exact X Y k :
  JS.take (String.length X + k) (X ++ Y) = X ++ JS.take k Y.
Proof.
  induction X as [|a X IH]; [reflexivity|].
  change (String a X ++ Y) with (String a (X ++ Y)).
  cbn [String.length Nat.add JS.take]. rewrite IH. reflexivity.
Qed.

Lemma drop_app_exact X Y k :
  JS.drop (String.length X + k) (X ++ Y) = JS.drop k Y.
Proof.
  induction X as [|a X IH]; [reflexivity|].
  change (String a X ++ Y) with (String a (X ++ Y)).
  cbn [String.length Nat.add JS.drop]. exact IH.
Qed.

Lemma mismatch_app needle :
  forall s Z, mismatch needle s = true -> mismatch needle (s ++ Z) = true.
Proof.
  induction needle as [|a needle IH]; intros [|b s] Z; cbn [mismatch];
    try discriminate.
  change (String b s ++ Z) with (String b (s ++ Z)). cbn [mismatch].
  destruct (Ascii.eqb a b); [apply IH|reflexivity].
Qed.

Lemma mismatch_prefix needle :
  forall s, mismatch needle s = true -> String.prefix needle s = false.
Proof.
  induction needle as [|a needle IH]; intros [|b s]; cbn [mismatch];
    try discriminate.
  cbn [String.prefix]. destruct (Ascii.eqb_spec a b) as [->|Hne].
  - intros H. destruct (ascii_dec b b); [apply IH, H|reflexivity].
  - intros _. destruct (ascii_dec a b); [contradiction|reflexivity].
Qed.

Lemma clearOf_app needle A B :
  clearOf needle A = true -> clearOf needle B = true ->
  clearOf needle (A ++ B) = true.
Proof.
  intros HA HB. induction A as [|a A IH]; [exact HB|].
  cbn [clearOf] in HA. apply andb_true_iff in HA as [Hm HA].
  change (String a A ++ B) with (String a (A ++ B)). cbn [clearOf].
  apply andb_true_iff. split; [|exact (IH HA)].
  exact (mismatch_app needle (String a A) B Hm).
Qed.

Lemma clearOf_without_first c needle E :
  JS.mem c E = false -> clearOf (String c needle) E = true.
Proof.
  induction E as [|a E IH]; [reflexivity|]. cbn [JS.mem clearOf mismatch].
  intros H. apply orb_false_iff in H as [Ha HE].
  rewrite Ascii.eqb_sym, Ha. exact (IH HE).
Qed.

Lemma indexOf_skip needle X Z :
  clearOf needle X = true ->
  JS.indexOf needle (X ++ Z)
  = option_map (Nat.add (String.length X)) (JS.indexOf needle Z).
Proof.
  intros HX. induction X as [|a X IH].
  - cbn [String.length]. change ("" ++ Z) with Z.
    destruct (JS.indexOf needle Z); reflexivity.
  - cbn [clearOf] in HX. apply andb_true_iff in HX as [Hm HX].
    change (String a X ++ Z) with (String a (X ++ Z)).
    cbn [JS.indexOf].
    change (String a (X ++ Z)) with (String a X ++ Z) at 1.
    rewrite (mismatch_prefix _ _ (mismatch_app _ _ Z Hm)).
    rewrite (IH HX). destruct (JS.indexOf needle Z); reflexivity.
Qed.

Lemma prefix_here needle Z : String.prefix needle (needle ++ Z) = true.
Proof.
  induction needle as [|a needle IH]; [destruct Z; reflexivity|].
  change (String a needle ++ Z) with (String a (needle ++ Z)).
  cbn [String.prefix]. destruct (ascii_dec a a); [exact IH|contradiction].
Qed.

Lemma indexOf_here needle Z : JS.indexOf needle (needle ++ Z) = Some 0%nat.
Proof.
  destruct needle as [|a needle]; [destruct Z; reflexivity|].
  change (String a needle ++ Z) with (String a (needle ++ Z)).
  cbn [JS.indexOf].
  change (String a (needle ++ Z)) with (String a needle ++ Z).
  rewrite prefix_here. reflexivity.
Qed.

(** A splice at the first occurrence of a needle leaves a prefix in
    which no occurrence can begin as it is. *)
Lemma splice_keeps_prefix needle S Z ins :
  clearOf needle S = true ->
  exists Z',
    match JS.indexOf needle (S ++ Z) with
    | Some i => JS.take i (S ++ Z) ++ ins ++ JS.drop i (S ++ Z)
    | None => S ++ Z
    end = S ++ Z'.
Proof.
  intros HS. rewrite (indexOf_skip needle S Z HS).
  destruct (JS.indexOf needle Z) as [i|]; cbn [option_map]; [|eauto].
  rewrite take_app_exact, drop_app_exact.
  exists (JS.take i Z ++ ins ++ JS.drop i Z).
  apply append_assoc.
Qed.

Lemma injectIntoHtml_keeps_prefix meta sd S Z ud st :
  clearOf "</head>" S = true -> clearOf "</body>" S = true ->
  exists Z',
    SEOGenerator.injectIntoHtml meta sd (S ++ Z) ud st = S ++ Z'.
Proof.
  intros Hh Hb. unfold SEOGenerator.injectIntoHtml. cbv zeta.
  pose proof (splice_keeps_prefix "</head>" S Z
                (meta ud st ++ JS.newline) Hh) as [Z1 H1].
  destruct (JS.indexOf "</head>" (S ++ Z)) as [i|]; [|eauto].
  rewrite append_assoc in H1. rewrite H1.
  pose proof (splice_keeps_prefix "</body>" S Z1
                (sd ud st ++ JS.newline) Hb) as [Z2 H2].
  destruct (JS.indexOf "</body>" (S ++ Z1)) as [j|]; [|eauto].
  rewrite append_assoc in H2. eauto.
Qed.

Lemma injectCustomColors_after P Z st :
  clearOf "<style>" P = true ->
  ExportHandler.injectCustomColors (P ++ "<style>" ++ Z) st
  = P ++ "<style>" ++ colorVars st ++ Z.
Proof.
  intros HP. unfold ExportHandler.injectCustomColors. cbv zeta.
  rewrite (indexOf_skip "<style>" P _ HP), indexOf_here.
  cbn [option_map].
  replace (String.length P + 0 + 7)%nat
    with (String.length (P ++ "<style>") + 0)%nat
    by (rewrite length_append; cbn; lia).
  rewrite <- (append_assoc P "<style>" Z).
  rewrite take_app_exact, drop_app_exact.
  change (JS.take 0 Z) with "". change (JS.drop 0 Z) with Z.
  rewrite append_empty_r, append_assoc. reflexivity.
Qed.

Lemma clearOf_prologue needle name :
  clearOf (String "<" needle) titleOpen = true ->
  clearOf (String "<" needle) styleLead = true ->
  clearOf (String "<" needle) (prologue name) = true.
Proof.
  intros H1 H2. unfold prologue.
  apply clearOf_app; [exact H1|]. apply clearOf_app; [|exact H2].
  apply clearOf_without_first.
  apply (escapeHtml_no_markup (Some name)).
Qed.

Lemma pageHtml_prologue e ud styles featured allSection :
  exists rest,
    TemplateEngine.pageHtml e ud styles featured allSection
    = prologue (displayName ud) ++ "<style>" ++ rest.
Proof.
  unfold prologue. eexists.
  rewrite !append_assoc.
  unfold TemplateEngine.pageHtml, displayName, titleOpen, styleLead.
  cbv zeta. reflexivity.
Qed.
End SearchFacts.

Section OccurrenceFacts.
Import Page Splice.

Lemma take_append_drop i s : JS.take i s ++ JS.drop i s = s.
Proof.
  revert s. induction i as [|i IH]; intros [|a s]; try reflexivity.
  cbn [JS.take JS.drop].
  change (String a (JS.take i s) ++ JS.drop i s)
    with (String a (JS.take i s ++ JS.drop i s)).
  rewrite IH. reflexivity.
Qed.

Lemma length_splice i s ins :
  String.length (JS.take i s ++ ins ++ JS.drop i s)
  = (String.length s + String.length ins)%nat.
Proof.
  rewrite !length_append. rewrite <- (take_append_drop i s) at 3.
  rewrite length_append. lia.
Qed.

Lemma indexOf_app_r needle s t :
  JS.indexOf needle t <> None -> JS.indexOf needle (s ++ t) <> None.
Proof.
  intros Ht. induction s as [|a s IH]; [exact Ht|].
  change (String a s ++ t) with (String a (s ++ t)). cbn [JS.indexOf].
  destruct (String.prefix needle (String a (s ++ t))); [discriminate|].
  destruct (JS.indexOf needle (s ++ t)); [discriminate|contradiction].
Qed.

(** The first occurrence is not after a given one. *)
Lemma indexOf_le needle A B :
  exists i, JS.indexOf needle (A ++ needle ++ B) = Some i
            /\ (i <= String.length A)%nat.
Proof.
  induction A as [|a A IH].
  - exists 0%nat. change ("" ++ needle ++ B) with (needle ++ B).
    split; [apply indexOf_here|cbn; lia].
  - change (String a A ++ needle ++ B)
      with (String a (A ++ needle ++ B)).
    cbn [JS.indexOf].
    destruct (String.prefix needle (String a (A ++ needle ++ B))).
    + exists 0%nat. split; [reflexivity|cbn; lia].
    + destruct IH as (i & -> & Hi). exists (S i).
      split; [reflexivity|cbn; lia].
Qed.

Lemma drop_app_le i A Y :
  (i <= String.length A)%nat ->
  JS.drop i (A ++ Y) = JS.drop i A ++ Y.
Proof.
  revert A. induction i as [|i IH]; intros [|a A] H; cbn in H;
    try reflexivity; try lia.
  change (String a A ++ Y) with (String a (A ++ Y)). cbn [JS.drop].
  apply IH. lia.
Qed.

Lemma prefix_split needle :
  forall s, String.prefix needle s = true ->
            s = needle ++ JS.drop (String.length needle) s.
Proof.
  induction needle as [|a needle IH]; intros [|b s]; cbn [String.prefix];
    try reflexivity; try discriminate.
  destruct (ascii_dec a b) as [->|]; [|discriminate].
  intros H. cbn [String.length JS.drop].
  change (String b needle ++ JS.drop (String.length needle) s)
    with (String b (needle ++ JS.drop (String.length needle) s)).
  f_equal. exact (IH s H).
Qed.

Lemma drop_after_drop a : forall b s, JS.drop a (JS.drop b s) = JS.drop (b + a) s.
Proof.
  intros b. induction b as [|b IH]; intros s; [reflexivity|].
  destruct s as [|c s]; [cbn; apply drop_empty|].
  cbn [JS.drop Nat.add]. apply IH.
Qed.

Lemma followedBy_app_r n1 n2 s t :
  followedBy n1 n2 t -> followedBy n1 n2 (s ++ t).
Proof.
  intros (A & B & -> & HB). exists (s ++ A), B.
  split; [symmetry; apply append_assoc|exact HB].
Qed.

Lemma followedBy_literal n1 n2 L Y k :
  JS.indexOf n1 L = Some k ->
  JS.indexOf n2 (JS.drop (k + String.length n1) L ++ Y) <> None ->
  followedBy n1 n2 (L ++ Y).
Proof.
  intros Hk HY. pose proof (indexOf_spec n1 L) as Hspec.
  rewrite Hk in Hspec. destruct Hspec as [Hocc _].
  unfold occursAt in Hocc. apply prefix_split in Hocc.
  rewrite drop_after_drop in Hocc.
  exists (JS.take k L), (JS.drop (k + String.length n1) L ++ Y).
  split; [|exact HY].
  rewrite <- (take_append_drop k L) at 1. rewrite Hocc at 1.
  rewrite !append_assoc. reflexivity.
Qed.

(** After a splice at the first [n1], the text still has an [n2]. *)
Lemma splice_keeps_later n1 n2 s ins :
  followedBy n1 n2 s ->
  exists i,
    JS.indexOf n1 s = Some i
    /\ JS.indexOf n2 (JS.take i s ++ ins ++ JS.drop i s) <> None.
Proof.
  intros (A & B & -> & HB).
  destruct (indexOf_le n1 A B) as (i & Hi & Hle).
  exists i. split; [exact Hi|].
  rewrite (drop_app_le i A _ Hle).
  do 4 apply indexOf_app_r. exact HB.
Qed.

Lemma pageHtml_markers e ud styles featured allSection :
  followedBy "</head>" "</body>"
             (TemplateEngine.pageHtml e ud styles featured allSection).
Proof.
  unfold TemplateEngine.pageHtml. cbv zeta.
  repeat first
    [ eapply followedBy_literal; [vm_compute; reflexivity|]
    | apply followedBy_app_r ].
  repeat lazymatch goal with
         | |- JS.indexOf _ (_ ++ _) <> None => apply indexOf_app_r
         end.
  vm_compute. discriminate.
Qed.
End OccurrenceFacts.

Section ExportFacts.
Import TemplateEngine View Page.
Variable localeCompare : string -> string -> Z.
Variable getTemplateStyles : string -> string.
Variable generateMetaTags : option UserData.t -> Settings.t -> string.
Variable generateStructuredData : option UserData.t -> Settings.t -> string.

(** The export renders, reads the snapshot and injects twice. *)
Lemma generateExportHtml_run e h ud :
  valid e h = true ->
  userData e = Some ud ->
  fst (ExportHandler.generateExportHtml localeCompare getTemplateStyles
         generateMetaTags generateStructuredData e h)
  = Some (ExportHandler.injectCustomColors
            (SEOGenerator.injectIntoHtml generateMetaTags
               generateStructuredData
               (fst (render localeCompare getTemplateStyles e h))
               (Some (exported e ud h)) (settings e))
            (settings e)).
Proof.
  intros Hv Hud. unfold ExportHandler.generateExportHtml. rewrite Hud.
  unfold bind at 1.
  destruct (render_run localeCompare getTemplateStyles e h Hv)
    as [fresh ->]. cbn [fst].
  unfold bind at 1.
  assert (Hdata : ExportHandler.snapshotValue ud (h ++ fresh)%list
                  = (exported e ud h, (h ++ fresh)%list)).
  { unfold ExportHandler.snapshotValue, exported.
    rewrite <- (snapshotRepos_extend e h fresh Hv).
    unfold snapshotRepos. rewrite Hud.
    destruct (repos ud) as [l|]; reflexivity. }
  rewrite Hdata. reflexivity.
Qed.

Lemma render_page e h ud :
  valid e h = true ->
  userData e = Some ud ->
  exists featured allSection,
    fst (render localeCompare getTemplateStyles e h)
    = pageHtml e ud (getTemplateStyles (currentTemplate e)) featured
               allSection.
Proof.
  intros Hv Hud.
  destruct (render_run localeCompare getTemplateStyles e h Hv)
    as [fresh ->]. cbn [fst]. unfold renderFrom. rewrite Hud. eauto.
Qed.

Lemma clearOf_style_tag name :
  clearOf "<style>" (prologue name) = true
  /\ clearOf "</head>" (prologue name ++ "<style>") = true
  /\ clearOf "</body>" (prologue name ++ "<style>") = true.
Proof.
  split; [|split].
  - apply clearOf_prologue; vm_compute; reflexivity.
  - apply clearOf_app; [|vm_compute; reflexivity].
    apply clearOf_prologue; vm_compute; reflexivity.
  - apply clearOf_app; [|vm_compute; reflexivity].
    apply clearOf_prologue; vm_compute; reflexivity.
Qed.
End ExportFacts.

Section ExportExtras.
Import TemplateEngine View Page.

(** X19: in the exported document the block of colour variables stands
    directly after the style tag of the rendered page, in front of the
    template's style sheet: whatever the display name, the style sheet,
    the repositories and the injected metadata are, no earlier text is
    taken for the style tag or for a closing head or body marker, so the
    start of the document up to that tag is exported as rendered. *)
Theorem export_puts_colors_at_style_start
        localeCompare getTemplateStyles generateMetaTags
        generateStructuredData e h ud :
  valid e h = true ->
  userData e = Some ud ->
  exists rest0 rest,
    fst (render localeCompare getTemplateStyles e h)
    = prologue (displayName ud) ++ "<style>" ++ rest0
    /\ fst (ExportHandler.generateExportHtml localeCompare
              getTemplateStyles generateMetaTags generateStructuredData
              e h)
       = Some (prologue (displayName ud) ++ "<style>"
                 ++ colorVars (settings e) ++ rest).
Proof.
  intros Hv Hud.
  rewrite (generateExportHtml_run _ _ generateMetaTags
             generateStructuredData e h ud Hv Hud).
  destruct (render_page localeCompare getTemplateStyles e h ud Hv Hud)
    as (featured & allSection & ->).
  destruct (pageHtml_prologue e ud (getTemplateStyles (currentTemplate e))
              featured allSection) as [rest0 ->].
  destruct (clearOf_style_tag (displayName ud)) as (Hs & Hh & Hb).
  exists rest0.
  rewrite <- (append_assoc (prologue (displayName ud)) "<style>" rest0).
  destruct (injectIntoHtml_keeps_prefix generateMetaTags
              generateStructuredData
              (prologue (displayName ud) ++ "<style>") rest0
              (Some (exported e ud h)) (settings e) Hh Hb) as [rest ->].
  exists rest. rewrite !append_assoc.
  split; [reflexivity|].
  rewrite (injectCustomColors_after _ rest (settings e) Hs). reflexivity.
Qed.

Lemma export_puts_colors_at_style_start_witness :
  exists rest0 rest,
    fst (render DemoEngine.localeCompare DemoEngine.styles
                (DemoEngine.engine []) DemoEngine.heap)
    = prologue "The Octocat" ++ "<style>" ++ rest0
    /\ fst (ExportHandler.generateExportHtml
              DemoEngine.localeCompare DemoEngine.styles
              Splice.metaTags Splice.structuredData
              (DemoEngine.engine []) DemoEngine.heap)
       = Some (prologue "The Octocat" ++ "<style>"
                 ++ colorVars (settings (DemoEngine.engine [])) ++ rest).
Proof.
  apply (export_puts_colors_at_style_start
           DemoEngine.localeCompare DemoEngine.styles
           Splice.metaTags Splice.structuredData
           (DemoEngine.engine []) DemoEngine.heap
           (mkSnapshot "octocat" DemoEngine.user (Some 0%nat) 0));
    reflexivity.
Defined.

(** X20: an export of a rendered page never skips an injection: the
    rendered page always has a closing head marker, a closing body
    marker after it and a style tag, so the exported document is the
    rendered page plus the meta tags, the structured data, a line feed
    after each, and the colour variables, and nothing of the page is
    removed. *)
Theorem export_applies_every_injection
        localeCompare getTemplateStyles generateMetaTags
        generateStructuredData e h ud :
  valid e h = true ->
  userData e = Some ud ->
  exists html,
    fst (ExportHandler.generateExportHtml localeCompare getTemplateStyles
           generateMetaTags generateStructuredData e h)
    = Some html
    /\ String.length html
       = (String.length (fst (render localeCompare getTemplateStyles e h))
          + String.length
              (generateMetaTags (Some (exported e ud h)) (settings e))
          + String.length
              (generateStructuredData (Some (exported e ud h)) (settings e))
          + 2
          + String.length (colorVars (settings e)))%nat.
Proof.
  intros Hv Hud.
  rewrite (generateExportHtml_run _ _ generateMetaTags
             generateStructuredData e h ud Hv Hud).
  eexists. split; [reflexivity|].
  destruct (render_page localeCompare getTemplateStyles e h ud Hv Hud)
    as (featured & allSection & ->).
  set (page := pageHtml e ud (getTemplateStyles (currentTemplate e))
                        featured allSection).
  set (metaTags := generateMetaTags (Some (exported e ud h)) (settings e)).
  set (structured :=
         generateStructuredData (Some (exported e ud h)) (settings e)).
  (* the colour block goes in: the prefix argument of X19 *)
  destruct (pageHtml_prologue e ud (getTemplateStyles (currentTemplate e))
              featured allSection) as [rest0 Hpage]. fold page in Hpage.
  destruct (clearOf_style_tag (displayName ud)) as (Hs & Hh & Hb).
  assert (Hseo : exists rest,
             SEOGenerator.injectIntoHtml generateMetaTags
               generateStructuredData page (Some (exported e ud h))
               (settings e)
             = prologue (displayName ud) ++ "<style>" ++ rest).
  { rewrite Hpage, <- append_assoc.
    destruct (injectIntoHtml_keeps_prefix generateMetaTags
                generateStructuredData
                (prologue (displayName ud) ++ "<style>") rest0
                (Some (exported e ud h)) (settings e) Hh Hb) as [rest ->].
    exists rest. apply append_assoc. }
  destruct Hseo as [rest Hseo].
  assert (Hlen : String.length
                   (SEOGenerator.injectIntoHtml generateMetaTags
                      generateStructuredData page
                      (Some (exported e ud h)) (settings e))
                 = (String.length page + String.length metaTags
                    + String.length structured + 2)%nat).
  { unfold SEOGenerator.injectIntoHtml. cbv zeta.
    fold metaTags structured.
    destruct (splice_keeps_later "</head>" "</body>" page
                (metaTags ++ JS.newline)
                (pageHtml_markers e ud _ featured allSection))
      as (i & -> & Hbody).
    rewrite append_assoc in Hbody.
    destruct (JS.indexOf "</body>"
                (JS.take i page ++ metaTags ++ JS.newline
                   ++ JS.drop i page)) as [j|]; [|contradiction].
    rewrite <- (append_assoc structured), length_splice.
    rewrite <- (append_assoc metaTags), length_splice.
    rewrite !length_append. cbn. lia. }
  rewrite Hseo in *.
  rewrite (injectCustomColors_after _ rest (settings e) Hs).
  rewrite !length_append in *. lia.
Qed.

Lemma export_applies_every_injection_witness :
  exists html,
    fst (ExportHandler.generateExportHtml
           DemoEngine.localeCompare DemoEngine.styles
           Splice.metaTags Splice.structuredData
           (DemoEngine.engine []) DemoEngine.heap)
    = Some html
    /\ String.length html
       = (String.length (fst (render DemoEngine.localeCompare
                                     DemoEngine.styles
                                     (DemoEngine.engine [])
                                     DemoEngine.heap))
          + String.length "<meta name=robots content=index>"
          + String.length "<script type=application/ld+json>{}</script>"
          + 2
          + String.length (colorVars (settings (DemoEngine.engine []))))%nat.
Proof.
  apply (export_applies_every_injection
           DemoEngine.localeCompare DemoEngine.styles
           Splice.metaTags Splice.structuredData
           (DemoEngine.engine []) DemoEngine.heap
           (mkSnapshot "octocat" DemoEngine.user (Some 0%nat) 0));
    reflexivity.
Defined.
End ExportExtras.

(* ===================================================================== *)
(** * Sitemap                                                           *)
(* ===================================================================== *)

Section SitemapFacts.
Import Page.

Lemma escapeXml_no_open s :
  JS.mem "<" (SEOGenerator.escapeXml (Some s)) = false.
Proof.
  unfold SEOGenerator.escapeXml.
  destruct (negb (JS.truthy s)); [reflexivity|].
  repeat first
    [ apply replaceChar_removes; reflexivity
    | apply replaceChar_keeps; [reflexivity|] ].
Qed.
End SitemapFacts.

Section SitemapExtras.
Import Page.

(** X21: in the sitemap the text between the first opening and the
    first closing [loc] tag is exactly the escaped profile URL: because
    [escapeXml] leaves no angle bracket, a URL cannot close the element
    or open another one. *)
Theorem sitemap_loc_is_escaped_url today data :
  exists k,
    JS.indexOf "<loc>" (SEOGenerator.generateSitemap today (Some data))
    = Some k
    /\ JS.indexOf "</loc>" (SEOGenerator.generateSitemap today (Some data))
       = Some (k + 5
               + String.length
                   (SEOGenerator.escapeXml
                      (Some (User.html_url (UserData.userInfo data)))))%nat
    /\ JS.take (String.length
                  (SEOGenerator.escapeXml
                     (Some (User.html_url (UserData.userInfo data)))))
               (JS.drop (k + 5)
                  (SEOGenerator.generateSitemap today (Some data)))
       = SEOGenerator.escapeXml
           (Some (User.html_url (UserData.userInfo data))).
Proof.
  set (esc := SEOGenerator.escapeXml
                (Some (User.html_url (UserData.userInfo data)))).
  pose proof (escapeXml_no_open
                (User.html_url (UserData.userInfo data))) as Hesc.
  fold esc in Hesc.
  set (head := "<?xml version=" ++ JS.dq ++ "1.0" ++ JS.dq ++ " encoding="
                 ++ JS.dq ++ "UTF-8" ++ JS.dq ++ "?>
<urlset xmlns=" ++ JS.dq ++ "http://www.sitemaps.org/schemas/sitemap/0.9"
                 ++ JS.dq ++ ">
    <url>
        ").
  assert (Hxml : exists tail,
             SEOGenerator.generateSitemap today (Some data)
             = head ++ "<loc>" ++ esc ++ "</loc>" ++ tail).
  { eexists. unfold SEOGenerator.generateSitemap. cbv zeta. fold esc.
    subst head. reflexivity. }
  destruct Hxml as [tail ->].
  exists (String.length head). split; [|split].
  - rewrite (indexOf_skip "<loc>" head) by (vm_compute; reflexivity).
    rewrite indexOf_here. cbn [option_map].
    first [reflexivity | f_equal; lia].
  - rewrite <- (append_assoc head "<loc>"), <- (append_assoc _ esc).
    rewrite (indexOf_skip "</loc>" ((head ++ "<loc>") ++ esc)).
    2:{ apply clearOf_app; [vm_compute; reflexivity|].
        apply clearOf_without_first, Hesc. }
    rewrite indexOf_here. cbn [option_map]. f_equal.
    rewrite !length_append.
    change (String.length "<loc>") with 5%nat. lia.
  - rewrite <- (append_assoc head "<loc>").
    replace (String.length head + 5)%nat
      with (String.length (head ++ "<loc>") + 0)%nat
      by (rewrite length_append; cbn; lia).
    rewrite drop_app_exact. change (JS.drop 0 ?s) with s.
    replace (String.length esc) with (String.length esc + 0)%nat by lia.
    rewrite take_app_exact. apply append_empty_r.
Qed.
End SitemapExtras.
